(** * uhyve: the KVM monitor of HermitCore (tools/uhyve.c)

    A shallow embedding of the monitor's size parser, ELF loader, page-table
    setup, hypercall handlers, initialisation and exit hook, together with the
    properties the specification states about them.

    Conventions.  C integers are [Z] with the wrap-around of their type
    written out ([wrap64], [to_int], ...).  Guest memory is a function from
    guest physical addresses to bytes; an access outside the mapping is
    undefined behaviour in C and stops the model with [Fault].  Everything the
    host decides (environment, files, ioctl results, TAP reads) is read from a
    [Host] record, so every definition is a total, executable function. *)

From Stdlib Require Import ZArith String Ascii Bool Lia List.
From Stdlib Require Import Strings.Byte.
Import ListNotations.
Local Open Scope Z_scope.

(* ================================================================== *)
(** * Machine integers *)

Module Int.

Definition two64 : Z := 2 ^ 64.
Definition two32 : Z := 2 ^ 32.

(** [size_t], [uint64_t]: arithmetic modulo 2^64. *)
Definition wrap64 (x : Z) : Z := x mod two64.
(** [uint32_t], [unsigned]. *)
Definition wrap32 (x : Z) : Z := x mod two32.
(** [uint16_t], [Elf64_Half]. *)
Definition wrap16 (x : Z) : Z := x mod 2 ^ 16.

(** Conversion to [int] (gcc: reduction modulo 2^32 into the signed range). *)
Definition to_int (x : Z) : Z :=
let u := wrap32 x in if u <? 2 ^ 31 then u else u - two32.

(** Conversion to [ssize_t], [off_t], [long]. *)
Definition to_long (x : Z) : Z :=
let u := wrap64 x in if u <? 2 ^ 63 then u else u - two64.

Definition INT_MAX : Z := 2 ^ 31 - 1.
Definition SSIZE_MAX : Z := 2 ^ 63 - 1.
Definition ULLONG_MAX : Z := two64 - 1.

End Int.

(* ================================================================== *)
(** * The size parser: [memparse] (uhyve.c, lines 176-206) *)

Module Memparse.
Import Int.
Local Open Scope char_scope.

(** [*p] for a C string: the terminating NUL when the string is empty. *)
Definition deref (s : string) : ascii :=
match s with
| EmptyString => "000"
| String c _ => c
end.

(** ** [strtoull(ptr, &endptr, 0)] of the C library *)

Definition isspace (c : ascii) : bool :=
let n := Z.of_N (N_of_ascii c) in
((n =? 32) || ((9 <=? n) && (n <=? 13)))%Z.

(** Value of a character as a digit, for bases up to 36. *)
Definition digit_of (c : ascii) : option Z :=
let n := Z.of_N (N_of_ascii c) in
(if (48 <=? n) && (n <=? 57) then Some (n - 48)
else if (97 <=? n) && (n <=? 122) then Some (n - 97 + 10)
else if (65 <=? n) && (n <=? 90) then Some (n - 65 + 10)
else None)%Z.

Fixpoint skip_space (s : string) : string :=
match s with
| String c t => if isspace c then skip_space t else s
| EmptyString => s
end.

(** The digit loop: accumulated value, whether it overflowed [unsigned long
long], how many digits were consumed, and the unread rest. *)
Fixpoint scan_digits (base : Z) (s : string) (acc : Z) (ovf : bool) (seen : bool)
: Z * bool * bool * string :=
match s with
| EmptyString => (acc, ovf, seen, s)
| String c t =>
match digit_of c with
| Some d =>
    if (d <? base)%Z then
      let acc' := acc * base + d in
      if (ULLONG_MAX <? acc')%Z
      then scan_digits base t ULLONG_MAX true true
      else scan_digits base t acc' ovf true
    else (acc, ovf, seen, s)
| None => (acc, ovf, seen, s)
end
end.

Definition is_hex_digit (c : ascii) : bool :=
match digit_of c with Some d => (d <? 16)%Z | None => false end.

(** Base 0: a [0x]/[0X] prefix followed by a hexadecimal digit selects base
16, a leading [0] base 8, anything else base 10.  Without any digit the
result is 0 and [endptr] is the argument itself; on overflow the result
is [ULLONG_MAX]; a minus sign negates the value in [unsigned long long]. *)
Definition strtoull (ptr : string) : Z * string :=
let s := skip_space ptr in
let '(neg, s) :=
match s with
| String "-" t => (true, t)
| String "+" t => (false, t)
| _ => (false, s)
end in
let '(base, s) :=
match s with
| String "0" (String x (String h t)) =>
  if ((x =? "x") || (x =? "X"))%char && is_hex_digit h
  then (16, String h t) else (8, s)
| String "0" _ => (8, s)
| _ => (10, s)
end in
let '(v, ovf, seen, rest) := scan_digits base s 0 false false in
if seen then
((if ovf then ULLONG_MAX else if neg then wrap64 (- v) else v), rest)
else (0, ptr).

(** ** [memparse] *)

(** [ret <<= 10] on a [size_t]. *)
Definition shl10 (ret : Z) : Z := wrap64 (Z.shiftl ret 10).

(** The [switch] falls through from the matched label down to [case 'k']:
each label is the function running from that label to the [break]. *)
Definition case_K (ret : Z) : Z := shl10 ret.
Definition case_M (ret : Z) : Z := case_K (shl10 ret).
Definition case_G (ret : Z) : Z := case_M (shl10 ret).
Definition case_T (ret : Z) : Z := case_G (shl10 ret).
Definition case_P (ret : Z) : Z := case_T (shl10 ret).
Definition case_E (ret : Z) : Z := case_P (shl10 ret).

Definition memparse (ptr : string) : Z :=
let '(ret, endptr) := strtoull ptr in
match deref endptr with
| "E" | "e" => case_E ret
| "P" | "p" => case_P ret
| "T" | "t" => case_T ret
| "G" | "g" => case_G ret
| "M" | "m" => case_M ret
| "K" | "k" => case_K ret
| _ => ret
end.

(** The power of 1024 the specification attaches to a suffix letter. *)
Definition suffix_exponent (c : ascii) : option Z :=
match c with
| "K" | "k" => Some 1
| "M" | "m" => Some 2
| "G" | "g" => Some 3
| "T" | "t" => Some 4
| "P" | "p" => Some 5
| "E" | "e" => Some 6
| _ => None
end.

End Memparse.

(* ================================================================== *)
(** * Guest memory *)

Module Mem.

(** Contents of memory, addressed by guest physical address (the monitor
maps the guest at [GUEST_OFFSET = 0], so [guest_mem + a] is address
[a]). *)
Definition mem : Type := Z -> byte.

Definition byte_to_Z (b : byte) : Z := Z.of_N (Byte.to_N b).

Definition byte_of_Z (z : Z) : byte :=
match Byte.of_N (Z.to_N (z mod 256)) with
| Some b => b
| None => x00
end.

(** What [mmap(MAP_ANONYMOUS)] returns: zero-filled pages. *)
Definition zero_mem : mem := fun _ => x00.

(** Little-endian decoding of [n] bytes at [a]: the value the monitor reads
through a [uint32_t] or [uint64_t] pointer to [mem + a]. *)
Fixpoint load_le (n : nat) (m : mem) (a : Z) : Z :=
match n with
| O => 0
| S k => byte_to_Z (m a) + 256 * load_le k m (a + 1)
end.

(** Little-endian store of the low [n] bytes of [v] at [a]. *)
Definition store_le (n : nat) (m : mem) (a v : Z) : mem :=
fun x =>
if (a <=? x) && (x <? a + Z.of_nat n)
then byte_of_Z (v / 256 ^ (x - a))
else m x.

(** Copy of a byte sequence to [a] (the effect of a read into [mem + a]). *)
Definition store_bytes (m : mem) (a : Z) (bs : list byte) : mem :=
fun x =>
if (a <=? x) && (x <? a + Z.of_nat (length bs))
then nth (Z.to_nat (x - a)) bs x00
else m x.

(** [memset(mem + a, c, n)]. *)
Definition memset (m : mem) (a : Z) (c : byte) (n : Z) : mem :=
fun x => if (a <=? x) && (x <? a + n) then c else m x.

(** Little-endian decoding of a byte sequence (a field of a C struct read
from a buffer). *)
Fixpoint le_decode (bs : list byte) : Z :=
match bs with
| [] => 0
| b :: t => byte_to_Z b + 256 * le_decode t
end.

(** The [n]-byte field at offset [off] of a buffer. *)
Definition field (buf : list byte) (off : nat) (n : nat) : Z :=
le_decode (firstn n (skipn off buf)).

End Mem.

(* ================================================================== *)
(** * The KVM interface (linux/kvm.h) *)

Module Kvm.

Record kvm_segment : Type := mkSegment {
seg_base : Z; seg_limit : Z; seg_selector : Z; seg_type : Z;
seg_present : Z; seg_dpl : Z; seg_db : Z; seg_s : Z; seg_l : Z;
seg_g : Z; seg_avl : Z
}.

Record kvm_dtable : Type := mkDtable { dt_base : Z; dt_limit : Z }.

(** The fields of [struct kvm_sregs] the monitor touches. *)
Record kvm_sregs : Type := mkSregs {
cs : kvm_segment; ds : kvm_segment; es : kvm_segment;
fs : kvm_segment; gs : kvm_segment; ss : kvm_segment;
gdt : kvm_dtable;
cr0 : Z; cr3 : Z; cr4 : Z; efer : Z
}.

(** The registers [vcpu_init] initialises; all others are zero. *)
Record kvm_regs : Type := mkRegs {
rip : Z; rax : Z; rbx : Z; rdx : Z; rflags : Z
}.

Record kvm_cpuid_entry2 : Type := mkCpuid {
function : Z; eax : Z; ebx : Z; ecx : Z; edx : Z
}.

(** The requests the monitor issues, with their arguments. *)
Inductive request : Type :=
| KVM_GET_API_VERSION
| KVM_CREATE_VM
| KVM_SET_USER_MEMORY_REGION (slot guest_phys_addr memory_size : Z)
| KVM_CREATE_IRQCHIP
| KVM_CREATE_VCPU (id : Z)
| KVM_GET_SREGS
| KVM_SET_SREGS (s : kvm_sregs)
| KVM_SET_REGS (r : kvm_regs)
| KVM_GET_REGS
| KVM_GET_VCPU_MMAP_SIZE
| KVM_GET_SUPPORTED_CPUID
| KVM_SET_CPUID2 (entries : list kvm_cpuid_entry2)
| KVM_GET_MP_STATE
| KVM_SET_MP_STATE (mp_state : Z)
| KVM_RUN.

Definition KVM_MP_STATE_RUNNABLE : Z := 0.

(** What a return of [KVM_RUN] leaves in the shared [run] structure:
the exit reason and, for an I/O exit, the port, the direction and the
32-bit payload at [run + run->io.data_offset]. *)
Inductive exit_reason : Type :=
| KVM_EXIT_HLT
| KVM_EXIT_MMIO (phys_addr : Z)
| KVM_EXIT_IO (port direction data : Z)
| KVM_EXIT_FAIL_ENTRY (reason : Z)
| KVM_EXIT_INTERNAL_ERROR (suberror : Z)
| KVM_EXIT_SHUTDOWN
| KVM_EXIT_OTHER (reason : Z).

(** One call of [ioctl(vcpufd, KVM_RUN)]: a return with an exit reason, or
a failure with its [errno]. *)
Inductive run_result : Type :=
| RunExit (r : exit_reason)
| RunError (errno : Z).

End Kvm.

(* ================================================================== *)
(** * The host and the state of the monitor *)

Module Machine.
Import Int Mem.

Definition EINTR : Z := 4.
Definition EAGAIN : Z := 11.
Definition EFAULT : Z := 14.
Definition E2BIG : Z := 7.
Definition EINVAL : Z := 22.
Definition SIGTERM : Z := 15.
Definition EXIT_FAILURE : Z := 1.

(** What one [pread] on the kernel image meets: a transfer cut short after
at most [n] bytes, or a failure with its [errno] ([EINTR] when a signal
interrupted it).  When the script is empty [pread] transfers all it
can. *)
Inductive pread_event : Type :=
| PreadShort (n : Z)
| PreadError (errno : Z).

(** The result of a [read]: the bytes transferred, or [-1] with [errno]. *)
Inductive read_result : Type :=
| ReadBytes (bs : list byte)
| ReadError (errno : Z).

(** The calls to the host that the properties speak about. *)
Inductive event : Type :=
| EvSignal (sig : Z)
| EvAtexit
| EvOpen (path : string)
| EvClose (fd : Z)
| EvFree
| EvStderr (msg : string)
| EvPuts (msg : string)
| EvPrintKlog (addr : Z)
| EvKill (thread sig : Z)
| EvJoin (thread : Z)
| EvCreate (id : Z)
| EvIoctl (fd : Z) (req : Kvm.request)
| EvRead (fd buf count : Z)
| EvWrite (fd buf count : Z)
| EvGuestOpen (name flags mode : Z)
| EvLseek (fd offset whence : Z)
| EvClflush (addr : Z).

(** Everything the host decides. *)
Record Host : Type := mkHost {
getenv : string -> option string;
(** [open(path, O_RDONLY)]: the descriptor and the contents of the file. *)
open_file : string -> option (Z * list byte);
(** [open("/dev/kvm", ...)] *)
open_kvm : Z;
(** the return value of each [ioctl] *)
ioctl : Z -> Kvm.request -> Z;
(** what [KVM_GET_SREGS] and [KVM_GET_SUPPORTED_CPUID] fill in *)
initial_sregs : Kvm.kvm_sregs;
initial_mp_state : Z;
supported_cpuid : list Kvm.kvm_cpuid_entry2;
(** [sizeof(struct kvm_run)] of the kernel headers *)
sizeof_kvm_run : Z;
(** whether an [mmap] of this length, a [malloc] of this size succeeds *)
mmap_ok : Z -> bool;
malloc_ok : Z -> bool;
(** the indeterminate contents of a fresh stack or heap object *)
uninit : nat -> byte;
(** the two files [get_cpufreq] consults, when they can be opened *)
cpuinfo_max_freq : option string;
proc_cpuinfo : option string;
(** return values of [close], [write], [open], [lseek] on behalf of the
guest, and of a [read] on an ordinary descriptor *)
sys_close : Z -> Z;
sys_write : Z -> Z -> Z -> Z;
sys_open : Z -> Z -> Z -> Z;
sys_lseek : Z -> Z -> Z -> Z;
sys_read : Z -> Z -> read_result;
(** [pthread_self()], and the handle [pthread_create] stores for the
thread of vCPU [id] *)
pthread_self : Z;
thread_id : Z -> Z;
(** the descriptor [setup_network] (uhyve-net.c) returns for an
interface name *)
setup_network : string -> Z;
(** the MAC string the network set-up left in [netinfo.mac_str] *)
mac_str : list byte
}.

Record state : Type := mkState {
ncores : Z; (* [static uint32_t ncores] *)
guest_mem : option Mem.mem; (* contents of the guest mapping; [None] is the [NULL] pointer *)
klog : option Z; (* [klog], as an offset from [guest_mem]; [None] is [NULL] *)
mboot : option Z; (* [mboot], likewise *)
guest_size : Z; (* [static size_t guest_size] *)
elf_entry : Z; (* [static uint64_t elf_entry] *)
vcpu_threads : option (list Z); (* [pthread_t* vcpu_threads]; [None] is [NULL] *)
kvm : Z;
vmfd : Z;
netfd : Z;
run_mapped : bool; (* whether the thread's [run] mapping exists *)
vcpufd : Z; (* [static __thread int vcpufd] *)
sregs : Kvm.kvm_sregs; (* the [static struct kvm_sregs] of [setup_system] *)
pread_script : list pread_event; (* what the next [pread] calls will meet *)
tap_script : list read_result; (* what the next [read]s on the TAP descriptor return *)
trace : list event (* the host calls made so far, oldest first *)
}.

Definition set_ncores (v : Z) (s : state) : state :=
mkState v (guest_mem s) (klog s) (mboot s) (guest_size s) (elf_entry s) (vcpu_threads s) (kvm s) (vmfd s) (netfd s) (run_mapped s) (vcpufd s) (sregs s) (pread_script s) (tap_script s) (trace s).
Definition set_guest_mem (v : option Mem.mem) (s : state) : state :=
mkState (ncores s) v (klog s) (mboot s) (guest_size s) (elf_entry s) (vcpu_threads s) (kvm s) (vmfd s) (netfd s) (run_mapped s) (vcpufd s) (sregs s) (pread_script s) (tap_script s) (trace s).
Definition set_klog (v : option Z) (s : state) : state :=
mkState (ncores s) (guest_mem s) v (mboot s) (guest_size s) (elf_entry s) (vcpu_threads s) (kvm s) (vmfd s) (netfd s) (run_mapped s) (vcpufd s) (sregs s) (pread_script s) (tap_script s) (trace s).
Definition set_mboot (v : option Z) (s : state) : state :=
mkState (ncores s) (guest_mem s) (klog s) v (guest_size s) (elf_entry s) (vcpu_threads s) (kvm s) (vmfd s) (netfd s) (run_mapped s) (vcpufd s) (sregs s) (pread_script s) (tap_script s) (trace s).
Definition set_guest_size (v : Z) (s : state) : state :=
mkState (ncores s) (guest_mem s) (klog s) (mboot s) v (elf_entry s) (vcpu_threads s) (kvm s) (vmfd s) (netfd s) (run_mapped s) (vcpufd s) (sregs s) (pread_script s) (tap_script s) (trace s).
Definition set_elf_entry (v : Z) (s : state) : state :=
mkState (ncores s) (guest_mem s) (klog s) (mboot s) (guest_size s) v (vcpu_threads s) (kvm s) (vmfd s) (netfd s) (run_mapped s) (vcpufd s) (sregs s) (pread_script s) (tap_script s) (trace s).
Definition set_vcpu_threads (v : option (list Z)) (s : state) : state :=
mkState (ncores s) (guest_mem s) (klog s) (mboot s) (guest_size s) (elf_entry s) v (kvm s) (vmfd s) (netfd s) (run_mapped s) (vcpufd s) (sregs s) (pread_script s) (tap_script s) (trace s).
Definition set_kvm (v : Z) (s : state) : state :=
mkState (ncores s) (guest_mem s) (klog s) (mboot s) (guest_size s) (elf_entry s) (vcpu_threads s) v (vmfd s) (netfd s) (run_mapped s) (vcpufd s) (sregs s) (pread_script s) (tap_script s) (trace s).
Definition set_vmfd (v : Z) (s : state) : state :=
mkState (ncores s) (guest_mem s) (klog s) (mboot s) (guest_size s) (elf_entry s) (vcpu_threads s) (kvm s) v (netfd s) (run_mapped s) (vcpufd s) (sregs s) (pread_script s) (tap_script s) (trace s).
Definition set_netfd (v : Z) (s : state) : state :=
mkState (ncores s) (guest_mem s) (klog s) (mboot s) (guest_size s) (elf_entry s) (vcpu_threads s) (kvm s) (vmfd s) v (run_mapped s) (vcpufd s) (sregs s) (pread_script s) (tap_script s) (trace s).
Definition set_run_mapped (v : bool) (s : state) : state :=
mkState (ncores s) (guest_mem s) (klog s) (mboot s) (guest_size s) (elf_entry s) (vcpu_threads s) (kvm s) (vmfd s) (netfd s) v (vcpufd s) (sregs s) (pread_script s) (tap_script s) (trace s).
Definition set_vcpufd (v : Z) (s : state) : state :=
mkState (ncores s) (guest_mem s) (klog s) (mboot s) (guest_size s) (elf_entry s) (vcpu_threads s) (kvm s) (vmfd s) (netfd s) (run_mapped s) v (sregs s) (pread_script s) (tap_script s) (trace s).
Definition set_sregs (v : Kvm.kvm_sregs) (s : state) : state :=
mkState (ncores s) (guest_mem s) (klog s) (mboot s) (guest_size s) (elf_entry s) (vcpu_threads s) (kvm s) (vmfd s) (netfd s) (run_mapped s) (vcpufd s) v (pread_script s) (tap_script s) (trace s).
Definition set_pread_script (v : list pread_event) (s : state) : state :=
mkState (ncores s) (guest_mem s) (klog s) (mboot s) (guest_size s) (elf_entry s) (vcpu_threads s) (kvm s) (vmfd s) (netfd s) (run_mapped s) (vcpufd s) (sregs s) v (tap_script s) (trace s).
Definition set_tap_script (v : list read_result) (s : state) : state :=
mkState (ncores s) (guest_mem s) (klog s) (mboot s) (guest_size s) (elf_entry s) (vcpu_threads s) (kvm s) (vmfd s) (netfd s) (run_mapped s) (vcpufd s) (sregs s) (pread_script s) v (trace s).
Definition set_trace (v : list event) (s : state) : state :=
mkState (ncores s) (guest_mem s) (klog s) (mboot s) (guest_size s) (elf_entry s) (vcpu_threads s) (kvm s) (vmfd s) (netfd s) (run_mapped s) (vcpufd s) (sregs s) (pread_script s) (tap_script s) v.

(** The state at program start: the initial values of the globals. *)
Definition initial_state (sr : Kvm.kvm_sregs) (ps : list pread_event)
(ts : list read_result) : state :=
mkState 1 None None None 0x20000000 0 None (-1) (-1) (-1) false 1 sr ps ts [].

(** ** Outcomes and the monad of the monitor *)

Inductive outcome (A : Type) : Type :=
| Ret (a : A) (s : state)       (* normal completion *)
| Exit (status : Z) (s : state) (* [exit(status)], [err(status, ...)] *)
| Abort (s : state)             (* a failed [assert]: [abort()] *)
| Fault (s : state)             (* undefined behaviour: access outside an object *)
| Blocked (s : state).          (* waits for the guest or another thread *)

Arguments Ret {A} a s.
Arguments Exit {A} status s.
Arguments Abort {A} s.
Arguments Fault {A} s.
Arguments Blocked {A} s.

Definition M (A : Type) : Type := state -> outcome A.

Definition ret {A} (a : A) : M A := fun s => Ret a s.

Definition bind {A B} (c : M A) (k : A -> M B) : M B :=
fun s =>
match c s with
| Ret a s' => k a s'
| Exit st s' => Exit st s'
| Abort s' => Abort s'
| Fault s' => Fault s'
| Blocked s' => Blocked s'
end.

Definition get : M state := fun s => Ret s s.
Definition modify (f : state -> state) : M unit := fun s => Ret tt (f s).
Definition exit {A} (status : Z) : M A := fun s => Exit status s.
Definition abort {A} : M A := fun s => Abort s.
Definition fault {A} : M A := fun s => Fault s.
Definition blocked {A} : M A := fun s => Blocked s.

(** [assert(b)] with assertions compiled in (the file does not define
[NDEBUG]). *)
Definition c_assert (b : bool) : M unit := if b then ret tt else abort.

(** A call to the host is appended to the trace. *)
Definition emit (e : event) : M unit :=
modify (fun s => set_trace (trace s ++ [e]) s).

(** [err(1, ...)]: message and [exit(1)]. *)
Definition err {A} (msg : string) : M A :=
bind (emit (EvStderr msg)) (fun _ => exit 1).

End Machine.

Declare Scope monitor_scope.
Delimit Scope monitor_scope with monitor.
Notation "x <- c ;; k" := (Machine.bind c (fun x => k))
  (at level 61, c at next level, right associativity) : monitor_scope.
Notation "' p <- c ;; k" := (Machine.bind c (fun x => let 'p := x in k))
  (at level 61, p pattern, c at next level, right associativity) : monitor_scope.
Notation "c ;;; k" := (Machine.bind c (fun _ => k))
  (at level 61, right associativity) : monitor_scope.

Local Open Scope monitor_scope.

(* ================================================================== *)
(** * ELF structures (elf.h) *)

Module Elf.
Import Mem.

Record Elf64_Ehdr : Type := mkEhdr {
e_ident : list byte;
e_type : Z; e_machine : Z; e_version : Z;
e_entry : Z; e_phoff : Z; e_shoff : Z; e_flags : Z;
e_ehsize : Z; e_phentsize : Z; e_phnum : Z;
e_shentsize : Z; e_shnum : Z; e_shstrndx : Z
}.

Record Elf64_Phdr : Type := mkPhdr {
p_type : Z; p_flags : Z; p_offset : Z; p_vaddr : Z;
p_paddr : Z; p_filesz : Z; p_memsz : Z; p_align : Z
}.

Definition sizeof_Ehdr : nat := 64.
Definition sizeof_Phdr : nat := 56.

Definition EI_MAG0 : nat := 0.
Definition EI_MAG1 : nat := 1.
Definition EI_MAG2 : nat := 2.
Definition EI_MAG3 : nat := 3.
Definition EI_CLASS : nat := 4.
Definition EI_OSABI : nat := 7.
Definition ELFMAG0 : byte := x7f.
Definition ELFMAG1 : byte := x45. (* 'E' *)
Definition ELFMAG2 : byte := x4c. (* 'L' *)
Definition ELFMAG3 : byte := x46. (* 'F' *)
Definition ELFCLASS64 : byte := x02.
Definition ET_EXEC : Z := 2.
Definition EM_X86_64 : Z := 62.
Definition PT_LOAD : Z := 1.

(** An object in the monitor's own memory: its bytes by index. *)
Definition buffer : Type := nat -> byte.

(** The buffer after a read stored [written] at its start: the rest keeps
what it held before. *)
Definition overlay (written : list byte) (old : buffer) : buffer :=
fun i => nth i written (old i).

(** The little-endian field of [n] bytes at offset [off]. *)
Definition field_at (buf : buffer) (off n : nat) : Z :=
le_decode (map buf (seq off n)).

(** [struct Elf64_Ehdr] as laid out on x86-64. *)
Definition decode_ehdr (buf : buffer) : Elf64_Ehdr :=
mkEhdr (map buf (seq 0 16))
   (field_at buf 16 2) (field_at buf 18 2) (field_at buf 20 4)
   (field_at buf 24 8) (field_at buf 32 8) (field_at buf 40 8)
   (field_at buf 48 4)
   (field_at buf 52 2) (field_at buf 54 2) (field_at buf 56 2)
   (field_at buf 58 2) (field_at buf 60 2) (field_at buf 62 2).

(** [phdr[i]] for an array starting at byte [base] of a buffer:
[struct Elf64_Phdr] as laid out on x86-64. *)
Definition decode_phdr (buf : buffer) (base : nat) : Elf64_Phdr :=
mkPhdr (field_at buf base 4) (field_at buf (base + 4) 4)
   (field_at buf (base + 8) 8) (field_at buf (base + 16) 8)
   (field_at buf (base + 24) 8) (field_at buf (base + 32) 8)
   (field_at buf (base + 40) 8) (field_at buf (base + 48) 8).

(** A file seen as an object: reading past its end yields [x00], which
[decode_phdr] never does on the images the theorems consider. *)
Definition of_file (file : list byte) : buffer := fun i => nth i file x00.

End Elf.

(* ================================================================== *)
(** * Pieces of the C library the monitor calls *)

Module Libc.
Import Int Memparse.
Local Open Scope char_scope.

Definition NUL : ascii := "000".
Definition newline : ascii := "010".

(** The C string held at the start of a character array: the characters
before the first NUL. *)
Fixpoint cstr (buf : list ascii) : list ascii :=
match buf with
| [] => []
| c :: t => if (c =? NUL)%char then [] else c :: cstr t
end.

(** The characters one [fgets(line, size, fp)] takes from the unread part
of the stream: at most [size - 1], ending after the first newline. *)
Fixpoint fgets_take (k : nat) (s : list ascii) : list ascii * list ascii :=
match k, s with
| O, _ => ([], s)
| _, [] => ([], [])
| S k', c :: t =>
if (c =? newline)%char then ([c], t)
else let '(l, r) := fgets_take k' t in (c :: l, r)
end.

(** [fgets]: [None] at end of file, otherwise the array after the call
(the characters read, a NUL, then what the array held before) and the
unread rest of the stream. *)
Definition fgets (line : list ascii) (size : nat) (stream : list ascii)
: option (list ascii * list ascii) :=
match stream with
| [] => None
| _ =>
let '(l, rest) := fgets_take (size - 1) stream in
let w := (l ++ [NUL])%list in
Some ((w ++ skipn (length w) line)%list, rest)
end.

Fixpoint is_prefix (needle s : list ascii) : bool :=
match needle, s with
| [], _ => true
| _, [] => false
| a :: n', b :: s' => (a =? b)%char && is_prefix n' s'
end.

(** [strstr(s, needle)] on the C string [s]: the index of the first
occurrence. *)
Fixpoint strstr_from (needle s : list ascii) (i : nat) : option nat :=
if is_prefix needle s then Some i
else match s with
 | [] => None
 | _ :: t => strstr_from needle t (S i)
 end.

Definition strstr (s needle : list ascii) : option nat :=
strstr_from needle (cstr s) 0.

Definition is_digit (c : ascii) : bool :=
let n := Z.of_N (N_of_ascii c) in ((48 <=? n) && (n <=? 57))%Z.

(** The decimal digit loop of [strtol], saturating at [bound]. *)
Fixpoint strtol_digits (s : list ascii) (acc bound : Z) : Z :=
match s with
| c :: t =>
if is_digit c then
  let acc' := (acc * 10 + (Z.of_N (N_of_ascii c) - 48))%Z in
  strtol_digits t (if (bound <? acc')%Z then bound else acc') bound
else acc
| [] => acc
end.

Fixpoint skip_spaces (s : list ascii) : list ascii :=
match s with
| c :: t => if isspace c then skip_spaces t else s
| [] => s
end.

(** [atoi(s)] is [(int) strtol(s, NULL, 10)]. *)
Definition atoi (s : list ascii) : Z :=
match skip_spaces (cstr s) with
| "-" :: t => to_int (- strtol_digits t 0 (2 ^ 63))
| "+" :: t => to_int (strtol_digits t 0 (2 ^ 63 - 1))
| t => to_int (strtol_digits t 0 (2 ^ 63 - 1))
end.

(** The index of the first element from position [i] on that satisfies
[p]; [None] when the array ends first. *)
Fixpoint find_from (p : ascii -> bool) (buf : list ascii) (i : nat) : option nat :=
match buf with
| [] => None
| c :: t => if p c then Some i else find_from p t (S i)
end.

Definition scan (p : ascii -> bool) (buf : list ascii) (start : nat) : option nat :=
find_from p (skipn start buf) start.

(** [buf[i] = c]. *)
Fixpoint poke (buf : list ascii) (i : nat) (c : ascii) : list ascii :=
match buf, i with
| [], _ => []
| _ :: t, O => c :: t
| b :: t, S i' => b :: poke t i' c
end.

End Libc.

(* ================================================================== *)
(** * Constants of uhyve-cpu.h *)

Module Cpu.

(** Modelled from the spec: the header uhyve-cpu.h is not among the
sources.  The specification names the page-table flags "present",
"writable" and "page-size" and the control bits CR0.PE, CR0.PG,
CR4.PAE and EFER.LME; their positions are those the x86-64
architecture fixes. *)
Definition X86_PDPT_P : Z := Z.shiftl 1 0.
Definition X86_PDPT_RW : Z := Z.shiftl 1 1.
Definition X86_PDPT_PS : Z := Z.shiftl 1 7.
Definition X86_CR0_PE : Z := Z.shiftl 1 0.
Definition X86_CR0_PG : Z := Z.shiftl 1 31.
Definition X86_CR4_PAE : Z := Z.shiftl 1 5.
Definition EFER_LME : Z := Z.shiftl 1 8.

(** Modelled from the spec: [GDT_ENTRY(flags, base, limit)] of
uhyve-cpu.h, absent from the sources, packs a segment descriptor in the
layout of the architecture: limit 15:0, base 23:0, the low flag byte
(type, S, DPL, P), limit 19:16, the high flag nibble (AVL, L, D/B, G),
base 31:24. *)
Definition GDT_ENTRY (flags base limit : Z) : Z :=
Z.lor (Z.shiftl (Z.land base 0xff000000) (56 - 24))
(Z.lor (Z.shiftl (Z.land flags 0x0000f0ff) 40)
(Z.lor (Z.shiftl (Z.land limit 0x000f0000) (48 - 16))
(Z.lor (Z.shiftl (Z.land base 0x00ffffff) 16)
  (Z.land limit 0x0000ffff)))).

Definition bits (x : Z) (lo n : Z) : Z := Z.land (Z.shiftr x lo) (Z.ones n).

(** Modelled from the spec: [GDT_TO_KVM_SEGMENT(seg, gdt, sel)], the
"translation helper" of uhyve-cpu.h, reads the descriptor fields back
into a [struct kvm_segment]. *)
Definition GDT_TO_KVM_SEGMENT (gdt_ent sel : Z) : Kvm.kvm_segment :=
Kvm.mkSegment
(Z.lor (bits gdt_ent 16 24) (Z.shiftl (bits gdt_ent 56 8) 24))
(Z.lor (bits gdt_ent 0 16) (Z.shiftl (bits gdt_ent 48 4) 16))
(sel * 8)
(bits gdt_ent 40 4)
(bits gdt_ent 47 1)
(bits gdt_ent 45 2)
(bits gdt_ent 54 1)
(bits gdt_ent 44 1)
(bits gdt_ent 53 1)
(bits gdt_ent 55 1)
(bits gdt_ent 52 1).

End Cpu.

(* ================================================================== *)
(** * The monitor (tools/uhyve.c) *)

Module Uhyve.
Import Int Mem Machine Elf.

Definition GUEST_OFFSET : Z := 0x0.
Definition CPUID_FUNC_PERFMON : Z := 0x0A.
Definition GUEST_PAGE_SIZE : Z := 0x200000.

Definition BOOT_GDT : Z := 0x1000.
Definition BOOT_INFO : Z := 0x2000.
Definition BOOT_PML4 : Z := 0x10000.
Definition BOOT_PDPTE : Z := 0x11000.
Definition BOOT_PDE : Z := 0x12000.

Definition BOOT_GDT_NULL : Z := 0.
Definition BOOT_GDT_CODE : Z := 1.
Definition BOOT_GDT_DATA : Z := 2.
Definition BOOT_GDT_MAX : Z := 3.

Definition KVM_32BIT_MAX_MEM_SIZE : Z := Z.shiftl 1 32.
Definition KVM_32BIT_GAP_SIZE : Z := Z.shiftl 768 20.
Definition KVM_32BIT_GAP_START : Z := KVM_32BIT_MAX_MEM_SIZE - KVM_32BIT_GAP_SIZE.

Definition UHYVE_PORT_WRITE : Z := 0x499.
Definition UHYVE_PORT_OPEN : Z := 0x500.
Definition UHYVE_PORT_CLOSE : Z := 0x501.
Definition UHYVE_PORT_READ : Z := 0x502.
Definition UHYVE_PORT_EXIT : Z := 0x503.
Definition UHYVE_PORT_LSEEK : Z := 0x504.
Definition UHYVE_PORT_NETINFO : Z := 0x505.
Definition UHYVE_PORT_NETWRITE : Z := 0x506.
Definition UHYVE_PORT_NETREAD : Z := 0x507.

(** ** Access to guest memory through [guest_mem]

An access is defined when [guest_mem] is mapped and the range lies in
the [guest_size] bytes of the mapping. *)

Definition in_guest (s : state) (a n : Z) : bool :=
match guest_mem s with
| Some _ => (0 <=? a) && (0 <=? n) && (a + n <=? guest_size s)
| None => false
end.

Definition guest_update (a n : Z) (f : mem -> mem) : M unit :=
fun s =>
match guest_mem s with
| Some m =>
  if in_guest s a n then Ret tt (set_guest_mem (Some (f m)) s)
  else Fault s
| None => Fault s
end.

Definition guest_load (n : nat) (a : Z) : M Z :=
fun s =>
match guest_mem s with
| Some m =>
  if in_guest s a (Z.of_nat n) then Ret (load_le n m a) s else Fault s
| None => Fault s
end.

Definition guest_store (n : nat) (a v : Z) : M unit :=
guest_update a (Z.of_nat n) (fun m => store_le n m a v).

Definition guest_store_bytes (a : Z) (bs : list byte) : M unit :=
guest_update a (Z.of_nat (length bs)) (fun m => store_bytes m a bs).

(** What a [read] or [pread] into [guest_mem + a] leaves there: the bytes
transferred; a call that transfers nothing touches nothing. *)
Definition store_read (a : Z) (bs : list byte) : M unit :=
match bs with
| [] => ret tt
| _ :: _ => guest_store_bytes a bs
end.

Definition guest_memset (a : Z) (c : byte) (n : Z) : M unit :=
guest_update a n (fun m => memset m a c n).

(** A pointer into the guest held in a global: dereferencing [NULL] is a
fault. *)
Definition deref_global (p : option Z) : M Z :=
match p with
| Some a => ret a
| None => fault
end.

Section WithHost.

Variable host : Host.

(** [HERMIT_ELFOSABI] is defined in proxy.h, which is not among the
sources: the OS/ABI octet of the guest family is a parameter. *)
Variable HERMIT_ELFOSABI : byte.

(** [kvm_ioctl(fd, cmd, arg)]: the request, and [err(1, ...)] when it
returns -1. *)
Definition kvm_ioctl (fd : Z) (req : Kvm.request) : M Z :=
emit (EvIoctl fd req) ;;;
let r := ioctl host fd req in
if r =? -1 then err "KVM: ioctl failed" else ret r.

(** ** [get_cpufreq] (lines 250-289) *)

Definition chars (s : string) : list ascii := list_ascii_of_string s.

(** [char line[2048]] before anything is stored in it. *)
Definition line_uninit : list ascii :=
map (fun i => ascii_of_byte (uninit host i)) (seq 0 2048).

(** The [while (fgets(line, 2048, fp))] loop over /proc/cpuinfo.  [fuel]
bounds the number of lines; every [fgets] consumes a character, so the
length of the file suffices.  The two inner [for] loops walk the array
[line]; leaving the array is undefined, which [None] stands for. *)
Fixpoint cpuinfo_loop (fuel : nat) (line stream : list ascii) : option Z :=
match fuel with
| O => Some 0
| S fuel' =>
match Libc.fgets line 2048 stream with
| None => Some 0
| Some (line, stream) =>
match Libc.strstr line (chars "cpu MHz") with
| None => cpuinfo_loop fuel' line stream
| Some m =>
match Libc.scan Libc.is_digit line m with
| None => None
| Some m =>
    match Libc.scan (fun c => (c =? ".")%char || (c =? Libc.NUL)%char) line m with
    | None => None
    | Some point =>
        let line := Libc.poke line point Libc.NUL in
        Some (wrap32 (Libc.atoi (skipn m line)))
    end
end
end
end
end.

(** The value [get_cpufreq] computes from the files of the host. *)
Definition cpufreq : option Z :=
match cpuinfo_max_freq host with
| Some content =>
match Libc.fgets line_uninit 2048 (chars content) with
| Some (line, _) => Some (wrap32 (Z.quot (Libc.atoi line) 1000))
| None => Some 0
end
| None =>
match proc_cpuinfo host with
| None => Some 0
| Some content =>
cpuinfo_loop (S (length (chars content))) line_uninit (chars content)
end
end.

Definition get_cpufreq : M Z :=
match cpufreq with
| Some freq => ret freq
| None => fault
end.

(** ** [pread_in_full] (lines 291-319) *)

(** One [pread(fd, p, count, offset)] on a file with contents [file]:
the return value, [errno] and the bytes stored at [p]. *)
Definition sys_pread (file : list byte) (ev : option pread_event)
(count offset : Z) : Z * Z * list byte :=
if to_long offset <? 0 then (-1, EINVAL, [])
else
let avail := skipn (Z.to_nat offset) file in
match ev with
| Some (PreadError e) => (-1, e, [])
| Some (PreadShort n) =>
let data := firstn (Z.to_nat (Z.min (Z.max 1 n) count)) avail in
(Z.of_nat (length data), 0, data)
| None =>
let data := firstn (Z.to_nat count) avail in
(Z.of_nat (length data), 0, data)
end.

(** The [while (count > 0)] loop.  Every iteration uses up an entry of the
script or transfers at least one byte of the file, which bounds the
number of iterations; [written] collects what the calls stored at
[buf], in order. *)
Fixpoint pread_loop (fuel : nat) (file : list byte) (script : list pread_event)
(count offset total : Z) (written : list byte)
: Z * list byte * list pread_event :=
match fuel with
| O => (total, written, script)
| S fuel' =>
if 0 <? count then
let '(nr, errno, data) := sys_pread file (hd_error script) count offset in
let script := tl script in
if nr =? 0 then (total, written, script)
else if (nr =? -1) && (errno =? EINTR) then
pread_loop fuel' file script count offset total written
else if nr =? -1 then (-1, written, script)
else pread_loop fuel' file script (count - nr) (offset + nr)
          (total + nr) (written ++ data)
else (total, written, script)
end.

(** [pread_in_full(fd, buf, count, offset)]: the return value and the
bytes stored at [buf]. *)
Definition pread_in_full (file : list byte) (count offset : Z)
: M (Z * list byte) :=
if SSIZE_MAX <? count then ret (-1, [])
else
s <- get ;;
let fuel := S (S (length (pread_script s) + length file)) in
let '(r, written, script) :=
pread_loop fuel file (pread_script s) count offset 0 [] in
modify (set_pread_script script) ;;;
ret (r, written).

(** ** [load_kernel] (lines 321-412) *)

(** The test that rejects a file that is not a HermitCore image. *)
Definition not_hermit (hdr : Elf64_Ehdr) : bool :=
let ident := fun i => nth i (e_ident hdr) x00 in
negb (Byte.eqb (ident EI_MAG0) ELFMAG0)
|| negb (Byte.eqb (ident EI_MAG1) ELFMAG1)
|| negb (Byte.eqb (ident EI_MAG2) ELFMAG2)
|| negb (Byte.eqb (ident EI_MAG3) ELFMAG3)
|| negb (Byte.eqb (ident EI_CLASS) ELFCLASS64)
|| negb (Byte.eqb (ident EI_OSABI) HERMIT_ELFOSABI)
|| negb (e_type hdr =? ET_EXEC) || negb (e_machine hdr =? EM_X86_64).

(** The block under [if (first_load)]: the boot-info fields. *)
Definition init_kernel (paddr filesz : Z) : M unit :=
guest_store 8 (paddr - GUEST_OFFSET + 0x08) paddr ;;;
gs <- (s <- get ;; ret (guest_size s)) ;;
guest_store 8 (paddr - GUEST_OFFSET + 0x10) gs ;;;
freq <- get_cpufreq ;;
guest_store 4 (paddr - GUEST_OFFSET + 0x18) freq ;;;
guest_store 4 (paddr - GUEST_OFFSET + 0x24) 1 ;;;
guest_store 4 (paddr - GUEST_OFFSET + 0x30) 0 ;;;
guest_store 8 (paddr - GUEST_OFFSET + 0x38) filesz ;;;
guest_store 4 (paddr - GUEST_OFFSET + 0x60) 1 ;;;
guest_store 4 (paddr - GUEST_OFFSET + 0x94) 1.

(** The body of the [for] loop for a [PT_LOAD] header.  The result tells
whether the loop goes on ([false] is the [goto out]). *)
Definition load_segment (file : list byte) (first_load : bool)
(ph : Elf64_Phdr) : M bool :=
let paddr := p_paddr ph in
let offset := p_offset ph in
let filesz := p_filesz ph in
let memsz := p_memsz ph in
'(r, written) <- pread_in_full file filesz offset ;;
store_read (paddr - GUEST_OFFSET) written ;;;
if to_int r <? 0 then ret false
else
guest_memset (paddr + filesz - GUEST_OFFSET) x00 (wrap64 (memsz - filesz)) ;;;
modify (fun s => match klog s with
       | None => set_klog (Some (paddr + 0x5000 - GUEST_OFFSET)) s
       | Some _ => s
       end) ;;;
modify (fun s => match mboot s with
       | None => set_mboot (Some (paddr - GUEST_OFFSET)) s
       | Some _ => s
       end) ;;;
(if first_load then init_kernel paddr filesz else ret tt) ;;;
ret true.

(** The [for (ph_i = 0; ph_i < hdr.e_phnum; ph_i++)] loop, [todo] headers
before its end.  [phdr] is the array of [buflen] bytes that [malloc]
returned; reading [phdr[ph_i]] beyond it is a fault. *)
Fixpoint load_segments (file : list byte) (phdr : buffer) (buflen : Z)
(todo : nat) (ph_i : nat) (first_load : bool) : M unit :=
match todo with
| O => ret tt
| S todo' =>
if Z.of_nat (sizeof_Phdr * (ph_i + 1)) <=? buflen then
let ph := decode_phdr phdr (sizeof_Phdr * ph_i) in
if negb (p_type ph =? PT_LOAD) then
load_segments file phdr buflen todo' (S ph_i) first_load
else
go_on <- load_segment file first_load ph ;;
if go_on then load_segments file phdr buflen todo' (S ph_i) false
else ret tt
else fault
end.

(** From the first [pread_in_full] to the label [out]; the result tells
whether [phdr] is allocated there. *)
Definition load_kernel_body (file : list byte) : M bool :=
'(r, written) <- pread_in_full file (Z.of_nat sizeof_Ehdr) 0 ;;
if to_int r <? 0 then ret false
else
let hdr := decode_ehdr (overlay written (uninit host)) in
if not_hermit hdr then
emit (EvStderr "Inavlide HermitCore file!") ;;; ret false
else
modify (set_elf_entry (e_entry hdr)) ;;;
(* the product is computed in [int]; its overflow is undefined *)
let buflen := e_phentsize hdr * e_phnum hdr in
if INT_MAX <? buflen then fault
else if negb (malloc_ok host buflen) then
emit (EvStderr "Not enough memory") ;;; ret false
else
'(r, written) <- pread_in_full file buflen (e_phoff hdr) ;;
if to_int r <? 0 then ret true
else
load_segments file (overlay written (uninit host)) buflen
          (Z.to_nat (e_phnum hdr)) 0 true ;;;
ret true.

(** [load_kernel(guest_mem, path)].  After the label [out] the function
returns 0 whatever happened before. *)
Definition load_kernel (path : string) : M Z :=
emit (EvOpen path) ;;;
match open_file host path with
| None => emit (EvStderr "Unable to open file") ;;; ret (-1)
| Some (fd, file) =>
phdr <- load_kernel_body file ;;
(if phdr then emit EvFree else ret tt) ;;;
emit (EvClose fd) ;;;
ret 0
end.

(** ** CPU set-up (lines 414-535) *)

Definition filter_cpuid (entries : list Kvm.kvm_cpuid_entry2)
: list Kvm.kvm_cpuid_entry2 :=
map (fun entry =>
if Kvm.function entry =? 1 then
Kvm.mkCpuid (Kvm.function entry) (Kvm.eax entry) (Kvm.ebx entry)
         (Z.lor (Kvm.ecx entry) (Z.shiftl 1 31))
         (Z.lor (Kvm.edx entry) (Z.shiftl 1 5))
else if Kvm.function entry =? CPUID_FUNC_PERFMON then
Kvm.mkCpuid (Kvm.function entry) 0x00 (Kvm.ebx entry)
         (Kvm.ecx entry) (Kvm.edx entry)
else entry)
entries.

Definition modify_sregs (f : Kvm.kvm_sregs -> Kvm.kvm_sregs) : M unit :=
modify (fun s => set_sregs (f (sregs s)) s).

Definition set_cr0 (v : Z) (r : Kvm.kvm_sregs) : Kvm.kvm_sregs :=
Kvm.mkSregs (Kvm.cs r) (Kvm.ds r) (Kvm.es r) (Kvm.fs r) (Kvm.gs r) (Kvm.ss r)
(Kvm.gdt r) v (Kvm.cr3 r) (Kvm.cr4 r) (Kvm.efer r).
Definition set_cr3 (v : Z) (r : Kvm.kvm_sregs) : Kvm.kvm_sregs :=
Kvm.mkSregs (Kvm.cs r) (Kvm.ds r) (Kvm.es r) (Kvm.fs r) (Kvm.gs r) (Kvm.ss r)
(Kvm.gdt r) (Kvm.cr0 r) v (Kvm.cr4 r) (Kvm.efer r).
Definition set_cr4 (v : Z) (r : Kvm.kvm_sregs) : Kvm.kvm_sregs :=
Kvm.mkSregs (Kvm.cs r) (Kvm.ds r) (Kvm.es r) (Kvm.fs r) (Kvm.gs r) (Kvm.ss r)
(Kvm.gdt r) (Kvm.cr0 r) (Kvm.cr3 r) v (Kvm.efer r).
Definition set_efer (v : Z) (r : Kvm.kvm_sregs) : Kvm.kvm_sregs :=
Kvm.mkSregs (Kvm.cs r) (Kvm.ds r) (Kvm.es r) (Kvm.fs r) (Kvm.gs r) (Kvm.ss r)
(Kvm.gdt r) (Kvm.cr0 r) (Kvm.cr3 r) (Kvm.cr4 r) v.

Definition setup_system_64bit : M unit :=
modify_sregs (fun r => set_cr0 (Z.lor (Kvm.cr0 r) Cpu.X86_CR0_PE) r) ;;;
modify_sregs (fun r => set_efer (Z.lor (Kvm.efer r) Cpu.EFER_LME) r).

(** The [for (paddr = 0; paddr < guest_size; paddr += GUEST_PAGE_SIZE,
pde++)] loop.  The assertions before it leave at most 512 iterations;
[fuel] is that bound. *)
Fixpoint pde_loop (fuel : nat) (paddr pde : Z) : M unit :=
s <- get ;;
if paddr <? guest_size s then
match fuel with
| O => blocked
| S fuel' =>
guest_store 8 pde
(Z.lor paddr (Z.lor Cpu.X86_PDPT_P (Z.lor Cpu.X86_PDPT_RW Cpu.X86_PDPT_PS))) ;;;
pde_loop fuel' (wrap64 (paddr + GUEST_PAGE_SIZE)) (pde + 8)
end
else ret tt.

Definition setup_system_page_tables : M unit :=
let pml4 := BOOT_PML4 in
let pdpte := BOOT_PDPTE in
let pde := BOOT_PDE in
s <- get ;;
c_assert (Z.land (guest_size s) (GUEST_PAGE_SIZE - 1) =? 0) ;;;
c_assert (guest_size s <=? GUEST_PAGE_SIZE * 512) ;;;
guest_memset pml4 x00 4096 ;;;
guest_memset pdpte x00 4096 ;;;
guest_memset pde x00 4096 ;;;
guest_store 8 pml4 (Z.lor BOOT_PDPTE (Z.lor Cpu.X86_PDPT_P Cpu.X86_PDPT_RW)) ;;;
guest_store 8 pdpte (Z.lor BOOT_PDE (Z.lor Cpu.X86_PDPT_P Cpu.X86_PDPT_RW)) ;;;
pde_loop 512 0 pde ;;;
modify_sregs (set_cr3 BOOT_PML4) ;;;
modify_sregs (fun r => set_cr4 (Z.lor (Kvm.cr4 r) Cpu.X86_CR4_PAE) r) ;;;
modify_sregs (fun r => set_cr0 (Z.lor (Kvm.cr0 r) Cpu.X86_CR0_PG) r).

Definition setup_system_gdt (off : Z) : M unit :=
let gdt := off in
guest_store 8 (gdt + 8 * BOOT_GDT_NULL) (Cpu.GDT_ENTRY 0 0 0) ;;;
guest_store 8 (gdt + 8 * BOOT_GDT_CODE) (Cpu.GDT_ENTRY 0xA09B 0 0xFFFFF) ;;;
guest_store 8 (gdt + 8 * BOOT_GDT_DATA) (Cpu.GDT_ENTRY 0xC093 0 0xFFFFF) ;;;
code_ent <- guest_load 8 (gdt + 8 * BOOT_GDT_CODE) ;;
data_ent <- guest_load 8 (gdt + 8 * BOOT_GDT_DATA) ;;
let code_seg := Cpu.GDT_TO_KVM_SEGMENT code_ent BOOT_GDT_CODE in
let data_seg := Cpu.GDT_TO_KVM_SEGMENT data_ent BOOT_GDT_DATA in
modify_sregs (fun r =>
Kvm.mkSregs code_seg data_seg data_seg data_seg data_seg data_seg
  (Kvm.mkDtable off (8 * BOOT_GDT_MAX - 1))
  (Kvm.cr0 r) (Kvm.cr3 r) (Kvm.cr4 r) (Kvm.efer r)).

Definition setup_system (vcpufd : Z) (id : Z) : M unit :=
(if id =? 0 then
kvm_ioctl vcpufd Kvm.KVM_GET_SREGS ;;;
modify (set_sregs (initial_sregs host)) ;;;
setup_system_gdt BOOT_GDT ;;;
setup_system_page_tables ;;;
setup_system_64bit
else ret tt) ;;;
s <- get ;;
kvm_ioctl vcpufd (Kvm.KVM_SET_SREGS (sregs s)) ;;;
ret tt.

Definition setup_cpuid (kvm vcpufd : Z) : M unit :=
let max_entries := 100 in
(* [calloc] is not checked: storing [nent] through [NULL] is a fault *)
(if malloc_ok host (8 + max_entries * 40) then ret tt else fault) ;;;
kvm_ioctl kvm Kvm.KVM_GET_SUPPORTED_CPUID ;;;
let kvm_cpuid := filter_cpuid (supported_cpuid host) in
kvm_ioctl vcpufd (Kvm.KVM_SET_CPUID2 kvm_cpuid) ;;;
ret tt.

(** ** Hypercalls: the [switch (run->io.port)] of [vcpu_loop] (lines 581-661)

[data] is the 32-bit payload of the [OUT]: the guest physical address
of the request record.  The records are packed C structures. *)

(** [uhyve_close_t]: [int fd] at 0, [int ret] at 4. *)
Definition close_fd (m : mem) (data : Z) : Z := to_int (load_le 4 m data).
Definition close_ret (m : mem) (data : Z) : Z := to_int (load_le 4 m (data + 4)).

(** Modelled from the spec: [uhyve_netwrite_t] and [uhyve_netread_t] are
declared in uhyve-net.c, which is not among the sources.  The
specification gives the records as [{data, len, ret}], laid out with no
padding, pointer fields being 64-bit guest physical addresses: [data]
at 0, the [size_t len] at 8, the [int ret] at 16. *)
Definition net_data (m : mem) (data : Z) : Z := load_le 8 m data.
Definition net_len (m : mem) (data : Z) : Z := load_le 8 m (data + 8).
Definition net_ret (m : mem) (data : Z) : Z := to_int (load_le 4 m (data + 16)).

Definition MAX_RW_COUNT : Z := 0x7ffff000.
Definition EBADF : Z := 9.

(** [read(netfd, buf, count)]: the next entry of the TAP script, of which
the host transfers at most [count] bytes (and never more than
[MAX_RW_COUNT] in one call).  Nothing pending on the non-blocking
descriptor is [EAGAIN]; an invalid descriptor is [EBADF]. *)
Definition tap_read (buf count : Z) : M read_result :=
s <- get ;;
emit (EvRead (netfd s) buf count) ;;;
if netfd s <? 0 then ret (ReadError EBADF)
else
match tap_script s with
| [] => ret (ReadError EAGAIN)
| r :: rest =>
modify (set_tap_script rest) ;;;
match r with
| ReadBytes bs =>
ret (ReadBytes (firstn (Z.to_nat (Z.min count MAX_RW_COUNT)) bs))
| ReadError e => ret (ReadError e)
end
end.

(** The return value and [errno] as the caller of [read] sees them, after
the bytes are stored at [buf]. *)
Definition complete_read (buf : Z) (r : read_result) : M (Z * Z) :=
match r with
| ReadBytes bs =>
store_read buf bs ;;; ret (Z.of_nat (length bs), 0)
| ReadError e => ret (-1, e)
end.

Definition hypercall_write (data : Z) : M unit :=
fd <- guest_load 4 data ;;
buf <- guest_load 8 (data + 4) ;;
len <- guest_load 8 (data + 12) ;;
emit (EvWrite (to_int fd) buf len) ;;;
guest_store 8 (data + 12) (sys_write host (to_int fd) buf len).

Definition hypercall_read (data : Z) : M unit :=
fd <- guest_load 4 data ;;
buf <- guest_load 8 (data + 4) ;;
len <- guest_load 8 (data + 12) ;;
emit (EvRead (to_int fd) buf len) ;;;
'(n, _) <- complete_read buf
 (match sys_read host (to_int fd) len with
  | ReadBytes bs => ReadBytes (firstn (Z.to_nat len) bs)
  | ReadError e => ReadError e
  end) ;;
guest_store 8 (data + 20) n.

Definition hypercall_exit {A} (data : Z) : M A :=
status <- guest_load 4 data ;;
exit (to_int status).

Definition hypercall_open (data : Z) : M unit :=
name <- guest_load 8 data ;;
flags <- guest_load 4 (data + 8) ;;
mode <- guest_load 4 (data + 12) ;;
emit (EvGuestOpen name (to_int flags) (to_int mode)) ;;;
guest_store 4 (data + 16) (sys_open host name (to_int flags) (to_int mode)).

Definition hypercall_close (data : Z) : M unit :=
fd <- guest_load 4 data ;;
r <- guest_load 4 (data + 4) ;;
if 2 <? to_int r then
emit (EvClose (to_int fd)) ;;;
guest_store 4 (data + 4) (sys_close host (to_int fd))
else ret tt.

Definition hypercall_lseek (data : Z) : M unit :=
fd <- guest_load 4 data ;;
offset <- guest_load 8 (data + 4) ;;
whence <- guest_load 4 (data + 12) ;;
emit (EvLseek (to_int fd) (to_long offset) (to_int whence)) ;;;
guest_store 8 (data + 4)
(sys_lseek host (to_int fd) (to_long offset) (to_int whence)).

(** Modelled from the spec: [uhyve_netinfo_t] is [{mac_str[18]}]. *)
Definition hypercall_netinfo (data : Z) : M unit :=
guest_store_bytes data (map (fun i => nth i (mac_str host) x00) (seq 0 18)).

Definition hypercall_netwrite (data : Z) : M unit :=
buf <- guest_load 8 data ;;
len <- guest_load 8 (data + 8) ;;
s <- get ;;
emit (EvWrite (netfd s) buf len) ;;;
let r := to_int (sys_write host (netfd s) buf len) in
c_assert (len =? wrap64 r) ;;;
guest_store 4 (data + 16) 0.

Definition hypercall_netread (data : Z) : M unit :=
buf <- guest_load 8 data ;;
len <- guest_load 8 (data + 8) ;;
res <- tap_read buf len ;;
'(n, errno) <- complete_read buf res ;;
let r := to_int n in
if (r =? 0) || ((r =? -1) && (errno =? EAGAIN)) then
guest_store 4 (data + 16) (-1)
else
c_assert (0 <? r) ;;;
guest_store 8 (data + 8) r ;;;
guest_store 4 (data + 16) 0.

Definition handle_io (port direction data : Z) : M unit :=
if port =? UHYVE_PORT_WRITE then hypercall_write data
else if port =? UHYVE_PORT_READ then hypercall_read data
else if port =? UHYVE_PORT_EXIT then hypercall_exit data
else if port =? UHYVE_PORT_OPEN then hypercall_open data
else if port =? UHYVE_PORT_CLOSE then hypercall_close data
else if port =? UHYVE_PORT_LSEEK then hypercall_lseek data
else if port =? UHYVE_PORT_NETINFO then hypercall_netinfo data
else if port =? UHYVE_PORT_NETWRITE then hypercall_netwrite data
else if port =? UHYVE_PORT_NETREAD then hypercall_netread data
else err "KVM: unhandled KVM_EXIT_IO".

(** ** [vcpu_loop] (lines 537-687)

[runs] is what the successive calls of [KVM_RUN] return; when the
script ends the thread stays in the guest.  A failing [KVM_RUN] never
reaches the [switch (errno)]: the macro [kvm_ioctl] has called [err]
before. *)
Fixpoint run_loop (runs : list Kvm.run_result) : M Z :=
match runs with
| [] => blocked
| r :: runs' =>
s <- get ;;
emit (EvIoctl (vcpufd s) Kvm.KVM_RUN) ;;;
match r with
| Kvm.RunError _ => err "KVM: ioctl KVM_RUN failed"
| Kvm.RunExit Kvm.KVM_EXIT_HLT =>
emit (EvStderr "Guest has halted the CPU, this is considered as a normal exit.") ;;;
ret 0
| Kvm.RunExit (Kvm.KVM_EXIT_MMIO _) => err "KVM: unhandled KVM_EXIT_MMIO"
| Kvm.RunExit (Kvm.KVM_EXIT_IO port direction data) =>
handle_io port direction data ;;; run_loop runs'
| Kvm.RunExit (Kvm.KVM_EXIT_FAIL_ENTRY _) => err "KVM: entry failure"
| Kvm.RunExit (Kvm.KVM_EXIT_INTERNAL_ERROR _) => err "KVM: internal error exit"
| Kvm.RunExit Kvm.KVM_EXIT_SHUTDOWN => err "KVM: receive shutdown command"
| Kvm.RunExit (Kvm.KVM_EXIT_OTHER _) =>
emit (EvStderr "KVM: unhandled exit") ;;; exit EXIT_FAILURE
end
end.

Definition vcpu_loop (runs : list Kvm.run_result) : M Z :=
s <- get ;;
kvm_ioctl (vcpufd s) Kvm.KVM_GET_MP_STATE ;;;
(if negb (initial_mp_state host =? Kvm.KVM_MP_STATE_RUNNABLE) then
kvm_ioctl (vcpufd s) (Kvm.KVM_SET_MP_STATE Kvm.KVM_MP_STATE_RUNNABLE) ;;; ret tt
else ret tt) ;;;
run_loop runs.

(** ** [vcpu_init] (lines 689-731) *)

Definition vcpu_init (id : Z) : M Z :=
s <- get ;;
mb <- deref_global (mboot s) ;;
gate <- guest_load 4 (mb + 0x20) ;;
(* [while (gate < id) pthread_yield();]: only the guest advances the gate *)
(if gate <? id then blocked else ret tt) ;;;
guest_store 4 (mb + 0x30) id ;;;
emit (EvClflush (mb + 0x30)) ;;;
fd <- kvm_ioctl (vmfd s) (Kvm.KVM_CREATE_VCPU id) ;;
modify (set_vcpufd fd) ;;;
setup_system fd id ;;;
let regs := Kvm.mkRegs (elf_entry s) 2 2 0 0x2 in
kvm_ioctl fd (Kvm.KVM_SET_REGS regs) ;;;
mmap_size <- kvm_ioctl (kvm s) Kvm.KVM_GET_VCPU_MMAP_SIZE ;;
(if wrap64 mmap_size <? sizeof_kvm_run host
then err "KVM: invalid VCPU_MMAP_SIZE" else ret tt) ;;;
(if mmap_ok host (wrap64 mmap_size)
then modify (set_run_mapped true) else err "KVM: VCPU mmap failed") ;;;
setup_cpuid (kvm s) fd ;;;
ret 0.

(** ** [uhyve_init] (lines 744-792) *)

Definition uhyve_init (path : string) : M Z :=
emit (EvSignal SIGTERM) ;;;
emit EvAtexit ;;;
(match getenv host "HERMIT_MEM" with
| Some str => modify (set_guest_size (Memparse.memparse str))
| None => ret tt
end) ;;;
modify (set_kvm (open_kvm host)) ;;;
(if open_kvm host <? 0 then err "Could not open: /dev/kvm" else ret tt) ;;;
kvm_api_version <- kvm_ioctl (open_kvm host) Kvm.KVM_GET_API_VERSION ;;
(if negb (kvm_api_version =? 12)
then err "KVM: API version is not 12" else ret tt) ;;;
fd <- kvm_ioctl (open_kvm host) Kvm.KVM_CREATE_VM ;;
modify (set_vmfd fd) ;;;
s <- get ;;
c_assert (guest_size s <? KVM_32BIT_GAP_SIZE) ;;;
(* [mmap] refuses a length of zero *)
(if negb (guest_size s =? 0) && mmap_ok host (guest_size s)
then modify (set_guest_mem (Some zero_mem))
else err "mmap failed") ;;;
r <- load_kernel path ;;
(if negb (r =? 0) then exit EXIT_FAILURE else ret tt) ;;;
kvm_ioctl fd (Kvm.KVM_SET_USER_MEMORY_REGION 0 GUEST_OFFSET (guest_size s)) ;;;
kvm_ioctl fd Kvm.KVM_CREATE_IRQCHIP ;;;
vcpu_init 0.

(** ** [uhyve_loop] (lines 794-822)

The peer threads run beside this one; the model records their creation
and follows the calling thread. *)
Fixpoint create_threads (todo : nat) (i : Z) (threads : list Z) : M (list Z) :=
match todo with
| O => ret threads
| S todo' =>
emit (EvCreate i) ;;;
create_threads todo' (i + 1)
(firstn (Z.to_nat i) threads ++ thread_id host i :: skipn (S (Z.to_nat i)) threads)
end.

Definition uhyve_loop (runs : list Kvm.run_result) : M Z :=
(match getenv host "HERMIT_CPUS" with
| Some str => modify (set_ncores (wrap32 (Libc.atoi (chars str))))
| None => ret tt
end) ;;;
s <- get ;;
mb <- deref_global (mboot s) ;;
guest_store 4 (mb + 0x24) (ncores s) ;;;
emit (EvClflush (mb + 0x24)) ;;;
(if malloc_ok host (ncores s * 8) then ret tt else err "Not enough memoyr") ;;;
(* [vcpu_threads[0]] of an array of no element is outside the array *)
(if ncores s =? 0 then fault else ret tt) ;;;
let threads := pthread_self host :: repeat 0 (Z.to_nat (ncores s) - 1) in
threads <- create_threads (Z.to_nat (ncores s) - 1) 1 threads ;;
modify (set_vcpu_threads (Some threads)) ;;;
(match getenv host "HERMIT_NETIF" with
| Some str => modify (set_netfd (setup_network host str))
| None => ret tt
end) ;;;
vcpu_loop runs.

(** ** [uhyve_exit] (lines 217-248), the [atexit] hook *)

(** The [for (i = 0; i < ncores; i++)] loop over [vcpu_threads]. *)
Fixpoint stop_threads (todo : nat) (i : nat) (threads : list Z) : M unit :=
match todo with
| O => ret tt
| S todo' =>
match nth_error threads i with
| None => fault
| Some t =>
(if negb (t =? pthread_self host) then
emit (EvKill t SIGTERM) ;;; emit (EvJoin t)
else ret tt) ;;;
stop_threads todo' (S i) threads
end
end.

Definition uhyve_exit : M unit :=
let str := getenv host "HERMIT_VERBOSE" in
s <- get ;;
(match vcpu_threads s with
| Some threads =>
stop_threads (Z.to_nat (ncores s)) 0 threads ;;; emit EvFree
| None => ret tt
end) ;;;
(match klog s, str with
| Some k, Some v =>
if negb (String.eqb v "0") then
emit (EvPuts (String Libc.newline "Dump kernel log:")) ;;;
emit (EvPuts ("================" ++ String Libc.newline "")) ;;;
emit (EvPrintKlog k)
else ret tt
| _, _ => ret tt
end) ;;;
(if negb (vcpufd s =? -1) then emit (EvClose (vcpufd s)) else ret tt) ;;;
modify (set_vcpufd (-1)) ;;;
(if negb (vmfd s =? -1) then emit (EvClose (vmfd s)) else ret tt) ;;;
modify (set_vmfd (-1)) ;;;
(if negb (kvm s =? -1) then emit (EvClose (kvm s)) else ret tt) ;;;
modify (set_kvm (-1)).

End WithHost.

End Uhyve.

(* ================================================================== *)
(** * Vocabulary of the properties *)

Module Props.
Import Int Mem Machine Elf Uhyve.

(** The descriptors closed along a trace, in order. *)
Definition closes (t : list event) : list Z :=
flat_map (fun e => match e with EvClose fd => [fd] | _ => [] end) t.

(** Signalling and joining every thread of [threads] but [self]. *)
Definition stop_events (self : Z) (threads : list Z) : list event :=
flat_map (fun t => if t =? self then [] else [EvKill t SIGTERM; EvJoin t])
     threads.

(** The dump of the kernel log at exit: when [klog] is set and
[HERMIT_VERBOSE] is set to something other than ["0"]. *)
Definition klog_dump (host : Host) (s : state) : list event :=
match klog s, getenv host "HERMIT_VERBOSE" with
| Some k, Some v =>
if String.eqb v "0" then []
else [EvPuts (String Libc.newline "Dump kernel log:");
      EvPuts ("================" ++ String Libc.newline "");
      EvPrintKlog k]
| _, _ => []
end.

(** [close(fd)] unless the descriptor is -1. *)
Definition close_if_open (fd : Z) : list event :=
if fd =? -1 then [] else [EvClose fd].

(** The state in which a computation ends, however it ends. *)
Definition final {A} (o : outcome A) : state :=
match o with
| Ret _ s | Exit _ s | Abort s | Fault s | Blocked s => s
end.

(** How a computation ended. *)
Inductive ending (A : Type) : Type :=
| Returned (a : A)
| Exited (status : Z)
| Aborted
| Faulted
| Waiting.

Arguments Returned {A} a.
Arguments Exited {A} status.
Arguments Aborted {A}.
Arguments Faulted {A}.
Arguments Waiting {A}.

Definition ending_of {A} (o : outcome A) : ending A :=
match o with
| Ret a _ => Returned a
| Exit st _ => Exited st
| Abort _ => Aborted
| Fault _ => Faulted
| Blocked _ => Waiting
end.

(** A computation that never changes [guest_size]. *)
Definition keeps_size {A} (c : M A) : Prop :=
forall s, guest_size (final (c s)) = guest_size s.

(** The size the monitor is asked to give the guest: [HERMIT_MEM] when
set, the built-in default otherwise. *)
Definition requested_size (host : Host) (s : state) : Z :=
match getenv host "HERMIT_MEM" with
| Some str => Memparse.memparse str
| None => guest_size s
end.

(** The flags of a page-directory entry for a 2 MiB page. *)
Definition pde_flags : Z :=
Z.lor Cpu.X86_PDPT_P (Z.lor Cpu.X86_PDPT_RW Cpu.X86_PDPT_PS).

(** Memory after [n] iterations of the page-directory loop started at
[paddr] with [pde] pointing at the next entry. *)
Fixpoint fill_pde (n : nat) (paddr pde : Z) (m : mem) : mem :=
match n with
| O => m
| S k =>
fill_pde k (paddr + GUEST_PAGE_SIZE) (pde + 8)
         (store_le 8 m pde (Z.lor paddr pde_flags))
end.

(** Guest memory and the special registers after page-table set-up on a
guest of [gs] bytes. *)
Definition page_tables_mem (gs : Z) (m : mem) : mem :=
fill_pde (Z.to_nat (gs / GUEST_PAGE_SIZE)) 0 BOOT_PDE
(store_le 8
 (store_le 8
    (memset (memset (memset m BOOT_PML4 x00 4096) BOOT_PDPTE x00 4096)
            BOOT_PDE x00 4096)
    BOOT_PML4 (Z.lor BOOT_PDPTE (Z.lor Cpu.X86_PDPT_P Cpu.X86_PDPT_RW)))
 BOOT_PDPTE (Z.lor BOOT_PDE (Z.lor Cpu.X86_PDPT_P Cpu.X86_PDPT_RW))).

Definition page_tables_sregs (r : Kvm.kvm_sregs) : Kvm.kvm_sregs :=
set_cr0 (Z.lor (Kvm.cr0 r) Cpu.X86_CR0_PG)
(set_cr4 (Z.lor (Kvm.cr4 r) Cpu.X86_CR4_PAE) (set_cr3 BOOT_PML4 r)).

(** ** The loader *)

(** A [pread] event the retry loop of [pread_in_full] survives: a short
transfer, or an interruption by a signal. *)
Definition benign (ev : pread_event) : bool :=
match ev with
| PreadShort _ => true
| PreadError e => e =? EINTR
end.

(** The bytes of a file from [offset] on, at most [count] of them. *)
Definition file_range (file : list byte) (count offset : Z) : list byte :=
firstn (Z.to_nat count) (skipn (Z.to_nat offset) file).

(** The ELF header and the program headers of an image, read from the file
itself. *)
Definition image_ehdr (file : list byte) : Elf64_Ehdr :=
decode_ehdr (of_file file).

Definition image_phdrs (file : list byte) : list Elf64_Phdr :=
map (fun i => decode_phdr (of_file file)
              (Z.to_nat (e_phoff (image_ehdr file)) + sizeof_Phdr * i))
  (seq 0 (Z.to_nat (e_phnum (image_ehdr file)))).

Definition is_load (ph : Elf64_Phdr) : bool := p_type ph =? PT_LOAD.

(** Memory after a [read] stored [bs] at [a]. *)
Definition store_read_mem (m : mem) (a : Z) (bs : list byte) : mem :=
match bs with
| [] => m
| _ :: _ => store_bytes m a bs
end.

(** Memory after a segment has been staged: its bytes of the file, then
zeros up to [p_memsz]. *)
Definition stage (file : list byte) (ph : Elf64_Phdr) (m : mem) : mem :=
memset (store_read_mem m (p_paddr ph)
        (file_range file (p_filesz ph) (p_offset ph)))
     (p_paddr ph + p_filesz ph) x00 (p_memsz ph - p_filesz ph).

(** Memory after the boot-info fields have been written for the segment. *)
Definition boot_info (gs freq a filesz : Z) (m : mem) : mem :=
store_le 4
(store_le 4
   (store_le 8
      (store_le 4
         (store_le 4
            (store_le 4
               (store_le 8 (store_le 8 m (a + 0x08) a) (a + 0x10) gs)
               (a + 0x18) freq)
            (a + 0x24) 1)
         (a + 0x30) 0)
      (a + 0x38) filesz)
   (a + 0x60) 1)
(a + 0x94) 1.

(** What the loader does with one program header. *)
Definition segment_effect (file : list byte) (gs freq : Z) (first : bool)
(ph : Elf64_Phdr) (m : mem) : mem :=
if first
then boot_info gs freq (p_paddr ph) (p_filesz ph) (stage file ph m)
else stage file ph m.

(** Memory after the loader has gone through the headers [phs]; [first]
tells whether no [PT_LOAD] header came before them. *)
Fixpoint staged (file : list byte) (gs freq : Z) (phs : list Elf64_Phdr)
(first : bool) (m : mem) : mem :=
match phs with
| [] => m
| ph :: rest =>
  if is_load ph
  then staged file gs freq rest false (segment_effect file gs freq first ph m)
  else staged file gs freq rest first m
end.

(** The segment loop, header by header. *)
Fixpoint load_list (host : Host) (file : list byte) (phs : list Elf64_Phdr)
(first_load : bool) : M unit :=
match phs with
| [] => ret tt
| ph :: rest =>
  if negb (p_type ph =? PT_LOAD) then load_list host file rest first_load
  else
    go_on <- load_segment host file first_load ph ;;
    if go_on then load_list host file rest false else ret tt
end.

(** The offsets of a segment that hold a boot-info field. *)
Definition boot_info_offset (k : Z) : bool :=
((0x08 <=? k) && (k <? 0x1c)) || ((0x24 <=? k) && (k <? 0x28))
|| ((0x30 <=? k) && (k <? 0x34)) || ((0x38 <=? k) && (k <? 0x40))
|| ((0x60 <=? k) && (k <? 0x64)) || ((0x94 <=? k) && (k <? 0x98)).

(** A loadable segment lies inside the file and inside guest memory, and
its memory size covers its file size. *)
Definition segment_fits (file_len gs : Z) (ph : Elf64_Phdr) : bool :=
(0 <=? p_offset ph) && (0 <=? p_paddr ph) && (0 <=? p_filesz ph)
&& (p_offset ph + p_filesz ph <=? file_len)
&& (p_filesz ph <=? p_memsz ph)
&& (p_paddr ph + p_memsz ph <=? gs).

(** Two segments that do not overlap in guest memory. *)
Definition apart (p q : Elf64_Phdr) : bool :=
(p_paddr p + p_memsz p <=? p_paddr q) || (p_paddr q + p_memsz q <=? p_paddr p).

(** Every loadable segment fits and overlaps none of the loadable segments
after it. *)
Fixpoint segments_ok (file_len gs : Z) (phs : list Elf64_Phdr) : bool :=
match phs with
| [] => true
| ph :: rest =>
  (negb (is_load ph)
   || (segment_fits file_len gs ph
       && forallb (fun q => negb (is_load q) || apart ph q) rest))
  && segments_ok file_len gs rest
end.

(** The first loadable segment. *)
Definition first_load (phs : list Elf64_Phdr) : option Elf64_Phdr :=
find is_load phs.

(** Whether the header at index [i] is the first loadable one. *)
Definition is_first (phs : list Elf64_Phdr) (i : nat) : bool :=
forallb (fun q => negb (is_load q)) (firstn i phs).

(** An image the loader stages in full into a guest of [gs] bytes: a
HermitCore header, program headers of the size of [Elf64_Phdr] inside
the file, loadable segments that fit and do not overlap, room for the
boot-info fields of the first one, and a host on which [malloc] and
[get_cpufreq] succeed. *)
Definition loadable (host : Host) (abi : byte) (file : list byte) (gs : Z) : bool :=
let hdr := image_ehdr file in
let len := Z.of_nat (length file) in
(64 <=? len) && (len <=? SSIZE_MAX)
&& negb (not_hermit abi hdr)
&& (e_phentsize hdr =? Z.of_nat sizeof_Phdr)
&& malloc_ok host (e_phentsize hdr * e_phnum hdr)
&& (e_phoff hdr + Z.of_nat sizeof_Phdr * e_phnum hdr <=? len)
&& segments_ok len gs (image_phdrs file)
&& match first_load (image_phdrs file) with
 | Some ph =>
     (p_paddr ph + 0x98 <=? gs)
     && match cpufreq host with Some _ => true | None => false end
 | None => true
 end.

(** What the loader relies on and keeps: the guest is mapped with contents
[m], has [gs] bytes, and no [pread] will fail for good. *)
Definition loader_state (gs : Z) (m : mem) (s : state) : Prop :=
guest_mem s = Some m /\ guest_size s = gs
/\ forallb benign (pread_script s) = true.

(** The frequency [get_cpufreq] reports, 0 when it does not return. *)
Definition host_mhz (host : Host) : Z :=
match cpufreq host with
| Some f => f
| None => 0
end.

(** What [vcpu_loop] prints when the guest halts. *)
Definition halt_message : event :=
EvStderr "Guest has halted the CPU, this is considered as a normal exit.".

(** The pointers [mboot] and [klog] into the guest and the entry point
[elf_entry]: the globals [load_kernel] sets. *)
Definition anchors (s : state) : option Z * option Z * Z :=
(mboot s, klog s, elf_entry s).

(** What loading the segment [ph] does to them: [if (!klog) klog = ...;
if (!mboot) mboot = ...;]. *)
Definition anchor (ph : Elf64_Phdr) (a : option Z * option Z * Z)
: option Z * option Z * Z :=
let '(mb, kl, entry) := a in
(match mb with Some _ => mb | None => Some (p_paddr ph) end,
match kl with Some _ => kl | None => Some (p_paddr ph + 0x5000) end,
entry).

(** ... and what going through the headers [phs] does. *)
Fixpoint anchored (phs : list Elf64_Phdr) (a : option Z * option Z * Z)
: option Z * option Z * Z :=
match phs with
| [] => a
| ph :: rest => anchored rest (if is_load ph then anchor ph a else a)
end.

(** [c] never calls [exit] or [err]. *)
Definition never_exits {A} (c : M A) : Prop :=
forall s status s', c s <> Exit status s'.

(** An EXIT request among the exits handed to the loop. *)
Definition exit_request (r : Kvm.run_result) : bool :=
match r with
| Kvm.RunExit (Kvm.KVM_EXIT_IO port _ _) => port =? UHYVE_PORT_EXIT
| _ => false
end.

(** The number of cores [uhyve_loop] settles on: [HERMIT_CPUS] when set,
the value of [ncores] otherwise. *)
Definition requested_cores (host : Host) (s : state) : Z :=
match getenv host "HERMIT_CPUS" with
| Some str => wrap32 (Libc.atoi (chars str))
| None => ncores s
end.

(** The identifiers of the vCPUs other than the boot processor. *)
Definition peer_ids (n : Z) : list Z := map Z.of_nat (seq 1 (Z.to_nat n - 1)).

(** The state in which [uhyve_loop] enters [vcpu_loop]. *)
Definition cores_started (host : Host) (mb : Z) (m : mem) (s : state) : state :=
let n := requested_cores host s in
let s1 :=
  set_vcpu_threads
    (Some (pthread_self host :: map (thread_id host) (peer_ids n)))
    (set_trace
       (trace s ++ EvClflush (mb + 0x24) :: map EvCreate (peer_ids n))
       (set_guest_mem (Some (store_le 4 m (mb + 0x24) n)) (set_ncores n s))) in
match getenv host "HERMIT_NETIF" with
| Some str => set_netfd (setup_network host str) s1
| None => s1
end.

(** The descriptors the monitor holds. *)
Definition handles (s : state) : Z * Z * Z * Z :=
(kvm s, vmfd s, vcpufd s, netfd s).

(** A host on which no [ioctl] fails. *)
Definition kvm_works (host : Host) : Prop :=
forall fd req, ioctl host fd req <> -1.

(** The addresses of the structures [setup_system] lays out in the guest:
the GDT and the three page-table pages. *)
Definition boot_structure (x : Z) : bool :=
((BOOT_GDT <=? x) && (x <? BOOT_GDT + 8 * BOOT_GDT_MAX))
|| ((BOOT_PML4 <=? x) && (x <? BOOT_PDE + 4096)).

(** The special registers [setup_system] hands to KVM, given those KVM
reported ([r0]): paging over the PML4 at [BOOT_PML4], protected mode, PAE
and long mode switched on over whatever was set, the GDT at [BOOT_GDT]. *)
Definition long_mode (r0 r : Kvm.kvm_sregs) : Prop :=
Kvm.cr3 r = BOOT_PML4
/\ Kvm.cr0 r = Z.lor (Z.lor (Kvm.cr0 r0) Cpu.X86_CR0_PG) Cpu.X86_CR0_PE
/\ Kvm.cr4 r = Z.lor (Kvm.cr4 r0) Cpu.X86_CR4_PAE
/\ Kvm.efer r = Z.lor (Kvm.efer r0) Cpu.EFER_LME
/\ Kvm.gdt r = Kvm.mkDtable BOOT_GDT (8 * BOOT_GDT_MAX - 1).

(** What [vcpu_init] asks of KVM for the boot processor, in this order,
when the vCPU is [fd] and the special registers end up as [sr]. *)
Definition vcpu_requests (host : Host) (s : state) (fd : Z)
  (sr : Kvm.kvm_sregs) : list event :=
[EvIoctl (vmfd s) (Kvm.KVM_CREATE_VCPU 0);
 EvIoctl fd Kvm.KVM_GET_SREGS;
 EvIoctl fd (Kvm.KVM_SET_SREGS sr);
 EvIoctl fd (Kvm.KVM_SET_REGS (Kvm.mkRegs (elf_entry s) 2 2 0 0x2));
 EvIoctl (kvm s) Kvm.KVM_GET_VCPU_MMAP_SIZE;
 EvIoctl (kvm s) Kvm.KVM_GET_SUPPORTED_CPUID;
 EvIoctl fd (Kvm.KVM_SET_CPUID2 (filter_cpuid (supported_cpuid host)))].

End Props.

(* ================================================================== *)
(** * Concrete hosts and images *)

Module Demo.
Import Int Mem Machine Elf Uhyve.

(** The [n] little-endian bytes of [v]. *)
Fixpoint le_bytes (n : nat) (v : Z) : list byte :=
match n with
| O => []
| S k => byte_of_Z v :: le_bytes k (v / 256)
end.

Definition osabi : byte := xff.

(** An ELF header with the given OS/ABI octet, type, machine, entry,
program-header offset, entry size and count. *)
Definition ehdr_bytes (abi : byte) (type machine entry phoff phentsize phnum : Z)
: list byte :=
[x7f; x45; x4c; x46; x02; x01; x01; abi; x00; x00; x00; x00; x00; x00; x00; x00]
++ le_bytes 2 type ++ le_bytes 2 machine ++ le_bytes 4 1
++ le_bytes 8 entry ++ le_bytes 8 phoff ++ le_bytes 8 0 ++ le_bytes 4 0
++ le_bytes 2 64 ++ le_bytes 2 phentsize ++ le_bytes 2 phnum
++ le_bytes 2 0 ++ le_bytes 2 0 ++ le_bytes 2 0.

Definition phdr_bytes (type offset paddr filesz memsz : Z) : list byte :=
le_bytes 4 type ++ le_bytes 4 7 ++ le_bytes 8 offset ++ le_bytes 8 paddr
++ le_bytes 8 paddr ++ le_bytes 8 filesz ++ le_bytes 8 memsz ++ le_bytes 8 0.

Definition null_segment : Kvm.kvm_segment :=
Kvm.mkSegment 0 0 0 0 0 0 0 0 0 0 0.

Definition reset_sregs : Kvm.kvm_sregs :=
Kvm.mkSregs null_segment null_segment null_segment null_segment
        null_segment null_segment (Kvm.mkDtable 0 0xffff)
        0x60000010 0 0 0.

(** A host on which everything succeeds: [/dev/kvm] is descriptor 3, the
VM 4, a vCPU 5, the image 6; the only file is [image] at path
["kernel"]; the environment is [env]. *)
Definition host (env : string -> option string) (image : list byte) : Host :=
mkHost env
   (fun path => if String.eqb path "kernel" then Some (6, image) else None)
   3
   (fun fd req =>
      match req with
      | Kvm.KVM_GET_API_VERSION => 12
      | Kvm.KVM_CREATE_VM => 4
      | Kvm.KVM_CREATE_VCPU _ => 5
      | Kvm.KVM_GET_VCPU_MMAP_SIZE => 12288
      | _ => 0
      end)
   reset_sregs 0
   [Kvm.mkCpuid 0 13 0x756e6547 0x6c65746e 0x49656e69;
    Kvm.mkCpuid 1 0x306c3 0 0x7ffafbff 0xbfebfbdf;
    Kvm.mkCpuid 0x0A 0x07300403 0 0 0x603]
   2352
   (fun _ => true) (fun _ => true)
   (fun _ => xaa)
   (Some "3400000"%string) None
   (fun _ => 0) (fun _ _ len => len) (fun _ _ _ => 7) (fun _ off _ => off)
   (fun _ _ => ReadBytes [])
   100 (fun id => 100 + id)
   (fun _ => 8)
   [].

Definition no_env : string -> option string := fun _ => None.

Definition start : state := initial_state reset_sregs [] [].

(** A state past initialisation: the guest mapped with contents [m],
descriptors as [host] hands them out. *)
Definition running (m : mem) : state :=
set_guest_mem (Some m) (set_vcpufd 5 (set_vmfd 4 (set_kvm 3 start))).

(** A CLOSE record at 0x3000 with [fd = 7] and [ret = 3], and one with
[ret = 2]. *)
Definition close_record (r : Z) : mem :=
store_le 4 (store_le 4 zero_mem 0x3000 7) 0x3004 r.

(** A NETREAD record at 0x3000 asking for [len] bytes at 0x4000, with
[ret = 7] on entry. *)
Definition netread_record (len : Z) : mem :=
store_le 4 (store_le 8 (store_le 8 zero_mem 0x3000 0x4000) 0x3008 len) 0x3010 7.

(** A state with the TAP descriptor open and [script] pending on it. *)
Definition networking (m : mem) (script : list read_result) : state :=
set_tap_script script (set_netfd 8 (running m)).

(** A monitor running two vCPUs: the calling thread (100) and a peer
(101). *)
Definition two_cores : state :=
set_vcpu_threads (Some [100; 101]) (set_ncores 2 (running zero_mem)).

(** The environment with [HERMIT_MEM] set. *)
Definition mem_env (v : string) : string -> option string :=
fun name => if String.eqb name "HERMIT_MEM" then Some v else None.

(** A HermitCore image of two loadable segments: 200 bytes of file (the
bytes 1, 2, ..., 200) for 300 bytes of memory at 0x800000, and 4 bytes
of file for 16 bytes of memory at 0x900000. *)
Definition text : list byte := map (fun i => byte_of_Z (Z.of_nat i + 1)) (seq 0 200).

Definition image_with (machine : Z) : list byte :=
ehdr_bytes osabi 2 machine 0x800000 64 56 2
++ phdr_bytes 1 176 0x800000 200 300
++ phdr_bytes 1 376 0x900000 4 16
++ text ++ [x11; x12; x13; x14].

Definition image : list byte := image_with 62.

(** The same file with [e_machine = EM_386]. *)
Definition bad_image : list byte := image_with 3.

(** The two program headers of [image]. *)
Definition text_phdr : Elf64_Phdr := mkPhdr 1 7 176 0x800000 0x800000 200 300 0.
Definition data_phdr : Elf64_Phdr := mkPhdr 1 7 376 0x900000 0x900000 4 16 0.

(** [h] with the guest's file calls replaced. *)
Definition with_files (h : Host) (w : Z -> Z -> Z -> Z) (o : Z -> Z -> Z -> Z)
(l : Z -> Z -> Z -> Z) (r : Z -> Z -> read_result) : Host :=
mkHost (getenv h) (open_file h) (open_kvm h) (ioctl h) (initial_sregs h)
   (initial_mp_state h) (supported_cpuid h) (sizeof_kvm_run h) (mmap_ok h)
   (malloc_ok h) (uninit h) (cpuinfo_max_freq h) (proc_cpuinfo h)
   (sys_close h) w o l r (pthread_self h) (thread_id h) (setup_network h)
   (mac_str h).

(** A host on which [write] is short by two bytes, [open] fails, [lseek]
lands 16 bytes further and [read] has the three bytes ["abc"]. *)
Definition file_host : Host :=
with_files (host no_env [])
   (fun _ _ len => len - 2) (fun _ _ _ => -1) (fun _ off _ => off + 16)
   (fun _ _ => ReadBytes [x61; x62; x63]).

(** A host on which [read] fails. *)
Definition failing_read_host : Host :=
with_files (host no_env [])
   (fun _ _ len => len) (fun _ _ _ => 7) (fun _ off _ => off)
   (fun _ _ => ReadError 5).

(** A WRITE record at 0x3000: [fd = 1], [buf = 0x4000], [len = 5]. *)
Definition write_record : mem :=
store_le 8 (store_le 8 (store_le 4 zero_mem 0x3000 1) 0x3004 0x4000) 0x300c 5.

(** A READ record at 0x3000: [fd = 6], [buf = 0x4000], [len], [ret = 0]. *)
Definition read_record (len : Z) : mem :=
store_le 8 (store_le 8 (store_le 4 zero_mem 0x3000 6) 0x3004 0x4000) 0x300c len.

(** An LSEEK record at 0x3000: [fd = 6], [offset = 32], [whence = 1]. *)
Definition lseek_record : mem :=
store_le 4 (store_le 8 (store_le 4 zero_mem 0x3000 6) 0x3004 32) 0x300c 1.

(** An OPEN record at 0x3000: [name = 0x4000], [flags = 2], [mode = 0],
[ret = 0]. *)
Definition open_record : mem :=
store_le 4 (store_le 8 zero_mem 0x3000 0x4000) 0x3008 2.

(** The status word of an EXIT request at 0x3000. *)
Definition exit_record (status : Z) : mem := store_le 4 zero_mem 0x3000 status.

(** A NETWRITE record at 0x3000: [data = 0x4000], [len], [ret = 7]. *)
Definition netwrite_record (len : Z) : mem :=
store_le 4 (store_le 8 (store_le 8 zero_mem 0x3000 0x4000) 0x3008 len) 0x3010 7.

(** The environment with [HERMIT_CPUS] set. *)
Definition cpus_env (v : string) : string -> option string :=
fun name => if String.eqb name "HERMIT_CPUS" then Some v else None.

(** A state past [uhyve_init]: the kernel at 0x800000. *)
Definition loaded : state :=
set_klog (Some 0x805000) (set_mboot (Some 0x800000) (running zero_mem)).

(** The same once the guest has let processor 1 in. *)
Definition gate_open : state :=
set_guest_mem (Some (store_le 4 zero_mem 0x800020 1)) loaded.

End Demo.

(* ================================================================== *)
(** * Properties *)

(** ** Machine integers *)

Section IntFacts.
Import Int.

Lemma wrap64_range x : 0 <= wrap64 x < two64.
Proof. unfold wrap64, two64. apply Z.mod_pos_bound. reflexivity. Qed.

Lemma wrap32_range x : 0 <= wrap32 x < two32.
Proof. unfold wrap32, two32. apply Z.mod_pos_bound. reflexivity. Qed.

Lemma wrap64_small x : 0 <= x < two64 -> wrap64 x = x.
Proof. intros H. unfold wrap64. now apply Z.mod_small. Qed.

Lemma wrap32_small x : 0 <= x < two32 -> wrap32 x = x.
Proof. intros H. unfold wrap32. now apply Z.mod_small. Qed.

Lemma to_int_small x : - 2 ^ 31 <= x < 2 ^ 31 -> to_int x = x.
Proof.
intros H. unfold to_int, wrap32, two32.
destruct (Z_lt_le_dec x 0) as [Hneg | Hpos].
- replace (x mod 2 ^ 32) with (x + 2 ^ 32).
+ destruct (x + 2 ^ 32 <? 2 ^ 31) eqn:E.
  * apply Z.ltb_lt in E. lia.
  * lia.
+ apply (Z.mod_unique _ _ (-1)); lia.
- rewrite Z.mod_small by lia.
destruct (x <? 2 ^ 31) eqn:E; [reflexivity | apply Z.ltb_ge in E; lia].
Qed.

Lemma to_int_wrap32 x : to_int (wrap32 x) = to_int x.
Proof.
unfold to_int, wrap32, two32. now rewrite Z.mod_mod by lia.
Qed.

Lemma to_long_small x : - 2 ^ 63 <= x < 2 ^ 63 -> to_long x = x.
Proof.
intros H. unfold to_long, wrap64, two64.
destruct (Z_lt_le_dec x 0) as [Hneg | Hpos].
- replace (x mod 2 ^ 64) with (x + 2 ^ 64).
+ destruct (x + 2 ^ 64 <? 2 ^ 63) eqn:E.
  * apply Z.ltb_lt in E. lia.
  * lia.
+ apply (Z.mod_unique _ _ (-1)); lia.
- rewrite Z.mod_small by lia.
destruct (x <? 2 ^ 63) eqn:E; [reflexivity | apply Z.ltb_ge in E; lia].
Qed.

End IntFacts.

(** ** The size parser *)

Section MemparseFacts.
Import Int Memparse.

Lemma shl10_mul ret : shl10 ret = wrap64 (ret * 1024).
Proof. unfold shl10. now rewrite Z.shiftl_mul_pow2 by lia. Qed.

Lemma wrap64_mul_l x y : wrap64 (wrap64 x * y) = wrap64 (x * y).
Proof. unfold wrap64, two64. now rewrite Z.mul_mod_idemp_l by lia. Qed.

Lemma case_K_mul ret : case_K ret = wrap64 (ret * 1024 ^ 1).
Proof. unfold case_K. rewrite shl10_mul. f_equal. Qed.

Lemma case_M_mul ret : case_M ret = wrap64 (ret * 1024 ^ 2).
Proof.
unfold case_M. rewrite case_K_mul, shl10_mul, wrap64_mul_l. f_equal. lia.
Qed.

Lemma case_G_mul ret : case_G ret = wrap64 (ret * 1024 ^ 3).
Proof.
unfold case_G. rewrite case_M_mul, shl10_mul, wrap64_mul_l. f_equal. lia.
Qed.

Lemma case_T_mul ret : case_T ret = wrap64 (ret * 1024 ^ 4).
Proof.
unfold case_T. rewrite case_G_mul, shl10_mul, wrap64_mul_l. f_equal. lia.
Qed.

Lemma case_P_mul ret : case_P ret = wrap64 (ret * 1024 ^ 5).
Proof.
unfold case_P. rewrite case_T_mul, shl10_mul, wrap64_mul_l. f_equal. lia.
Qed.

Lemma case_E_mul ret : case_E ret = wrap64 (ret * 1024 ^ 6).
Proof.
unfold case_E. rewrite case_P_mul, shl10_mul, wrap64_mul_l. f_equal. lia.
Qed.

(** What [memparse] does with the result of [strtoull], by the character
under [endptr]. *)
Lemma memparse_unfold ptr n endptr :
strtoull ptr = (n, endptr) ->
memparse ptr =
match suffix_exponent (deref endptr) with
| Some k => wrap64 (n * 1024 ^ k)
| None => n
end.
Proof.
intros H. unfold memparse. rewrite H.
destruct (deref endptr) as [[] [] [] [] [] [] [] []]; cbn [suffix_exponent];
first [ reflexivity | apply case_K_mul | apply case_M_mul | apply case_G_mul
      | apply case_T_mul | apply case_P_mul | apply case_E_mul ].
Qed.

Lemma scan_digits_range base s acc ovf seen :
0 <= base -> 0 <= acc <= ULLONG_MAX ->
let '(v, _, _, _) := scan_digits base s acc ovf seen in 0 <= v <= ULLONG_MAX.
Proof.
revert acc ovf seen.
induction s as [| c t IH]; intros acc ovf seen Hb Hacc; simpl.
- exact Hacc.
- destruct (digit_of c) as [d |] eqn:Hd; [| exact Hacc].
destruct (d <? base) eqn:Hlt; [| exact Hacc].
destruct (ULLONG_MAX <? acc * base + d) eqn:Hov.
+ apply IH; [exact Hb | unfold ULLONG_MAX, two64; lia].
+ apply IH; [exact Hb |].
  apply Z.ltb_ge in Hov. split; [| exact Hov].
  assert (0 <= d).
  { unfold digit_of in Hd.
    repeat match type of Hd with
           | (if ?b then _ else _) = _ => destruct b eqn:?
           end; inversion Hd; subst; lia. }
  nia.
Qed.

(** [strtoull] returns a value of [unsigned long long]. *)
Lemma strtoull_range ptr : 0 <= fst (strtoull ptr) < two64.
Proof.
unfold strtoull.
destruct (match skip_space ptr with
        | String "-" t => (true, t)
        | String "+" t => (false, t)
        | _ => (false, skip_space ptr)
        end) as [neg s0].
match goal with
| |- context [let '(base, s) := ?e in _] => destruct e as [base s] eqn:Hbase
end.
assert (Hb : 0 <= base).
{ repeat match type of Hbase with
       | context [match ?x with _ => _ end] => destruct x
       end; inversion Hbase; lia. }
pose proof (scan_digits_range base s 0 false false Hb) as Hr.
destruct (scan_digits base s 0 false false) as [[[v ovf] seen] rest].
assert (0 <= v <= ULLONG_MAX) by (apply Hr; unfold ULLONG_MAX, two64; lia).
destruct seen; simpl.
- destruct ovf; [unfold ULLONG_MAX, two64; lia |].
destruct neg; [apply wrap64_range | unfold ULLONG_MAX in *; lia].
- unfold two64; lia.
Qed.

End MemparseFacts.

(** C3.  [memparse] reads an integer with [strtoull] (base 0: decimal,
    hexadecimal or octal) and looks at the one character that follows it.
    For the letters K, M, G, T, P, E, in either case, the result is the
    integer multiplied by 1024, 1024^2, ..., 1024^6: the product is the one
    of [size_t], that is modulo 2^64, and it is the exact product whenever
    that fits in a [size_t].  Any other following character, or none, leaves
    the bare integer.  In particular [memparse("2M")] is [2 * 1024 * 1024]. *)
Theorem memparse_suffix_scaling (ptr : string) (n : Z) (endptr : string)
    (Hparse : Memparse.strtoull ptr = (n, endptr)) :
  Memparse.memparse "2M" = 2 * 1024 * 1024 /\
  0 <= n < 2 ^ 64 /\
  (forall k, Memparse.suffix_exponent (Memparse.deref endptr) = Some k ->
     1 <= k <= 6 /\
     Memparse.memparse ptr = Int.wrap64 (n * 1024 ^ k) /\
     (n * 1024 ^ k < 2 ^ 64 -> Memparse.memparse ptr = n * 1024 ^ k)) /\
  (Memparse.suffix_exponent (Memparse.deref endptr) = None ->
     Memparse.memparse ptr = n).
Proof.
  pose proof (strtoull_range ptr) as Hr. rewrite Hparse in Hr. simpl in Hr.
  pose proof (memparse_unfold ptr n endptr Hparse) as Hm.
  split; [reflexivity |].
  split; [exact Hr |].
  split.
  - intros k Hk. rewrite Hk in Hm.
    assert (Hk6 : 1 <= k <= 6).
    { destruct (Memparse.deref endptr) as [[] [] [] [] [] [] [] []];
        cbn [Memparse.suffix_exponent] in Hk; inversion Hk; lia. }
    split; [exact Hk6 |]. split; [exact Hm |].
    intros Hfit. rewrite Hm. apply wrap64_small.
    split; [| exact Hfit].
    apply Z.mul_nonneg_nonneg; [lia | apply Z.pow_nonneg; lia].
  - intros Hk. rewrite Hk in Hm. exact Hm.
Qed.

Lemma memparse_suffix_scaling_witness :
  Memparse.memparse "0x10g" = 16 * 1024 ^ 3 /\ Memparse.memparse "4096" = 4096.
Proof.
  split.
  - destruct (memparse_suffix_scaling "0x10g" 16 "g" eq_refl) as (_ & _ & Hk & _).
    destruct (Hk 3 eq_refl) as (_ & _ & Hexact). apply Hexact. reflexivity.
  - destruct (memparse_suffix_scaling "4096" 4096 "" eq_refl) as (_ & _ & _ & Hn).
    apply Hn. reflexivity.
Defined.

(** ** Guest memory *)

Section MemFacts.
Import Mem.

Lemma byte_to_Z_range b : 0 <= byte_to_Z b < 256.
Proof.
unfold byte_to_Z. pose proof (Byte.to_N_bounded b). lia.
Qed.

Lemma byte_to_of_Z z : byte_to_Z (byte_of_Z z) = z mod 256.
Proof.
unfold byte_to_Z, byte_of_Z.
pose proof (Z.mod_pos_bound z 256 eq_refl) as Hr.
destruct (Byte.of_N (Z.to_N (z mod 256))) as [b |] eqn:E.
- apply Byte.to_of_N in E. rewrite E. lia.
- apply Byte.of_N_None_iff in E. lia.
Qed.

Lemma byte_of_to_Z b : byte_of_Z (byte_to_Z b) = b.
Proof.
unfold byte_of_Z. pose proof (byte_to_Z_range b) as Hr.
rewrite Z.mod_small by exact Hr. unfold byte_to_Z.
rewrite N2Z.id, Byte.of_to_N. reflexivity.
Qed.

Lemma byte_of_Z_zero : byte_of_Z 0 = x00.
Proof. reflexivity. Qed.

(** A load depends on the bytes of its range only. *)
Lemma load_le_ext n m m' a :
(forall x, a <= x < a + Z.of_nat n -> m x = m' x) ->
load_le n m a = load_le n m' a.
Proof.
revert a. induction n as [| k IH]; intros a H; [reflexivity |].
cbn [load_le]. rewrite (H a) by lia. rewrite (IH (a + 1)); [reflexivity |].
intros x Hx. apply H. lia.
Qed.

Lemma load_le_range n m a : 0 <= load_le n m a < 256 ^ Z.of_nat n.
Proof.
revert a. induction n as [| k IH]; intros a.
- simpl. lia.
- cbn [load_le]. rewrite Nat2Z.inj_succ, Z.pow_succ_r by lia.
pose proof (byte_to_Z_range (m a)). pose proof (IH (a + 1)). lia.
Qed.

(** The bytes of a value, read back in little-endian order. *)
Lemma load_le_bytes_of n m a v :
(forall i, 0 <= i < Z.of_nat n -> m (a + i) = byte_of_Z (v / 256 ^ i)) ->
load_le n m a = v mod 256 ^ Z.of_nat n.
Proof.
revert a v. induction n as [| k IH]; intros a v H.
- simpl. now rewrite Z.mod_1_r.
- cbn [load_le].
replace (m a) with (byte_of_Z v).
2:{ specialize (H 0). rewrite Z.add_0_r, Z.pow_0_r, Z.div_1_r in H.
    symmetry. apply H. lia. }
rewrite (IH (a + 1) (v / 256)).
+ rewrite byte_to_of_Z, Nat2Z.inj_succ, Z.pow_succ_r by lia.
  symmetry. apply Z.rem_mul_r; [lia |].
  apply Z.pow_pos_nonneg; lia.
+ intros i Hi. replace (a + 1 + i) with (a + (i + 1)) by lia.
  rewrite H by lia.
  rewrite Z.pow_add_r, Z.pow_1_r by lia.
  rewrite (Z.mul_comm (256 ^ i)), Z.div_div by (try lia; apply Z.pow_pos_nonneg; lia).
  reflexivity.
Qed.

Lemma load_store_same n m a v :
load_le n (store_le n m a v) a = v mod 256 ^ Z.of_nat n.
Proof.
apply load_le_bytes_of. intros i Hi. unfold store_le.
replace ((a <=? a + i) && (a + i <? a + Z.of_nat n)) with true.
- now replace (a + i - a) with i by lia.
- symmetry. apply andb_true_iff. split; [apply Z.leb_le | apply Z.ltb_lt]; lia.
Qed.

Lemma store_le_outside n m a v x :
x < a \/ a + Z.of_nat n <= x -> store_le n m a v x = m x.
Proof.
intros H. unfold store_le.
destruct (a <=? x) eqn:E1; [| reflexivity].
destruct (x <? a + Z.of_nat n) eqn:E2; [| reflexivity].
apply Z.leb_le in E1. apply Z.ltb_lt in E2. lia.
Qed.

Lemma load_store_other n' n m a v a' :
a' + Z.of_nat n' <= a \/ a + Z.of_nat n <= a' ->
load_le n' (store_le n m a v) a' = load_le n' m a'.
Proof.
intros H. apply load_le_ext. intros x Hx. apply store_le_outside. lia.
Qed.

Lemma load_le_zero n m a :
(forall x, a <= x < a + Z.of_nat n -> m x = x00) -> load_le n m a = 0.
Proof.
revert a. induction n as [| k IH]; intros a H; [reflexivity |].
cbn [load_le]. rewrite (H a) by lia. rewrite IH; [reflexivity |].
intros x Hx. apply H. lia.
Qed.

Lemma store_bytes_inside m a bs x :
a <= x < a + Z.of_nat (length bs) ->
store_bytes m a bs x = nth (Z.to_nat (x - a)) bs x00.
Proof.
intros H. unfold store_bytes.
replace ((a <=? x) && (x <? a + Z.of_nat (length bs))) with true; [reflexivity |].
symmetry. apply andb_true_iff. split; [apply Z.leb_le | apply Z.ltb_lt]; lia.
Qed.

Lemma store_bytes_outside m a bs x :
x < a \/ a + Z.of_nat (length bs) <= x -> store_bytes m a bs x = m x.
Proof.
intros H. unfold store_bytes.
destruct (a <=? x) eqn:E1; [| reflexivity].
destruct (x <? a + Z.of_nat (length bs)) eqn:E2; [| reflexivity].
apply Z.leb_le in E1. apply Z.ltb_lt in E2. lia.
Qed.

Lemma memset_inside m a c n x : a <= x < a + n -> memset m a c n x = c.
Proof.
intros H. unfold memset.
replace ((a <=? x) && (x <? a + n)) with true; [reflexivity |].
symmetry. apply andb_true_iff. split; [apply Z.leb_le | apply Z.ltb_lt]; lia.
Qed.

Lemma memset_outside m a c n x : x < a \/ a + n <= x -> memset m a c n x = m x.
Proof.
intros H. unfold memset.
destruct (a <=? x) eqn:E1; [| reflexivity].
destruct (x <? a + n) eqn:E2; [| reflexivity].
apply Z.leb_le in E1. apply Z.ltb_lt in E2. lia.
Qed.

End MemFacts.

(** ** Accesses to guest memory *)

Section GuestFacts.
Import Int Mem Machine Uhyve.

Lemma in_guest_sub s a n a' n' :
in_guest s a n = true -> a <= a' -> 0 <= n' -> a' + n' <= a + n ->
in_guest s a' n' = true.
Proof.
unfold in_guest. destruct (guest_mem s); [| discriminate].
rewrite !andb_true_iff, !Z.leb_le. lia.
Qed.

Lemma in_guest_bounds s a n :
in_guest s a n = true -> 0 <= a /\ 0 <= n /\ a + n <= guest_size s.
Proof.
unfold in_guest. destruct (guest_mem s); [| discriminate].
rewrite !andb_true_iff, !Z.leb_le. lia.
Qed.

Lemma in_guest_intro s m a n :
guest_mem s = Some m -> 0 <= a -> 0 <= n -> a + n <= guest_size s ->
in_guest s a n = true.
Proof.
intros Hm Ha Hn Hb. unfold in_guest. rewrite Hm.
rewrite !andb_true_iff, !Z.leb_le. lia.
Qed.

(** [in_guest] looks at the size of the mapping and at whether it exists. *)
Lemma in_guest_same s s' a n :
guest_size s' = guest_size s ->
(guest_mem s = None <-> guest_mem s' = None) ->
in_guest s' a n = in_guest s a n.
Proof.
intros Hs Hm. unfold in_guest. rewrite Hs.
destruct (guest_mem s) eqn:E, (guest_mem s') eqn:E'; try reflexivity.
- destruct Hm as [_ Hm]. now specialize (Hm eq_refl).
- destruct Hm as [Hm _]. now specialize (Hm eq_refl).
Qed.

Lemma guest_load_ok n a s m :
guest_mem s = Some m -> in_guest s a (Z.of_nat n) = true ->
guest_load n a s = Ret (load_le n m a) s.
Proof. intros Hm Hin. unfold guest_load. now rewrite Hm, Hin. Qed.

Lemma guest_update_ok a n f s m :
guest_mem s = Some m -> in_guest s a n = true ->
guest_update a n f s = Ret tt (set_guest_mem (Some (f m)) s).
Proof. intros Hm Hin. unfold guest_update. now rewrite Hm, Hin. Qed.

Lemma guest_store_ok n a v s m :
guest_mem s = Some m -> in_guest s a (Z.of_nat n) = true ->
guest_store n a v s = Ret tt (set_guest_mem (Some (store_le n m a v)) s).
Proof.
intros Hm Hin. unfold guest_store.
exact (guest_update_ok a _ (fun m => store_le n m a v) s m Hm Hin).
Qed.

Lemma guest_store_bytes_ok a bs s m :
guest_mem s = Some m -> in_guest s a (Z.of_nat (length bs)) = true ->
guest_store_bytes a bs s = Ret tt (set_guest_mem (Some (store_bytes m a bs)) s).
Proof.
intros Hm Hin. unfold guest_store_bytes.
exact (guest_update_ok a _ (fun m => store_bytes m a bs) s m Hm Hin).
Qed.

Lemma guest_memset_ok a c n s m :
guest_mem s = Some m -> in_guest s a n = true ->
guest_memset a c n s = Ret tt (set_guest_mem (Some (memset m a c n)) s).
Proof.
intros Hm Hin. unfold guest_memset.
exact (guest_update_ok a n (fun m => memset m a c n) s m Hm Hin).
Qed.

End GuestFacts.

(** ** Outcomes *)

Section OutcomeFacts.
Import Machine Props.

Lemma ending_ret {A} (o : outcome A) a :
ending_of o = Returned a -> o = Ret a (final o).
Proof. destruct o; cbn; intros H; inversion H; reflexivity. Qed.

Lemma ending_exit {A} (o : outcome A) st :
ending_of o = Exited st -> o = Exit st (final o).
Proof. destruct o; cbn; intros H; inversion H; reflexivity. Qed.

Lemma ending_abort {A} (o : outcome A) :
ending_of o = Aborted -> o = Abort (final o).
Proof. destruct o; cbn; intros H; inversion H; reflexivity. Qed.

Lemma ending_fault {A} (o : outcome A) :
ending_of o = Faulted -> o = Fault (final o).
Proof. destruct o; cbn; intros H; inversion H; reflexivity. Qed.

End OutcomeFacts.

(** ** The CLOSE hypercall *)

(** C6.  The CLOSE handler calls the host's [close(fd)] exactly when the
    [ret] field of the record is greater than 2 on entry; it then stores the
    result of [close] in [ret] and changes nothing else in guest memory.
    When [ret] is at most 2 on entry there is no call to the host and the
    state, the record included, is left as it was. *)
Theorem close_hypercall_gate (host : Machine.Host) (data : Z)
    (s : Machine.state) (m : Mem.mem)
    (Hmem : Machine.guest_mem s = Some m)
    (Hin : Uhyve.in_guest s data 8 = true) :
  (2 < Uhyve.close_ret m data ->
     let fd := Uhyve.close_fd m data in
     let m' := Mem.store_le 4 m (data + 4) (Machine.sys_close host fd) in
     Uhyve.hypercall_close host data s =
       Machine.Ret tt
         (Machine.set_guest_mem (Some m')
            (Machine.set_trace (Machine.trace s ++ [Machine.EvClose fd]) s))
     /\ Uhyve.close_ret m' data = Int.to_int (Machine.sys_close host fd)
     /\ Uhyve.close_fd m' data = fd
     /\ forall x, x < data + 4 \/ data + 8 <= x -> m' x = m x)
  /\ (Uhyve.close_ret m data <= 2 ->
      Uhyve.hypercall_close host data s = Machine.Ret tt s).
Proof.
  assert (H0 : Uhyve.in_guest s data (Z.of_nat 4) = true)
    by (eapply in_guest_sub; [exact Hin | lia ..]).
  assert (H4 : Uhyve.in_guest s (data + 4) (Z.of_nat 4) = true)
    by (eapply in_guest_sub; [exact Hin | lia ..]).
  unfold Uhyve.close_ret, Uhyve.close_fd.
  split.
  - intros Hgt. cbv zeta.
    split; [| split; [| split]].
    + unfold Uhyve.hypercall_close, Machine.bind.
      rewrite (guest_load_ok _ _ _ _ Hmem H0), (guest_load_ok _ _ _ _ Hmem H4).
      apply Z.ltb_lt in Hgt. rewrite Hgt.
      unfold Machine.emit, Machine.modify.
      erewrite guest_store_ok; [reflexivity | exact Hmem |].
      erewrite in_guest_same; [exact H4 | reflexivity | reflexivity].
    + rewrite load_store_same. apply to_int_wrap32.
    + f_equal. apply load_store_other. lia.
    + intros x Hx. apply store_le_outside. lia.
  - intros Hle. unfold Uhyve.hypercall_close, Machine.bind.
    rewrite (guest_load_ok _ _ _ _ Hmem H0), (guest_load_ok _ _ _ _ Hmem H4).
    apply Z.ltb_ge in Hle. rewrite Hle. reflexivity.
Qed.

Lemma close_hypercall_gate_witness :
  Uhyve.hypercall_close (Demo.host Demo.no_env []) 0x3000
    (Demo.running (Demo.close_record 3)) =
  Machine.Ret tt
    (Machine.set_guest_mem
       (Some (Mem.store_le 4 (Demo.close_record 3) 0x3004 0))
       (Machine.set_trace [Machine.EvClose 7] (Demo.running (Demo.close_record 3))))
  /\ Uhyve.hypercall_close (Demo.host Demo.no_env []) 0x3000
       (Demo.running (Demo.close_record 2)) =
     Machine.Ret tt (Demo.running (Demo.close_record 2)).
Proof.
  split.
  - destruct (close_hypercall_gate (Demo.host Demo.no_env []) 0x3000
                (Demo.running (Demo.close_record 3)) (Demo.close_record 3)
                eq_refl eq_refl) as [Hgt _].
    destruct (Hgt eq_refl) as [Hrun _]. exact Hrun.
  - destruct (close_hypercall_gate (Demo.host Demo.no_env []) 0x3000
                (Demo.running (Demo.close_record 2)) (Demo.close_record 2)
                eq_refl eq_refl) as [_ Hle].
    apply Hle. vm_compute. discriminate.
Defined.

(** ** The NETREAD hypercall *)

Section NetreadFacts.
Import Int Mem Machine Uhyve.

(** [tap_read] touches the trace and the TAP script only, and returns at
most [MAX_RW_COUNT] bytes. *)
Lemma tap_read_inv buf count s res s1 :
tap_read buf count s = Ret res s1 ->
guest_mem s1 = guest_mem s /\ guest_size s1 = guest_size s /\
trace s1 = trace s ++ [EvRead (netfd s) buf count] /\
forall bs, res = ReadBytes bs -> Z.of_nat (length bs) <= MAX_RW_COUNT.
Proof.
unfold tap_read, bind, get, emit, modify, ret. cbn.
destruct (netfd s <? 0).
- intros H. inversion H; subst. cbn. repeat split; discriminate.
- destruct (tap_script s) as [| r rest].
+ intros H. inversion H; subst. cbn. repeat split; discriminate.
+ destruct r as [bs0 | e]; intros H; inversion H; subst; cbn.
  * repeat split. intros bs Hbs. inversion Hbs; subst.
    rewrite length_firstn.
    assert (0 <= MAX_RW_COUNT) by (unfold MAX_RW_COUNT; lia). lia.
  * repeat split; discriminate.
Qed.

Lemma tap_read_never_stops buf count s :
exists res s1, tap_read buf count s = Ret res s1.
Proof.
unfold tap_read, bind, get, emit, modify, ret. cbn.
destruct (netfd s <? 0); [eauto |].
destruct (tap_script s) as [| [bs | e] rest]; eauto.
Qed.

End NetreadFacts.

(** C7.  The NETREAD handler, on a record in guest memory, for whatever the
    host's [read] on the TAP descriptor returns: when it returns 0 (end of
    file) or fails with [EAGAIN], the handler stores -1 in [ret] and leaves
    [len] (and everything but [ret]) as it was; when it returns [n > 0]
    bytes, stored in the guest buffer, the handler stores [n] in [len] and 0
    in [ret]. *)
Theorem netread_hypercall (data : Z) (s s1 : Machine.state) (m : Mem.mem)
    (res : Machine.read_result)
    (Hmem : Machine.guest_mem s = Some m)
    (Hin : Uhyve.in_guest s data 20 = true)
    (Hread : Uhyve.tap_read (Uhyve.net_data m data) (Uhyve.net_len m data) s
             = Machine.Ret res s1) :
  (res = Machine.ReadBytes [] \/ res = Machine.ReadError Machine.EAGAIN ->
     let m' := Mem.store_le 4 m (data + 16) (-1) in
     Uhyve.hypercall_netread data s =
       Machine.Ret tt (Machine.set_guest_mem (Some m') s1)
     /\ Uhyve.net_ret m' data = -1
     /\ Uhyve.net_len m' data = Uhyve.net_len m data
     /\ forall x, x < data + 16 \/ data + 20 <= x -> m' x = m x)
  /\
  (forall bs, res = Machine.ReadBytes bs -> bs <> [] ->
     Uhyve.in_guest s (Uhyve.net_data m data) (Z.of_nat (length bs)) = true ->
     let n := Z.of_nat (length bs) in
     let m' := Mem.store_le 4
                 (Mem.store_le 8 (Mem.store_bytes m (Uhyve.net_data m data) bs)
                               (data + 8) n)
                 (data + 16) 0 in
     Uhyve.hypercall_netread data s =
       Machine.Ret tt (Machine.set_guest_mem (Some m') s1)
     /\ Uhyve.net_len m' data = n
     /\ Uhyve.net_ret m' data = 0).
Proof.
  destruct (tap_read_inv _ _ _ _ _ Hread) as (Hm1 & Hs1 & _ & Hmax).
  rewrite Hmem in Hm1.
  assert (H0 : Uhyve.in_guest s data (Z.of_nat 8) = true)
    by (eapply in_guest_sub; [exact Hin | lia ..]).
  assert (H8 : Uhyve.in_guest s (data + 8) (Z.of_nat 8) = true)
    by (eapply in_guest_sub; [exact Hin | lia ..]).
  assert (H16 : Uhyve.in_guest s1 (data + 16) (Z.of_nat 4) = true).
  { erewrite in_guest_same; [| exact Hs1 | rewrite Hm1, Hmem; split; discriminate].
    eapply in_guest_sub; [exact Hin | lia ..]. }
  assert (Hhead : forall k : Z -> Machine.read_result -> Machine.M unit,
             Machine.bind (Uhyve.guest_load 8 data)
               (fun buf => Machine.bind (Uhyve.guest_load 8 (data + 8))
                  (fun len => Machine.bind (Uhyve.tap_read buf len) (k buf))) s
             = k (Uhyve.net_data m data) res s1).
  { intros k. unfold Machine.bind at 1.
    rewrite (guest_load_ok _ _ _ _ Hmem H0).
    unfold Machine.bind at 1.
    rewrite (guest_load_ok _ _ _ _ Hmem H8).
    unfold Machine.bind at 1.
    unfold Uhyve.net_data, Uhyve.net_len in Hread. rewrite Hread. reflexivity. }
  split.
  - intros Hres. cbv zeta.
    split; [| split; [| split]].
    + unfold Uhyve.hypercall_netread. rewrite Hhead.
      destruct Hres as [-> | ->]; cbn;
        now rewrite (guest_store_ok _ _ _ _ _ Hm1 H16).
    + unfold Uhyve.net_ret. rewrite load_store_same. reflexivity.
    + unfold Uhyve.net_len. apply load_store_other. lia.
    + intros x Hx. apply store_le_outside. lia.
  - intros bs -> Hne Hbuf. cbv zeta.
    assert (Hlen : 0 < Z.of_nat (length bs) <= Uhyve.MAX_RW_COUNT).
    { split; [| now apply Hmax]. destruct bs; [contradiction | cbn; lia]. }
    unfold Uhyve.MAX_RW_COUNT in Hlen.
    split; [| split].
    + unfold Uhyve.hypercall_netread. rewrite Hhead.
      unfold Uhyve.complete_read, Uhyve.store_read.
      destruct bs as [| b bs']; [contradiction |].
      unfold Machine.bind at 1. unfold Machine.bind at 1.
      erewrite guest_store_bytes_ok; [| exact Hm1 |].
      2:{ erewrite in_guest_same;
            [exact Hbuf | exact Hs1 | rewrite Hm1, Hmem; split; discriminate]. }
      unfold Machine.ret at 1.
      rewrite to_int_small by lia.
      replace (Z.of_nat (length (b :: bs')) =? 0) with false
        by (symmetry; apply Z.eqb_neq; lia).
      replace (Z.of_nat (length (b :: bs')) =? -1) with false
        by (symmetry; apply Z.eqb_neq; lia).
      cbn [orb andb].
      replace (0 <? Z.of_nat (length (b :: bs'))) with true
        by (symmetry; apply Z.ltb_lt; lia).
      unfold Machine.c_assert. unfold Machine.bind at 1. unfold Machine.ret at 1.
      unfold Machine.bind at 1.
      erewrite guest_store_ok; [| reflexivity |].
      2:{ erewrite in_guest_same; [| exact Hs1 | cbn; rewrite Hmem; split; discriminate].
          exact H8. }
      erewrite guest_store_ok; [reflexivity | reflexivity |].
      erewrite in_guest_same; [| exact Hs1 | cbn; rewrite Hmem; split; discriminate].
      eapply in_guest_sub; [exact Hin | lia ..].
    + unfold Uhyve.net_len. rewrite load_store_other by lia.
      rewrite load_store_same. apply Z.mod_small. cbn. lia.
    + unfold Uhyve.net_ret. rewrite load_store_same. reflexivity.
Qed.

Lemma netread_hypercall_witness :
  (exists s', Uhyve.hypercall_netread 0x3000
                (Demo.networking (Demo.netread_record 1500) []) = Machine.Ret tt s'
     /\ exists m', Machine.guest_mem s' = Some m'
     /\ Uhyve.net_ret m' 0x3000 = -1 /\ Uhyve.net_len m' 0x3000 = 1500)
  /\
  (exists s', Uhyve.hypercall_netread 0x3000
                (Demo.networking (Demo.netread_record 1500)
                   [Machine.ReadBytes [x01; x02; x03]]) = Machine.Ret tt s'
     /\ exists m', Machine.guest_mem s' = Some m'
     /\ Uhyve.net_ret m' 0x3000 = 0 /\ Uhyve.net_len m' 0x3000 = 3).
Proof.
  split.
  - destruct (netread_hypercall 0x3000
                (Demo.networking (Demo.netread_record 1500) [])
                _ (Demo.netread_record 1500) _ eq_refl eq_refl eq_refl)
      as [Hempty _].
    destruct (Hempty (or_intror eq_refl)) as (Hrun & Hret & Hlen & _).
    eexists. split; [exact Hrun |].
    eexists. split; [reflexivity |]. split; [exact Hret | exact Hlen].
  - destruct (netread_hypercall 0x3000
                (Demo.networking (Demo.netread_record 1500)
                   [Machine.ReadBytes [x01; x02; x03]])
                _ (Demo.netread_record 1500) _ eq_refl eq_refl eq_refl)
      as [_ Hdata].
    destruct (Hdata [x01; x02; x03] eq_refl ltac:(discriminate) eq_refl)
      as (Hrun & Hlen & Hret).
    eexists. split; [exact Hrun |].
    eexists. split; [reflexivity |]. split; [exact Hret | exact Hlen].
Defined.

(** C10.  When the host's [read] on the TAP descriptor fails with an error
    other than [EAGAIN], the assertion [ret > 0] of the NETREAD handler
    fails and the monitor aborts; guest memory, and with it the [ret] field
    of the record, is as it was before the hypercall. *)
Theorem netread_error_aborts (data : Z) (s s1 : Machine.state) (m : Mem.mem)
    (errno : Z)
    (Hmem : Machine.guest_mem s = Some m)
    (Hin : Uhyve.in_guest s data 20 = true)
    (Hread : Uhyve.tap_read (Uhyve.net_data m data) (Uhyve.net_len m data) s
             = Machine.Ret (Machine.ReadError errno) s1)
    (Herrno : errno <> Machine.EAGAIN) :
  Uhyve.hypercall_netread data s = Machine.Abort s1
  /\ Machine.guest_mem s1 = Some m.
Proof.
  destruct (tap_read_inv _ _ _ _ _ Hread) as (Hm1 & _).
  rewrite Hmem in Hm1. split; [| exact Hm1].
  assert (H0 : Uhyve.in_guest s data (Z.of_nat 8) = true)
    by (eapply in_guest_sub; [exact Hin | lia ..]).
  assert (H8 : Uhyve.in_guest s (data + 8) (Z.of_nat 8) = true)
    by (eapply in_guest_sub; [exact Hin | lia ..]).
  unfold Uhyve.hypercall_netread.
  unfold Machine.bind at 1. rewrite (guest_load_ok _ _ _ _ Hmem H0).
  unfold Machine.bind at 1. rewrite (guest_load_ok _ _ _ _ Hmem H8).
  unfold Machine.bind at 1.
  unfold Uhyve.net_data, Uhyve.net_len in Hread. rewrite Hread.
  cbn. replace (errno =? Machine.EAGAIN) with false
    by (symmetry; now apply Z.eqb_neq).
  reflexivity.
Qed.

Lemma netread_error_aborts_witness :
  exists s1,
    Uhyve.hypercall_netread 0x3000
      (Demo.networking (Demo.netread_record 1500) [Machine.ReadError 5])
    = Machine.Abort s1
    /\ Machine.guest_mem s1 = Some (Demo.netread_record 1500).
Proof.
  eexists.
  apply (netread_error_aborts 0x3000
           (Demo.networking (Demo.netread_record 1500) [Machine.ReadError 5])
           _ (Demo.netread_record 1500) 5 eq_refl eq_refl eq_refl).
  discriminate.
Defined.

(** ** The exit hook *)

Section ExitFacts.
Import Int Mem Machine Uhyve Props.

Lemma set_trace_same s : set_trace (trace s) s = s.
Proof. destruct s; reflexivity. Qed.

Lemma stop_threads_trace host todo : forall i threads s,
(i + todo <= length threads)%nat ->
stop_threads host todo i threads s =
Ret tt (set_trace
          (trace s ++ stop_events (pthread_self host) (firstn todo (skipn i threads)))
          s).
Proof.
induction todo as [| todo IH]; intros i threads s Hlen.
- cbn. rewrite app_nil_r, set_trace_same. reflexivity.
- cbn [stop_threads].
destruct (nth_error threads i) as [t |] eqn:Hnth.
2:{ apply nth_error_None in Hnth. lia. }
assert (Hskip : skipn i threads = t :: skipn (S i) threads).
{ clear - Hnth. revert threads Hnth.
  induction i as [| i IHi]; intros [| x l] H; try discriminate.
  - inversion H; reflexivity.
  - cbn in H. cbn [skipn]. now apply IHi. }
rewrite Hskip. cbn [firstn stop_events flat_map].
fold (stop_events (pthread_self host) (firstn todo (skipn (S i) threads))).
unfold bind at 1.
destruct (t =? pthread_self host) eqn:Hself; cbn [negb].
+ unfold ret at 1. rewrite IH by lia. reflexivity.
+ unfold bind at 1, emit, modify. rewrite IH by lia. cbn.
  rewrite <- !app_assoc. reflexivity.
Qed.

End ExitFacts.

(** C8, as the code has it.  The exit hook first sends [SIGTERM] to every
    thread of [vcpu_threads] other than the calling one and joins it, then
    frees the array, then dumps the kernel log if asked to, and then closes
    the vCPU descriptor, the VM descriptor and the KVM descriptor, in that
    order, each unless it is -1. *)
Theorem uhyve_exit_order (host : Machine.Host) (s : Machine.state)
    (Hthreads : match Machine.vcpu_threads s with
                | Some threads =>
                    (Z.to_nat (Machine.ncores s) <= length threads)%nat
                | None => True
                end) :
  Uhyve.uhyve_exit host s =
    Machine.Ret tt
      (Machine.set_kvm (-1) (Machine.set_vmfd (-1) (Machine.set_vcpufd (-1)
         (Machine.set_trace
            (Machine.trace s
             ++ match Machine.vcpu_threads s with
                | Some threads =>
                    Props.stop_events (Machine.pthread_self host)
                      (firstn (Z.to_nat (Machine.ncores s)) threads)
                    ++ [Machine.EvFree]
                | None => []
                end
             ++ Props.klog_dump host s
             ++ Props.close_if_open (Machine.vcpufd s)
             ++ Props.close_if_open (Machine.vmfd s)
             ++ Props.close_if_open (Machine.kvm s))
            s)))).
Proof.
  unfold Uhyve.uhyve_exit, Props.klog_dump, Props.close_if_open.
  unfold Machine.bind at 1. unfold Machine.get at 1.
  unfold Machine.bind at 1.
  assert (Hstop :
    (match Machine.vcpu_threads s with
     | Some threads =>
         Machine.bind
           (Uhyve.stop_threads host (Z.to_nat (Machine.ncores s)) 0 threads)
           (fun _ => Machine.emit Machine.EvFree)
     | None => Machine.ret tt
     end) s =
    Machine.Ret tt
      (Machine.set_trace
         (Machine.trace s
          ++ match Machine.vcpu_threads s with
             | Some threads =>
                 Props.stop_events (Machine.pthread_self host)
                   (firstn (Z.to_nat (Machine.ncores s)) threads)
                 ++ [Machine.EvFree]
             | None => []
             end) s)).
  { destruct (Machine.vcpu_threads s) as [threads |].
    - unfold Machine.bind. rewrite stop_threads_trace by (cbn; lia).
      unfold Machine.emit, Machine.modify. cbn.
      rewrite <- app_assoc. reflexivity.
    - cbn. rewrite app_nil_r, set_trace_same. reflexivity. }
  rewrite Hstop. clear Hstop.
  destruct (Machine.vcpu_threads s) as [threads |];
    destruct (Machine.klog s) as [k |];
    destruct (Machine.getenv host "HERMIT_VERBOSE") as [v |];
    try destruct (String.eqb v "0");
    destruct (Machine.vcpufd s =? -1);
    destruct (Machine.vmfd s =? -1);
    destruct (Machine.kvm s =? -1);
    cbn; rewrite <- ?app_assoc; cbn; rewrite ?app_nil_r; reflexivity.
Qed.

Lemma uhyve_exit_order_witness :
  exists s',
    Uhyve.uhyve_exit (Demo.host Demo.no_env []) Demo.two_cores = Machine.Ret tt s'
    /\ Machine.trace s' =
         [Machine.EvKill 101 Machine.SIGTERM; Machine.EvJoin 101; Machine.EvFree;
          Machine.EvClose 5; Machine.EvClose 4; Machine.EvClose 3].
Proof.
  eexists. split.
  - apply (uhyve_exit_order (Demo.host Demo.no_env []) Demo.two_cores).
    cbn. lia.
  - reflexivity.
Defined.

(** C8 as stated fails: with the vCPU on descriptor 5, the VM on 4 and KVM
    on 3, the hook closes 5, 4, 3: the vCPU descriptor goes first, not the
    VM descriptor. *)
Lemma uhyve_exit_order_counterexample :
  exists s',
    Uhyve.uhyve_exit (Demo.host Demo.no_env []) Demo.two_cores = Machine.Ret tt s'
    /\ Props.closes (Machine.trace s') =
         [Machine.vcpufd Demo.two_cores; Machine.vmfd Demo.two_cores;
          Machine.kvm Demo.two_cores]
    /\ Props.closes (Machine.trace s') <>
         [Machine.vmfd Demo.two_cores; Machine.vcpufd Demo.two_cores;
          Machine.kvm Demo.two_cores].
Proof.
  eexists. split; [reflexivity |]. split; [reflexivity |].
  cbn. discriminate.
Qed.

(** ** [guest_size] is set once *)

Section KeepsSize.
Import Int Mem Machine Elf Uhyve Props.

Lemma keeps_ret {A} (a : A) : keeps_size (ret a).
Proof. intros s. reflexivity. Qed.

Lemma keeps_bind {A B} (c : M A) (k : A -> M B) :
keeps_size c -> (forall a, keeps_size (k a)) -> keeps_size (bind c k).
Proof.
intros Hc Hk s. unfold bind. specialize (Hc s).
destruct (c s) as [a s' | st s' | s' | s' | s']; cbn in *; try exact Hc.
rewrite (Hk a s'). exact Hc.
Qed.

Lemma keeps_get : keeps_size get.
Proof. intros s. reflexivity. Qed.

Lemma keeps_modify f :
(forall s, guest_size (f s) = guest_size s) -> keeps_size (modify f).
Proof. intros H s. apply H. Qed.

Lemma keeps_exit {A} st : keeps_size (@exit A st).
Proof. intros s. reflexivity. Qed.

Lemma keeps_abort {A} : keeps_size (@abort A).
Proof. intros s. reflexivity. Qed.

Lemma keeps_fault {A} : keeps_size (@fault A).
Proof. intros s. reflexivity. Qed.

Lemma keeps_blocked {A} : keeps_size (@blocked A).
Proof. intros s. reflexivity. Qed.

Lemma keeps_assert b : keeps_size (c_assert b).
Proof. destruct b; [apply keeps_ret | apply keeps_abort]. Qed.

Lemma keeps_emit e : keeps_size (emit e).
Proof. intros s. reflexivity. Qed.

Lemma keeps_err {A} msg : keeps_size (@err A msg).
Proof. intros s. reflexivity. Qed.

Lemma keeps_guest_update a n f : keeps_size (guest_update a n f).
Proof.
intros s. unfold guest_update.
destruct (guest_mem s); [| reflexivity].
destruct (in_guest s a n); reflexivity.
Qed.

Lemma keeps_guest_load n a : keeps_size (guest_load n a).
Proof.
intros s. unfold guest_load.
destruct (guest_mem s); [| reflexivity].
destruct (in_guest s a (Z.of_nat n)); reflexivity.
Qed.

Lemma keeps_deref_global p : keeps_size (deref_global p).
Proof. destruct p; [apply keeps_ret | apply keeps_fault]. Qed.

Lemma keeps_store_read a bs : keeps_size (store_read a bs).
Proof. destruct bs; [apply keeps_ret | apply keeps_guest_update]. Qed.

Lemma keeps_pread_in_full file count offset :
keeps_size (pread_in_full file count offset).
Proof.
intros s. unfold pread_in_full.
destruct (SSIZE_MAX <? count); [reflexivity |].
unfold bind, get.
destruct (pread_loop _ _ _ _ _ _ _) as [[r w] sc]. reflexivity.
Qed.

End KeepsSize.

(** One step of a proof that a computation keeps [guest_size]. *)
Ltac keeps_step :=
  first
    [ apply keeps_ret | apply keeps_get | apply keeps_exit | apply keeps_abort
    | apply keeps_fault | apply keeps_blocked | apply keeps_assert
    | apply keeps_emit | apply keeps_err | apply keeps_guest_update
    | apply keeps_guest_load | apply keeps_deref_global | apply keeps_store_read
    | apply keeps_pread_in_full
    | apply keeps_modify; intros ?;
      repeat match goal with
             | |- context [match ?x with _ => _ end] => destruct x
             end;
      reflexivity
    | apply keeps_bind; [| intros ?]
    | match goal with
      | |- Props.keeps_size (if ?b then _ else _) => destruct b
      | |- Props.keeps_size (match ?x with _ => _ end) => destruct x
      | |- Props.keeps_size (let '(_, _) := ?x in _) => destruct x
      end ].

Section KeepsSizeMonitor.
Import Int Mem Machine Elf Uhyve Props.

Variable host : Host.
Variable abi : byte.

Lemma keeps_kvm_ioctl fd req : keeps_size (kvm_ioctl host fd req).
Proof. unfold kvm_ioctl. repeat keeps_step. Qed.

Lemma keeps_get_cpufreq : keeps_size (get_cpufreq host).
Proof. unfold get_cpufreq. repeat keeps_step. Qed.

Lemma keeps_init_kernel paddr filesz : keeps_size (init_kernel host paddr filesz).
Proof.
unfold init_kernel, guest_store.
repeat first [apply keeps_get_cpufreq | keeps_step].
Qed.

Lemma keeps_load_segment file first ph :
keeps_size (load_segment host file first ph).
Proof.
unfold load_segment, guest_memset.
repeat first [apply keeps_init_kernel | keeps_step].
Qed.

Lemma keeps_load_segments file phdr buflen todo : forall ph_i first,
keeps_size (load_segments host file phdr buflen todo ph_i first).
Proof.
induction todo as [| todo IH]; intros ph_i first; cbn [load_segments].
- apply keeps_ret.
- repeat first [apply IH | apply keeps_load_segment | keeps_step].
Qed.

Lemma keeps_load_kernel path : keeps_size (load_kernel host abi path).
Proof.
unfold load_kernel, load_kernel_body.
repeat first [apply keeps_load_segments | keeps_step].
Qed.

Lemma keeps_pde_loop fuel : forall paddr pde,
keeps_size (pde_loop fuel paddr pde).
Proof.
induction fuel as [| fuel IH]; intros paddr pde; cbn [pde_loop];
unfold guest_store; repeat first [apply IH | keeps_step].
Qed.

Lemma keeps_setup_system fd id : keeps_size (setup_system host fd id).
Proof.
unfold setup_system, setup_system_gdt, setup_system_page_tables,
setup_system_64bit, modify_sregs, guest_store, guest_memset.
repeat first [apply keeps_pde_loop | apply keeps_kvm_ioctl | keeps_step].
Qed.

Lemma keeps_vcpu_init id : keeps_size (vcpu_init host id).
Proof.
unfold vcpu_init, setup_cpuid, guest_store.
repeat first [apply keeps_setup_system | apply keeps_kvm_ioctl | keeps_step].
Qed.

End KeepsSizeMonitor.

(** ** Initialisation and the size of the guest *)

Section InitFacts.
Import Int Mem Machine Elf Uhyve Props.

Lemma bind_ret_inv {A B} (c : M A) (k : A -> M B) s b s' :
bind c k s = Ret b s' ->
exists a s1, c s = Ret a s1 /\ k a s1 = Ret b s'.
Proof.
unfold bind. destruct (c s) as [a s1 | | | |]; try discriminate.
intros H. now exists a, s1.
Qed.

Lemma keeps_ret_inv {A} (c : M A) s a s' :
keeps_size c -> c s = Ret a s' -> guest_size s' = guest_size s.
Proof. intros Hk H. specialize (Hk s). now rewrite H in Hk. Qed.

Lemma assert_ret_inv b s u s' : c_assert b s = Ret u s' -> b = true /\ s' = s.
Proof. destruct b; cbn; intros H; inversion H; auto. Qed.

Variable host : Host.
Variable abi : byte.
Variable path : string.

(** The state in which [uhyve_init] reaches its assertion, when it does. *)
Lemma uhyve_init_returns s r s' :
uhyve_init host abi path s = Ret r s' ->
guest_size s' = requested_size host s /\
requested_size host s < KVM_32BIT_GAP_SIZE.
Proof.
unfold uhyve_init. intros H.
apply bind_ret_inv in H. destruct H as (u1 & s1 & H1 & H).
apply bind_ret_inv in H. destruct H as (u2 & s2 & H2 & H).
apply bind_ret_inv in H. destruct H as (u3 & s3 & H3 & H).
apply bind_ret_inv in H. destruct H as (u4 & s4 & H4 & H).
apply bind_ret_inv in H. destruct H as (u5 & s5 & H5 & H).
apply bind_ret_inv in H. destruct H as (v & s6 & H6 & H).
apply bind_ret_inv in H. destruct H as (u7 & s7 & H7 & H).
apply bind_ret_inv in H. destruct H as (fd & s8 & H8 & H).
apply bind_ret_inv in H. destruct H as (u9 & s9 & H9 & H).
apply bind_ret_inv in H. destruct H as (sa & s10 & H10 & H).
apply bind_ret_inv in H. destruct H as (u11 & s11 & H11 & H).
apply bind_ret_inv in H. destruct H as (u12 & s12 & H12 & H).
apply bind_ret_inv in H. destruct H as (rk & s13 & H13 & H).
apply bind_ret_inv in H. destruct H as (u14 & s14 & H14 & H).
apply bind_ret_inv in H. destruct H as (u15 & s15 & H15 & H).
apply bind_ret_inv in H. destruct H as (u16 & s16 & H16 & H).
assert (E3 : guest_size s3 = requested_size host s).
{ unfold requested_size.
inversion H1; subst s1. inversion H2; subst s2.
destruct (getenv host "HERMIT_MEM"); inversion H3; reflexivity. }
assert (E10 : guest_size s10 = guest_size s3).
{ apply keeps_ret_inv in H4; [| keeps_step].
apply keeps_ret_inv in H5; [| repeat keeps_step].
apply keeps_ret_inv in H6; [| apply keeps_kvm_ioctl].
apply keeps_ret_inv in H7; [| repeat keeps_step].
apply keeps_ret_inv in H8; [| apply keeps_kvm_ioctl].
apply keeps_ret_inv in H9; [| keeps_step].
apply keeps_ret_inv in H10; [| keeps_step].
congruence. }
assert (Esa : sa = s10 /\ s10 = s9) by (inversion H10; auto).
destruct Esa as [-> E9].
apply assert_ret_inv in H11. destruct H11 as [Hlt ->].
apply Z.ltb_lt in Hlt.
assert (Efin : guest_size s' = guest_size s10).
{ apply keeps_ret_inv in H12; [| repeat keeps_step].
apply keeps_ret_inv in H13; [| apply keeps_load_kernel].
apply keeps_ret_inv in H14; [| repeat keeps_step].
apply keeps_ret_inv in H15; [| apply keeps_kvm_ioctl].
apply keeps_ret_inv in H16; [| apply keeps_kvm_ioctl].
apply keeps_ret_inv in H; [| apply keeps_vcpu_init].
congruence. }
split; [congruence | rewrite <- E3, <- E10; exact Hlt].
Qed.

(** A request for [KVM_32BIT_GAP_SIZE] bytes or more never gets past the
assertion: the monitor has exited on a host error before, or aborts
there, and no guest memory is mapped. *)
Lemma uhyve_init_rejects s :
KVM_32BIT_GAP_SIZE <= requested_size host s ->
exists s',
(uhyve_init host abi path s = Abort s' \/
 uhyve_init host abi path s = Exit 1 s')
/\ guest_mem s' = guest_mem s /\ vcpufd s' = vcpufd s.
Proof.
intros Hbig. unfold requested_size in Hbig.
unfold uhyve_init, kvm_ioctl, err, bind, emit, modify, get, ret, exit.
destruct (getenv host "HERMIT_MEM") as [str |]; cbn;
(destruct (open_kvm host <? 0); cbn;
 [eexists; split; [right; reflexivity | split; reflexivity] |]);
(destruct (ioctl host (open_kvm host) Kvm.KVM_GET_API_VERSION =? -1); cbn;
 [eexists; split; [right; reflexivity | split; reflexivity] |]);
(destruct (ioctl host (open_kvm host) Kvm.KVM_GET_API_VERSION =? 12); cbn;
 [| eexists; split; [right; reflexivity | split; reflexivity]]);
(destruct (ioctl host (open_kvm host) Kvm.KVM_CREATE_VM =? -1); cbn;
 [eexists; split; [right; reflexivity | split; reflexivity] |]);
(replace (_ <? KVM_32BIT_GAP_SIZE) with false
   by (symmetry; apply Z.ltb_ge; exact Hbig));
cbn; eexists; (split; [left; reflexivity | split; reflexivity]).
Qed.

End InitFacts.

(** C2.  Initialisation asserts [guest_size < KVM_32BIT_GAP_SIZE], and
    [KVM_32BIT_GAP_SIZE] (0x30000000) lies below the base of the 32-bit PCI
    gap (0xC0000000).  So whenever [uhyve_init] returns, [guest_size] -- the
    size requested through [HERMIT_MEM], or the default -- is below
    0xC0000000; and a request of 0xC0000000 bytes or more never returns from
    initialisation: the monitor aborts at the assertion (or has exited with
    status 1 on a host error before it), with no guest memory mapped and no
    vCPU created. *)
Theorem guest_size_below_pci_gap (host : Machine.Host) (abi : byte)
    (path : string) (s : Machine.state) :
  (forall r s', Uhyve.uhyve_init host abi path s = Machine.Ret r s' ->
     Machine.guest_size s' = Props.requested_size host s /\
     Machine.guest_size s' < 0xC0000000)
  /\
  (0xC0000000 <= Props.requested_size host s ->
   exists s',
     (Uhyve.uhyve_init host abi path s = Machine.Abort s' \/
      Uhyve.uhyve_init host abi path s = Machine.Exit 1 s')
     /\ Machine.guest_mem s' = Machine.guest_mem s
     /\ Machine.vcpufd s' = Machine.vcpufd s).
Proof.
  split.
  - intros r s' H. destruct (uhyve_init_returns host abi path s r s' H) as [E Hlt].
    split; [exact E |]. rewrite E.
    unfold Uhyve.KVM_32BIT_GAP_SIZE in Hlt. cbn in Hlt. lia.
  - intros Hbig. apply uhyve_init_rejects.
    unfold Uhyve.KVM_32BIT_GAP_SIZE. cbn. lia.
Qed.

Lemma guest_size_below_pci_gap_witness :
  (let o := Uhyve.uhyve_init (Demo.host (Demo.mem_env "512M") Demo.image)
              Demo.osabi "kernel" Demo.start in
   o = Machine.Ret 0 (Props.final o)
   /\ Machine.guest_size (Props.final o) = 512 * 1024 * 1024
   /\ Machine.guest_size (Props.final o) < 0xC0000000)
  /\
  (let o := Uhyve.uhyve_init (Demo.host (Demo.mem_env "3G") Demo.image)
              Demo.osabi "kernel" Demo.start in
   o = Machine.Abort (Props.final o)
   /\ Machine.guest_mem (Props.final o) = None).
Proof.
  split; cbv zeta.
  - assert (Hret : Uhyve.uhyve_init (Demo.host (Demo.mem_env "512M") Demo.image)
                     Demo.osabi "kernel" Demo.start
                   = Machine.Ret 0 (Props.final
                       (Uhyve.uhyve_init (Demo.host (Demo.mem_env "512M") Demo.image)
                          Demo.osabi "kernel" Demo.start)))
      by (apply ending_ret; vm_compute; reflexivity).
    split; [exact Hret |].
    destruct (proj1 (guest_size_below_pci_gap
                       (Demo.host (Demo.mem_env "512M") Demo.image)
                       Demo.osabi "kernel" Demo.start) _ _ Hret) as [Hsize Hlt].
    split; [| exact Hlt].
    rewrite Hsize. vm_compute. reflexivity.
  - destruct (proj2 (guest_size_below_pci_gap
                       (Demo.host (Demo.mem_env "3G") Demo.image)
                       Demo.osabi "kernel" Demo.start))
      as (s' & _ & _ & _).
    + vm_compute. discriminate.
    + split; [apply ending_abort; vm_compute; reflexivity | vm_compute; reflexivity].
Defined.

(** ** Rejection of a bad image *)

Section LoaderResult.
Import Int Mem Machine Elf Uhyve Props.

(** Once the file is open, [load_kernel] can only return 0: every path
through the label [out] ends in [return 0]. *)
Lemma load_kernel_returns_zero host abi path fd file s r s' :
open_file host path = Some (fd, file) ->
load_kernel host abi path s = Ret r s' -> r = 0.
Proof.
intros Hopen H. unfold load_kernel in H. rewrite Hopen in H.
apply bind_ret_inv in H. destruct H as (u1 & s1 & _ & H).
apply bind_ret_inv in H. destruct H as (phdr & s2 & _ & H).
apply bind_ret_inv in H. destruct H as (u3 & s3 & _ & H).
apply bind_ret_inv in H. destruct H as (u4 & s4 & _ & H).
now inversion H.
Qed.

(** So [uhyve_init] reaches [exit(EXIT_FAILURE)] after [load_kernel] only
when the file cannot be opened. *)
Lemma uhyve_init_goes_on host abi path fd file s r s1 :
open_file host path = Some (fd, file) ->
load_kernel host abi path s = Ret r s1 ->
(if negb (r =? 0) then exit EXIT_FAILURE else ret tt) s1 = Ret tt s1.
Proof.
intros Hopen H.
rewrite (load_kernel_returns_zero _ _ _ _ _ _ _ _ Hopen H). reflexivity.
Qed.

End LoaderResult.

(** C1, on the code.  For the image [Demo.bad_image], a well-formed
    HermitCore executable but for [e_machine = EM_386], [load_kernel] prints
    its complaint, closes the file and returns 0.  [uhyve_init], which has
    created the VM before it looks at the image, therefore does not exit:
    it registers the guest memory and creates the interrupt controller, and
    stops only in [vcpu_init], which dereferences the [mboot] pointer that no
    segment has set. *)
Theorem bad_image_not_rejected :
  (let o := Uhyve.load_kernel (Demo.host Demo.no_env Demo.bad_image) Demo.osabi
              "kernel" (Demo.running Mem.zero_mem) in
   o = Machine.Ret 0 (Props.final o)
   /\ Machine.trace (Props.final o) =
         [Machine.EvOpen "kernel";
          Machine.EvStderr "Inavlide HermitCore file!";
          Machine.EvClose 6])
  /\
  (let o := Uhyve.uhyve_init (Demo.host Demo.no_env Demo.bad_image) Demo.osabi
              "kernel" Demo.start in
   o = Machine.Fault (Props.final o)
   /\ Machine.mboot (Props.final o) = None
   /\ Machine.trace (Props.final o) =
         [Machine.EvSignal Machine.SIGTERM; Machine.EvAtexit;
          Machine.EvIoctl 3 Kvm.KVM_GET_API_VERSION;
          Machine.EvIoctl 3 Kvm.KVM_CREATE_VM;
          Machine.EvOpen "kernel";
          Machine.EvStderr "Inavlide HermitCore file!";
          Machine.EvClose 6;
          Machine.EvIoctl 4 (Kvm.KVM_SET_USER_MEMORY_REGION 0 0 0x20000000);
          Machine.EvIoctl 4 Kvm.KVM_CREATE_IRQCHIP]).
Proof.
  split; cbv zeta.
  - split; [apply ending_ret |]; vm_compute; reflexivity.
  - split; [apply ending_fault | split]; vm_compute; reflexivity.
Qed.

(** ** Page tables *)

Section PageTableFacts.
Import Int Mem Machine Uhyve Props.

Lemma set_guest_mem_same s m : guest_mem s = Some m -> set_guest_mem (Some m) s = s.
Proof. destruct s; cbn. intros ->. reflexivity. Qed.

Lemma lor_bound a b : 0 <= a -> 0 <= b -> 0 <= Z.lor a b <= a + b.
Proof.
intros Ha Hb. split; [now apply Z.lor_nonneg |].
pose proof (Z.add_lor_land a b) as H.
assert (0 <= Z.land a b) by (apply Z.land_nonneg; now left). lia.
Qed.

Lemma fill_pde_outside n : forall paddr pde m x,
x < pde \/ pde + 8 * Z.of_nat n <= x -> fill_pde n paddr pde m x = m x.
Proof.
induction n as [| k IH]; intros paddr pde m x Hx; [reflexivity |].
cbn [fill_pde]. rewrite IH by lia. apply store_le_outside. lia.
Qed.

Lemma fill_pde_load n : forall paddr pde m j,
0 <= j ->
load_le 8 (fill_pde n paddr pde m) (pde + 8 * j) =
if j <? Z.of_nat n
then Z.lor (paddr + j * GUEST_PAGE_SIZE) pde_flags mod 2 ^ 64
else load_le 8 m (pde + 8 * j).
Proof.
induction n as [| k IH]; intros paddr pde m j Hj.
- cbn [fill_pde]. replace (j <? Z.of_nat 0) with false; [reflexivity |].
symmetry. apply Z.ltb_ge. lia.
- cbn [fill_pde].
destruct (Z.eq_dec j 0) as [-> | Hnz].
+ replace (0 <? Z.of_nat (S k)) with true by (symmetry; apply Z.ltb_lt; lia).
  rewrite Z.mul_0_r, Z.add_0_r, Z.mul_0_l, Z.add_0_r.
  rewrite (load_le_ext 8 _ (store_le 8 m pde (Z.lor paddr pde_flags))).
  * apply load_store_same.
  * intros x Hx. apply fill_pde_outside. lia.
+ replace (pde + 8 * j) with (pde + 8 + 8 * (j - 1)) by lia.
  rewrite IH by lia.
  replace (j - 1 <? Z.of_nat k) with (j <? Z.of_nat (S k)).
  2:{ destruct (j <? Z.of_nat (S k)) eqn:E; symmetry.
      - apply Z.ltb_lt in E. apply Z.ltb_lt. lia.
      - apply Z.ltb_ge in E. apply Z.ltb_ge. lia. }
  destruct (j <? Z.of_nat (S k)).
  * f_equal. f_equal. lia.
  * apply load_store_other. lia.
Qed.

(** The loop stores one entry per remaining 2 MiB page. *)
Lemma pde_loop_fills fuel : forall n paddr pde s m,
guest_mem s = Some m ->
(n <= fuel)%nat ->
0 <= paddr ->
guest_size s = paddr + Z.of_nat n * GUEST_PAGE_SIZE ->
guest_size s < two64 ->
0 <= pde -> pde + 8 * Z.of_nat n <= guest_size s ->
pde_loop fuel paddr pde s =
Ret tt (set_guest_mem (Some (fill_pde n paddr pde m)) s).
Proof.
induction fuel as [| fuel IH]; intros n paddr pde s m Hm Hn Hp Hs Hlt Hpde Hb.
- assert (n = O) by lia. subst n. cbn.
unfold bind, get. replace (paddr <? guest_size s) with false
  by (symmetry; apply Z.ltb_ge; lia).
cbn. now rewrite set_guest_mem_same.
- cbn [pde_loop]. unfold bind at 1. unfold get at 1.
destruct n as [| k].
+ replace (paddr <? guest_size s) with false
    by (symmetry; apply Z.ltb_ge; lia).
  cbn. now rewrite set_guest_mem_same.
+ assert (HP : GUEST_PAGE_SIZE = 0x200000) by reflexivity.
  replace (paddr <? guest_size s) with true
    by (symmetry; apply Z.ltb_lt; lia).
  unfold bind at 1.
  erewrite guest_store_ok; [| exact Hm |].
  2:{ eapply in_guest_intro; [exact Hm | lia ..]. }
  rewrite wrap64_small by lia.
  erewrite IH with (n := k); [reflexivity | reflexivity | lia | lia | | | |];
    cbn [guest_size set_guest_mem]; try lia.
Qed.

End PageTableFacts.

Section PageTableRun.
Import Int Mem Machine Uhyve Props.

(** Page-table set-up runs to completion on a mapped guest whose size is a
non-zero multiple of 2 MiB up to 1 GiB. *)
Lemma setup_system_page_tables_runs s m :
guest_mem s = Some m ->
guest_size s mod GUEST_PAGE_SIZE = 0 ->
0 < guest_size s <= 0x40000000 ->
setup_system_page_tables s =
Ret tt (set_sregs (page_tables_sregs (sregs s))
          (set_guest_mem (Some (page_tables_mem (guest_size s) m)) s)).
Proof.
intros Hmem Hmult [Hpos Hmax].
assert (HP : GUEST_PAGE_SIZE = 0x200000) by reflexivity.
rewrite HP in Hmult.
assert (Hdiv : guest_size s = 0x200000 * (guest_size s / 0x200000))
by (apply Z.div_exact; [lia | exact Hmult]).
assert (Hq : 1 <= guest_size s / 0x200000 <= 512) by lia.
assert (Hin : forall a n, 0 <= a -> 0 <= n -> a + n <= 0x13000 ->
              forall s1 m1, guest_mem s1 = Some m1 ->
                guest_size s1 = guest_size s ->
                in_guest s1 a n = true).
{ intros a n Ha Hn Hle s1 m1 Hm1 Hs1.
eapply in_guest_intro; [exact Hm1 | lia | lia | rewrite Hs1; lia]. }
unfold setup_system_page_tables, page_tables_mem.
unfold BOOT_PML4, BOOT_PDPTE, BOOT_PDE. cbv zeta.
unfold bind at 1. unfold get at 1.
replace (Z.land (guest_size s) (GUEST_PAGE_SIZE - 1) =? 0) with true.
2:{ symmetry. apply Z.eqb_eq.
  change (GUEST_PAGE_SIZE - 1) with (Z.ones 21).
  rewrite Z.land_ones by lia. exact Hmult. }
replace (guest_size s <=? GUEST_PAGE_SIZE * 512) with true
by (symmetry; apply Z.leb_le; rewrite HP; lia).
unfold c_assert.
unfold bind at 1. unfold ret at 1.
unfold bind at 1. unfold ret at 1.
unfold bind at 1.
rewrite (guest_memset_ok _ _ _ _ _ Hmem)
by (eapply Hin; [| | | exact Hmem | reflexivity]; lia).
unfold bind at 1.
erewrite guest_memset_ok;
[| reflexivity | eapply Hin; [| | | reflexivity | reflexivity]; lia].
unfold bind at 1.
erewrite guest_memset_ok;
[| reflexivity | eapply Hin; [| | | reflexivity | reflexivity]; lia].
unfold bind at 1.
erewrite guest_store_ok;
[| reflexivity | eapply Hin; [| | | reflexivity | reflexivity]; lia].
unfold bind at 1.
erewrite guest_store_ok;
[| reflexivity | eapply Hin; [| | | reflexivity | reflexivity]; lia].
unfold bind at 1.
erewrite (pde_loop_fills 512 (Z.to_nat (guest_size s / GUEST_PAGE_SIZE)));
[| reflexivity | rewrite HP; lia | lia | | | |].
- reflexivity.
- cbn [guest_size set_guest_mem]. rewrite HP. lia.
- cbn [guest_size set_guest_mem]. unfold two64. lia.
- lia.
- cbn [guest_size set_guest_mem]. rewrite HP. lia.
Qed.

End PageTableRun.

(** C9.  When [guest_size] is a multiple of 2 MiB and at most 1 GiB (and
    the guest is mapped, so that its size is not zero), page-table set-up
    returns with: one PML4 entry, at 0x10000, pointing to the PDPTE page at
    0x11000 with the present and writable flags; one PDPTE entry, at
    0x11000, pointing to the PDE page at 0x12000 with the same flags; for
    every 2 MiB page [i] of [0, guest_size) the PDE entry [i] mapping
    address [i * 2 MiB] to itself with the present, writable and page-size
    flags; every other entry of the three pages zero; memory outside the
    three pages untouched; CR3 = 0x10000, CR4.PAE and CR0.PG set, the other
    bits of CR0 and CR4 as they were. *)
Theorem page_tables_identity_map (s : Machine.state) (m : Mem.mem)
    (Hmem : Machine.guest_mem s = Some m)
    (Hmult : Machine.guest_size s mod Uhyve.GUEST_PAGE_SIZE = 0)
    (Hpos : 0 < Machine.guest_size s)
    (Hmax : Machine.guest_size s <= 0x40000000) :
  exists s' m',
    Uhyve.setup_system_page_tables s = Machine.Ret tt s'
    /\ Machine.guest_mem s' = Some m'
    /\ Mem.load_le 8 m' 0x10000 =
         Z.lor 0x11000 (Z.lor Cpu.X86_PDPT_P Cpu.X86_PDPT_RW)
    /\ (forall i, 1 <= i < 512 -> Mem.load_le 8 m' (0x10000 + 8 * i) = 0)
    /\ Mem.load_le 8 m' 0x11000 =
         Z.lor 0x12000 (Z.lor Cpu.X86_PDPT_P Cpu.X86_PDPT_RW)
    /\ (forall i, 1 <= i < 512 -> Mem.load_le 8 m' (0x11000 + 8 * i) = 0)
    /\ (forall i, 0 <= i < Machine.guest_size s / Uhyve.GUEST_PAGE_SIZE ->
          Mem.load_le 8 m' (0x12000 + 8 * i) =
            Z.lor (i * Uhyve.GUEST_PAGE_SIZE)
              (Z.lor Cpu.X86_PDPT_P (Z.lor Cpu.X86_PDPT_RW Cpu.X86_PDPT_PS)))
    /\ (forall i, Machine.guest_size s / Uhyve.GUEST_PAGE_SIZE <= i < 512 ->
          Mem.load_le 8 m' (0x12000 + 8 * i) = 0)
    /\ (forall x, x < 0x10000 \/ 0x13000 <= x -> m' x = m x)
    /\ Kvm.cr3 (Machine.sregs s') = 0x10000
    /\ Kvm.cr4 (Machine.sregs s') =
         Z.lor (Kvm.cr4 (Machine.sregs s)) Cpu.X86_CR4_PAE
    /\ Kvm.cr0 (Machine.sregs s') =
         Z.lor (Kvm.cr0 (Machine.sregs s)) Cpu.X86_CR0_PG
    /\ Z.testbit Cpu.X86_CR4_PAE 5 = true
    /\ Z.testbit Cpu.X86_CR0_PG 31 = true.
Proof.
  assert (HP : Uhyve.GUEST_PAGE_SIZE = 0x200000) by reflexivity.
  pose proof (setup_system_page_tables_runs s m Hmem Hmult (conj Hpos Hmax)) as Hrun.
  rewrite HP in *.
  assert (Hdiv : Machine.guest_size s = 0x200000 * (Machine.guest_size s / 0x200000))
    by (apply Z.div_exact; [lia | exact Hmult]).
  set (q := Machine.guest_size s / 0x200000) in *.
  assert (Hq : 1 <= q <= 512) by lia.
  exists (Machine.set_sregs (Props.page_tables_sregs (Machine.sregs s))
            (Machine.set_guest_mem
               (Some (Props.page_tables_mem (Machine.guest_size s) m)) s)).
  exists (Props.page_tables_mem (Machine.guest_size s) m).
  split; [exact Hrun |]. split; [reflexivity |].
  unfold Props.page_tables_mem. rewrite HP. fold q.
  unfold Uhyve.BOOT_PML4, Uhyve.BOOT_PDPTE, Uhyve.BOOT_PDE.
  set (m0 := Mem.store_le 8 (Mem.store_le 8 _ _ _) _ _).
  set (m' := Props.fill_pde (Z.to_nat q) 0 0x12000 m0).
  assert (Hflags : Props.pde_flags
                   = Z.lor Cpu.X86_PDPT_P (Z.lor Cpu.X86_PDPT_RW Cpu.X86_PDPT_PS))
    by reflexivity.
  assert (Hm0 : forall x, x < 0x12000 \/ 0x13000 <= x -> m' x = m0 x).
  { intros x Hx. apply fill_pde_outside. lia. }
  split; [| split; [| split; [| split; [| split; [| split; [| split]]]]]].
  - rewrite (load_le_ext 8 m' m0)
      by (intros x Hx; apply Hm0; change (Z.of_nat 8) with 8 in Hx; lia).
    unfold m0. rewrite load_store_other by (change (Z.of_nat 8) with 8; lia).
    rewrite load_store_same. reflexivity.
  - intros i Hi.
    rewrite (load_le_ext 8 m' m0)
      by (intros x Hx; apply Hm0; change (Z.of_nat 8) with 8 in Hx; lia).
    unfold m0. rewrite !load_store_other by (change (Z.of_nat 8) with 8; lia).
    apply load_le_zero. intros x Hx. change (Z.of_nat 8) with 8 in Hx.
    rewrite !memset_outside by lia. apply memset_inside. lia.
  - rewrite (load_le_ext 8 m' m0)
      by (intros x Hx; apply Hm0; change (Z.of_nat 8) with 8 in Hx; lia).
    unfold m0. rewrite load_store_same. reflexivity.
  - intros i Hi.
    rewrite (load_le_ext 8 m' m0)
      by (intros x Hx; apply Hm0; change (Z.of_nat 8) with 8 in Hx; lia).
    unfold m0. rewrite !load_store_other by (change (Z.of_nat 8) with 8; lia).
    apply load_le_zero. intros x Hx. change (Z.of_nat 8) with 8 in Hx.
    rewrite memset_outside by lia. apply memset_inside. lia.
  - intros i Hi. unfold m'. rewrite fill_pde_load by lia.
    replace (i <? Z.of_nat (Z.to_nat q)) with true
      by (symmetry; apply Z.ltb_lt; lia).
    rewrite Z.add_0_l, HP, <- Hflags.
    apply Z.mod_small.
    assert (0 <= Props.pde_flags <= 0x83) by (vm_compute; split; discriminate).
    pose proof (lor_bound (i * 0x200000) Props.pde_flags).
    lia.
  - intros i Hi. unfold m'. rewrite fill_pde_load by lia.
    replace (i <? Z.of_nat (Z.to_nat q)) with false
      by (symmetry; apply Z.ltb_ge; lia).
    unfold m0. rewrite !load_store_other by (change (Z.of_nat 8) with 8; lia).
    apply load_le_zero. intros x Hx. change (Z.of_nat 8) with 8 in Hx.
    apply memset_inside. lia.
  - intros x Hx. rewrite Hm0 by lia. unfold m0.
    rewrite !store_le_outside by (change (Z.of_nat 8) with 8; lia).
    rewrite !memset_outside by lia. reflexivity.
  - repeat split.
Qed.

Lemma page_tables_identity_map_witness :
  exists s' m',
    Uhyve.setup_system_page_tables (Demo.running Mem.zero_mem) = Machine.Ret tt s'
    /\ Machine.guest_mem s' = Some m'
    /\ Mem.load_le 8 m' 0x10000 = 0x11003
    /\ Mem.load_le 8 m' 0x11000 = 0x12003
    /\ Mem.load_le 8 m' (0x12000 + 8 * 255) = 0x1fe00083
    /\ Mem.load_le 8 m' (0x12000 + 8 * 256) = 0
    /\ Kvm.cr3 (Machine.sregs s') = 0x10000.
Proof.
  destruct (page_tables_identity_map (Demo.running Mem.zero_mem) Mem.zero_mem
              eq_refl eq_refl eq_refl ltac:(vm_compute; intros H; discriminate H))
    as (s' & m' & Hrun & Hmem & Hpml4 & _ & Hpdpte & _ & Hpde & Hrest & _ & Hcr3 & _).
  exists s', m'.
  split; [exact Hrun |]. split; [exact Hmem |].
  split; [exact Hpml4 |]. split; [exact Hpdpte |].
  split; [apply (Hpde 255); vm_compute; split; [intros H; discriminate H | reflexivity] |].
  split; [apply (Hrest 256); vm_compute; split; [intros H; discriminate H | reflexivity] |].
  exact Hcr3.
Defined.

(** ** The positional reader *)

Section PreadFacts.
Import Int Mem Machine Elf Uhyve Props.

Lemma firstn_chunk {A} (c n : nat) (l : list A) :
(c <= n)%nat ->
firstn n l =
  firstn c l ++ firstn (n - length (firstn c l)) (skipn (length (firstn c l)) l).
Proof.
intros Hcn. rewrite length_firstn.
destruct (Nat.le_gt_cases c (length l)) as [Hle | Hgt].
- rewrite Nat.min_l by exact Hle.
  rewrite <- (firstn_skipn c l) at 1.
  rewrite firstn_app, length_firstn, Nat.min_l by exact Hle.
  rewrite firstn_firstn, Nat.min_r by exact Hcn. reflexivity.
- rewrite Nat.min_r by lia.
  rewrite (firstn_all2 (n := c)) by lia.
  rewrite (firstn_all2 (n := n)) by lia.
  rewrite skipn_all. cbn. rewrite firstn_nil, app_nil_r. reflexivity.
Qed.

(** With enough fuel and no error but [EINTR] in the script, the loop
  transfers all of the requested range that the file holds. *)
Lemma pread_loop_ok file fuel : forall script count offset total written,
forallb benign script = true ->
0 <= count -> 0 <= offset -> offset + count <= SSIZE_MAX ->
(length script + length (file_range file count offset) < fuel)%nat ->
exists script',
  pread_loop fuel file script count offset total written =
    (total + Z.of_nat (length (file_range file count offset)),
     written ++ file_range file count offset, script')
  /\ forallb benign script' = true.
Proof.
induction fuel as [| fuel IH];
  intros script count offset total written Hben Hc Ho Hmax Hfuel; [lia |].
cbn [pread_loop].
destruct (0 <? count) eqn:Hpos.
2:{ apply Z.ltb_ge in Hpos. assert (count = 0) by lia. subst count.
    unfold file_range. cbn. rewrite Z.add_0_r, app_nil_r. eauto. }
apply Z.ltb_lt in Hpos.
unfold sys_pread.
assert (Hmax' : SSIZE_MAX = 2 ^ 63 - 1) by reflexivity.
rewrite to_long_small by lia.
replace (offset <? 0) with false by (symmetry; apply Z.ltb_ge; lia).
(* a transfer of at most [c] bytes, [1 <= c <= count] *)
assert (Hstep : forall c script',
  1 <= c <= count -> forallb benign script' = true ->
  (length script' < length script)%nat \/ script' = script ->
  (length script' + length (file_range file count offset) < S fuel)%nat ->
  let data := firstn (Z.to_nat c) (skipn (Z.to_nat offset) file) in
  let nr := Z.of_nat (length data) in
  exists script'',
    (if nr =? 0 then (total, written, script')
     else if (nr =? -1) && (0 =? EINTR) then
            pread_loop fuel file script' count offset total written
     else if nr =? -1 then (-1, written, script')
     else pread_loop fuel file script' (count - nr) (offset + nr)
                     (total + nr) (written ++ data)) =
    (total + Z.of_nat (length (file_range file count offset)),
     written ++ file_range file count offset, script'')
    /\ forallb benign script'' = true).
{ intros c script' Hcr Hben' _ Hfuel' data nr.
  pose proof (firstn_chunk (Z.to_nat c) (Z.to_nat count)
                (skipn (Z.to_nat offset) file) ltac:(lia)) as Hchunk.
  fold data in Hchunk.
  assert (Hrest : firstn (Z.to_nat count - length data)
                    (skipn (length data) (skipn (Z.to_nat offset) file))
                  = file_range file (count - nr) (offset + nr)).
  { unfold file_range, nr. rewrite skipn_skipn. f_equal; [lia |].
    f_equal. lia. }
  rewrite Hrest in Hchunk.
  change (firstn (Z.to_nat count) (skipn (Z.to_nat offset) file))
    with (file_range file count offset) in Hchunk.
  assert (Hlen : length (file_range file count offset)
                 = (length data + length (file_range file (count - nr) (offset + nr)))%nat).
  { rewrite Hchunk, length_app. reflexivity. }
  assert (Hnr : Z.of_nat (length data) <= count).
  { unfold data. rewrite length_firstn. lia. }
  destruct (nr =? 0) eqn:Hz.
  - apply Z.eqb_eq in Hz. exists script'. split; [| exact Hben'].
    assert (Hd : data = []) by (destruct data; [reflexivity | cbn in Hz; unfold nr in Hz; cbn in Hz; lia]).
    assert (Hskip : skipn (Z.to_nat offset) file = []).
    { unfold data in Hd. destruct (skipn (Z.to_nat offset) file); [reflexivity |].
      destruct (Z.to_nat c) eqn:Ec; [lia | discriminate Hd]. }
    unfold file_range. rewrite Hskip, firstn_nil. cbn.
    now rewrite Z.add_0_r, app_nil_r.
  - apply Z.eqb_neq in Hz.
    replace (nr =? -1) with false by (symmetry; apply Z.eqb_neq; unfold nr; lia).
    cbn [andb].
    destruct (IH script' (count - nr) (offset + nr) (total + nr) (written ++ data))
      as (script'' & Heq & Hben''); try (unfold nr in *; lia); [exact Hben' |].
    exists script''. split; [| exact Hben''].
    rewrite Heq, Hlen. rewrite Hchunk at 1.
    rewrite Nat2Z.inj_add, <- app_assoc. fold nr. rewrite Z.add_assoc.
    reflexivity. }
destruct script as [| ev script']; cbn [hd_error tl].
- apply (Hstep count []); [lia | reflexivity | right; reflexivity | exact Hfuel].
- cbn [forallb] in Hben. apply andb_true_iff in Hben. destruct Hben as [Hev Hben'].
  destruct ev as [n | e].
  + apply (Hstep (Z.min (Z.max 1 n) count) script');
      [lia | exact Hben' | left; cbn; lia | cbn in Hfuel; lia].
  + cbn [benign] in Hev. rewrite Hev.
    replace (-1 =? 0) with false by reflexivity.
    replace (-1 =? -1) with true by reflexivity. cbn [andb].
    apply IH; [exact Hben' | lia | lia | lia | cbn in Hfuel; lia].
Qed.

End PreadFacts.

Section ReaderFacts.
Import Int Mem Machine Elf Uhyve Props.

Lemma file_range_length file count offset :
(length (file_range file count offset) <= length file)%nat.
Proof.
unfold file_range. rewrite length_firstn, length_skipn. lia.
Qed.

(** When the file holds the whole range, the range has [count] bytes. *)
Lemma file_range_full file count offset :
0 <= count -> 0 <= offset -> offset + count <= Z.of_nat (length file) ->
Z.of_nat (length (file_range file count offset)) = count.
Proof.
intros Hc Ho Hle. unfold file_range. rewrite length_firstn, length_skipn. lia.
Qed.

Lemma file_range_nth file count offset i d :
(i < Z.to_nat count)%nat -> (Z.to_nat offset + i < length file)%nat ->
nth i (file_range file count offset) d = nth (Z.to_nat offset + i)%nat file x00.
Proof.
intros Hi Hlen. unfold file_range. rewrite nth_firstn.
replace (i <? Z.to_nat count)%nat with true by (symmetry; apply Nat.ltb_lt; lia).
rewrite nth_skipn. apply nth_indep. exact Hlen.
Qed.

Lemma pread_in_full_ok file count offset s :
forallb benign (pread_script s) = true ->
0 <= count -> 0 <= offset -> offset + count <= SSIZE_MAX ->
exists script',
  pread_in_full file count offset s =
    Ret (Z.of_nat (length (file_range file count offset)),
         file_range file count offset)
        (set_pread_script script' s)
  /\ forallb benign script' = true.
Proof.
intros Hben Hc Ho Hmax. unfold pread_in_full.
replace (SSIZE_MAX <? count) with false by (symmetry; apply Z.ltb_ge; lia).
unfold bind at 1. unfold get at 1.
pose proof (file_range_length file count offset) as Hlen.
destruct (pread_loop_ok file
            (S (S (length (pread_script s) + length file)))
            (pread_script s) count offset 0 [] Hben Hc Ho Hmax ltac:(lia))
  as (script' & Heq & Hben').
rewrite Heq. exists script'. split; [| exact Hben']. reflexivity.
Qed.

Lemma field_at_shift buf buf' n : forall off off',
(forall i, (i < n)%nat -> buf (off + i)%nat = buf' (off' + i)%nat) ->
field_at buf off n = field_at buf' off' n.
Proof.
unfold field_at.
induction n as [| n IH]; intros off off' H; [reflexivity |].
cbn [seq map le_decode].
rewrite <- (Nat.add_0_r off) at 1. rewrite (H O) by lia. rewrite Nat.add_0_r.
f_equal. f_equal. apply IH. intros i Hi.
replace (S off + i)%nat with (off + S i)%nat by lia.
replace (S off' + i)%nat with (off' + S i)%nat by lia.
apply H. lia.
Qed.

Lemma field_at_ext buf buf' off n :
(forall i, (off <= i < off + n)%nat -> buf i = buf' i) ->
field_at buf off n = field_at buf' off n.
Proof. intros H. apply field_at_shift. intros i Hi. apply H. lia. Qed.

Lemma le_decode_range l : 0 <= le_decode l < 256 ^ Z.of_nat (length l).
Proof.
induction l as [| b l IH].
- cbn. lia.
- cbn [le_decode length]. rewrite Nat2Z.inj_succ, Z.pow_succ_r by lia.
  pose proof (byte_to_Z_range b). lia.
Qed.

Lemma field_at_range buf off n : 0 <= field_at buf off n < 256 ^ Z.of_nat n.
Proof.
unfold field_at. pose proof (le_decode_range (map buf (seq off n))) as H.
now rewrite length_map, length_seq in H.
Qed.

Lemma decode_ehdr_ext buf buf' :
(forall i, (i < 64)%nat -> buf i = buf' i) ->
decode_ehdr buf = decode_ehdr buf'.
Proof.
intros H. unfold decode_ehdr.
assert (Hf : forall off n, (off + n <=? 64)%nat = true ->
               field_at buf off n = field_at buf' off n).
{ intros off n Hle. apply Nat.leb_le in Hle. apply field_at_ext.
  intros i Hi. apply H. lia. }
rewrite !Hf by reflexivity.
replace (map buf (seq 0 16)) with (map buf' (seq 0 16)); [reflexivity |].
apply map_ext_in. intros i Hi. apply in_seq in Hi. symmetry. apply H.
eapply Nat.lt_le_trans; [apply Hi | apply Nat.leb_le; reflexivity].
Qed.

Lemma decode_phdr_shift buf buf' base base' :
(forall j, (j < 56)%nat -> buf (base + j)%nat = buf' (base' + j)%nat) ->
decode_phdr buf base = decode_phdr buf' base'.
Proof.
intros H. unfold decode_phdr.
f_equal; apply field_at_shift; intros i Hi;
  rewrite <- ?Nat.add_assoc; apply H; lia.
Qed.

(** A buffer filled from the file agrees with the file. *)
Lemma overlay_file_range file count offset junk i :
0 <= count -> 0 <= offset ->
offset + count <= Z.of_nat (length file) -> (i < Z.to_nat count)%nat ->
overlay (file_range file count offset) junk i
= of_file file (Z.to_nat offset + i)%nat.
Proof.
intros Hc Ho Hle Hi. unfold overlay, of_file.
apply file_range_nth; lia.
Qed.

End ReaderFacts.

(** ** The loader, segment by segment *)

Section SegmentFacts.
Import Int Mem Machine Elf Uhyve Props.

Variable host : Host.
Variable file : list byte.

Lemma store_read_ok a bs s m :
guest_mem s = Some m -> in_guest s a (Z.of_nat (length bs)) = true ->
store_read a bs s = Ret tt (set_guest_mem (Some (store_read_mem m a bs)) s).
Proof.
intros Hm Hin. destruct bs as [| b bs].
- cbn. now rewrite set_guest_mem_same.
- cbn [store_read store_read_mem]. now apply guest_store_bytes_ok.
Qed.

Lemma store_read_mem_at m a bs x : store_read_mem m a bs x = store_bytes m a bs x.
Proof.
destruct bs; [| reflexivity]. cbn [store_read_mem].
symmetry. apply store_bytes_outside. cbn. lia.
Qed.

Lemma get_cpufreq_ok f s : cpufreq host = Some f -> get_cpufreq host s = Ret f s.
Proof. intros H. unfold get_cpufreq. now rewrite H. Qed.

Lemma init_kernel_ok paddr filesz s m f :
guest_mem s = Some m -> cpufreq host = Some f ->
0 <= paddr -> paddr + 0x98 <= guest_size s ->
init_kernel host paddr filesz s =
  Ret tt (set_guest_mem
            (Some (boot_info (guest_size s) f paddr filesz m)) s).
Proof.
intros Hm Hf Hp Hb.
assert (Hin : forall a n s1 m1,
           guest_mem s1 = Some m1 -> guest_size s1 = guest_size s ->
           paddr <= a -> 0 <= n -> a + n <= paddr + 0x98 ->
           in_guest s1 a n = true).
{ intros a n s1 m1 Hm1 Hs1 Ha Hn Hle.
  eapply in_guest_intro; [exact Hm1 | lia | lia | rewrite Hs1; lia]. }
unfold init_kernel, GUEST_OFFSET. rewrite !Z.sub_0_r.
unfold bind at 1.
rewrite (guest_store_ok _ _ _ _ _ Hm)
  by (eapply Hin; [exact Hm | reflexivity | | |]; cbn; lia).
unfold bind at 1. unfold bind at 1. unfold get at 1. unfold ret at 1.
unfold bind at 1.
erewrite guest_store_ok;
  [| reflexivity | eapply Hin; [reflexivity | reflexivity | | |]; cbn; lia].
unfold bind at 1. rewrite (get_cpufreq_ok f _ Hf).
unfold bind at 1.
erewrite guest_store_ok;
  [| reflexivity | eapply Hin; [reflexivity | reflexivity | | |]; cbn; lia].
unfold bind at 1.
erewrite guest_store_ok;
  [| reflexivity | eapply Hin; [reflexivity | reflexivity | | |]; cbn; lia].
unfold bind at 1.
erewrite guest_store_ok;
  [| reflexivity | eapply Hin; [reflexivity | reflexivity | | |]; cbn; lia].
unfold bind at 1.
erewrite guest_store_ok;
  [| reflexivity | eapply Hin; [reflexivity | reflexivity | | |]; cbn; lia].
unfold bind at 1.
erewrite guest_store_ok;
  [| reflexivity | eapply Hin; [reflexivity | reflexivity | | |]; cbn; lia].
erewrite guest_store_ok;
  [| reflexivity | eapply Hin; [reflexivity | reflexivity | | |]; cbn; lia].
reflexivity.
Qed.

Lemma segment_fits_bounds len gs ph :
segment_fits len gs ph = true ->
0 <= p_offset ph /\ 0 <= p_paddr ph /\ 0 <= p_filesz ph
/\ p_offset ph + p_filesz ph <= len /\ p_filesz ph <= p_memsz ph
/\ p_paddr ph + p_memsz ph <= gs.
Proof.
unfold segment_fits. rewrite !andb_true_iff, !Z.leb_le. tauto.
Qed.

(** The two [if (!p) p = ...;] of the loop body. *)
Lemma anchors_set (s : state) ph :
anchors
  match mboot match klog s with
              | Some _ => s
              | None => set_klog (Some (p_paddr ph + 20480)) s
              end with
  | Some _ => match klog s with
              | Some _ => s
              | None => set_klog (Some (p_paddr ph + 20480)) s
              end
  | None => set_mboot (Some (p_paddr ph))
              match klog s with
              | Some _ => s
              | None => set_klog (Some (p_paddr ph + 20480)) s
              end
  end
= anchor ph (anchors s).
Proof.
destruct s. unfold anchors, anchor. cbn.
repeat match goal with
       | |- context [match ?x with Some _ => _ | None => _ end] =>
           is_var x; destruct x; cbn
       end; reflexivity.
Qed.

Lemma anchor_frame {T} (f : state -> T) (s : state) a b :
(forall v s, f (set_klog v s) = f s) ->
(forall v s, f (set_mboot v s) = f s) ->
f match mboot match klog s with
              | Some _ => s
              | None => set_klog (Some b) s
              end with
  | Some _ => match klog s with
              | Some _ => s
              | None => set_klog (Some b) s
              end
  | None => set_mboot (Some a)
              match klog s with
              | Some _ => s
              | None => set_klog (Some b) s
              end
  end
= f s.
Proof.
intros Hk Hm.
destruct (klog s);
  match goal with
  | |- context [match ?x with Some _ => _ | None => _ end] => destruct x
  end; rewrite ?Hm, ?Hk; reflexivity.
Qed.

(** A loadable segment that fits is staged, and the loop goes on. *)
Lemma load_segment_ok first ph s m gs :
loader_state gs m s -> gs < KVM_32BIT_GAP_SIZE ->
Z.of_nat (length file) <= SSIZE_MAX ->
segment_fits (Z.of_nat (length file)) gs ph = true ->
(first = true -> p_paddr ph + 0x98 <= gs /\ cpufreq host <> None) ->
exists s',
  load_segment host file first ph s = Ret true s'
  /\ loader_state gs (segment_effect file gs (host_mhz host) first ph m) s'
  /\ anchors s' = anchor ph (anchors s)
  /\ trace s' = trace s /\ handles s' = handles s.
Proof.
intros (Hm & Hgs & Hben) Hgap Hlen Hfits Hfirst.
apply segment_fits_bounds in Hfits.
destruct Hfits as (Hoff & Hpad & Hfsz & Hfile & Hmemsz & Hguest).
assert (HGAP : KVM_32BIT_GAP_SIZE = 0x30000000) by reflexivity.
assert (HMAX : SSIZE_MAX = 2 ^ 63 - 1) by reflexivity.
unfold load_segment, GUEST_OFFSET. cbv zeta. rewrite !Z.sub_0_r.
destruct (pread_in_full_ok file (p_filesz ph) (p_offset ph) s Hben Hfsz Hoff
            ltac:(lia)) as (script' & Hread & Hben').
unfold bind at 1. rewrite Hread.
pose proof (file_range_full file (p_filesz ph) (p_offset ph) Hfsz Hoff Hfile)
  as Hfull.
unfold bind at 1.
erewrite store_read_ok; [| exact Hm |].
2:{ eapply in_guest_intro; [exact Hm | lia | lia |].
    cbn [guest_size set_pread_script]. lia. }
rewrite Hfull, to_int_small by lia.
replace (p_filesz ph <? 0) with false by (symmetry; apply Z.ltb_ge; lia).
rewrite wrap64_small by (unfold two64; lia).
unfold bind at 1.
erewrite guest_memset_ok; [| reflexivity |].
2:{ eapply in_guest_intro; [reflexivity | lia | lia |].
    cbn [guest_size set_pread_script set_guest_mem]. lia. }
match goal with
| |- exists s', ?c (set_guest_mem (Some ?M) ?S) = _ /\ _ =>
    set (m3 := M); set (s3 := set_guest_mem (Some m3) S)
end.
assert (H3 : loader_state gs m3 s3) by (repeat split; assumption).
unfold bind at 1. unfold modify at 1.
set (s4 := match klog s3 with
           | Some _ => s3
           | None => set_klog (Some (p_paddr ph + 20480)) s3
           end).
assert (H4 : loader_state gs m3 s4)
  by (unfold s4; destruct (klog s3); exact H3).
unfold bind at 1. unfold modify at 1.
set (s5 := match mboot s4 with
           | Some _ => s4
           | None => set_mboot (Some (p_paddr ph)) s4
           end).
assert (H5 : loader_state gs m3 s5)
  by (unfold s5; destruct (mboot s4); exact H4).
destruct H5 as (Hm5 & Hgs5 & Hben5).
unfold bind at 1.
destruct first.
- destruct (Hfirst eq_refl) as [Hroom Hfreq].
  destruct (cpufreq host) as [f |] eqn:Hf; [| contradiction].
  rewrite (init_kernel_ok (p_paddr ph) (p_filesz ph) s5 m3 f Hm5 Hf Hpad)
    by (rewrite Hgs5; exact Hroom).
  eexists. split; [reflexivity |]. split.
  + unfold loader_state, segment_effect, host_mhz. rewrite Hf, Hgs5.
    repeat split; assumption.
  + split.
    * change (anchors s5 = anchor ph (anchors s3)).
      unfold s5, s4. apply anchors_set.
    * split.
      -- change (trace s5 = trace s3).
         unfold s5, s4. apply (anchor_frame trace); reflexivity.
      -- change (handles s5 = handles s3).
         unfold s5, s4. apply (anchor_frame handles); reflexivity.
- eexists. split; [reflexivity |]. split.
  + unfold loader_state, segment_effect. repeat split; assumption.
  + split.
    * change (anchors s5 = anchor ph (anchors s3)).
      unfold s5, s4. apply anchors_set.
    * split.
      -- change (trace s5 = trace s3).
         unfold s5, s4. apply (anchor_frame trace); reflexivity.
      -- change (handles s5 = handles s3).
         unfold s5, s4. apply (anchor_frame handles); reflexivity.
Qed.

End SegmentFacts.

Section LoopFacts.
Import Int Mem Machine Elf Uhyve Props.

Variable host : Host.
Variable file : list byte.

(** The [for] loop over the array of program headers is the loop over the
  list of the decoded headers, as long as the array holds them all. *)
Lemma load_segments_list phdr buflen todo : forall ph_i first s,
Z.of_nat (sizeof_Phdr * (ph_i + todo)) <= buflen ->
load_segments host file phdr buflen todo ph_i first s =
  load_list host file
    (map (fun i => decode_phdr phdr (sizeof_Phdr * i)) (seq ph_i todo)) first s.
Proof.
induction todo as [| todo IH]; intros ph_i first s Hlen; [reflexivity |].
cbn [load_segments seq map load_list].
replace (Z.of_nat (sizeof_Phdr * (ph_i + 1)) <=? buflen) with true
  by (symmetry; apply Z.leb_le; unfold sizeof_Phdr in *; lia).
destruct (negb (p_type (decode_phdr phdr (sizeof_Phdr * ph_i)) =? PT_LOAD)).
- apply IH. unfold sizeof_Phdr in *. lia.
- unfold bind.
  destruct (load_segment host file first
              (decode_phdr phdr (sizeof_Phdr * ph_i)) s) as [go s' | | | |];
    try reflexivity.
  destruct go; [| reflexivity].
  apply IH. unfold sizeof_Phdr in *. lia.
Qed.

(** Every segment of a list of headers that passes [segments_ok] is
  staged. *)
Lemma load_list_ok gs :
gs < KVM_32BIT_GAP_SIZE ->
Z.of_nat (length file) <= SSIZE_MAX ->
forall phs first s m,
  loader_state gs m s ->
  segments_ok (Z.of_nat (length file)) gs phs = true ->
  (first = true ->
   match first_load phs with
   | Some ph => p_paddr ph + 0x98 <= gs /\ cpufreq host <> None
   | None => True
   end) ->
  exists s',
    load_list host file phs first s = Ret tt s'
    /\ loader_state gs (staged file gs (host_mhz host) phs first m) s'
    /\ anchors s' = anchored phs (anchors s)
    /\ trace s' = trace s /\ handles s' = handles s.
Proof.
intros Hgap Hlen.
induction phs as [| ph rest IH]; intros first s m Hst Hok Hfirst.
- exists s. split; [reflexivity |]. split; [exact Hst |]. repeat split.
- cbn [segments_ok] in Hok. apply andb_true_iff in Hok.
  destruct Hok as [Hph Hrest].
  cbn [load_list staged]. unfold first_load in Hfirst. cbn [find] in Hfirst.
  fold (is_load ph). destruct (is_load ph) eqn:Hload; cbn [negb].
  + cbn [negb orb] in Hph. apply andb_true_iff in Hph. destruct Hph as [Hfits _].
    destruct (load_segment_ok host file first ph s m gs Hst Hgap Hlen Hfits Hfirst)
      as (s1 & Hrun & Hst1 & Ha1 & Ht1 & Hh1).
    unfold bind. rewrite Hrun. cbn [anchored].
    rewrite Hload, <- Ha1, <- Ht1, <- Hh1.
    apply IH; [exact Hst1 | exact Hrest | discriminate].
+ cbn [anchored]. rewrite Hload.
    apply IH; [exact Hst | exact Hrest | exact Hfirst].
Qed.

End LoopFacts.

Section KernelFacts.
Import Int Mem Machine Elf Uhyve Props.

Variable host : Host.
Variable abi : byte.
Variable file : list byte.

Lemma loader_state_same gs m s s' :
loader_state gs m s ->
guest_mem s' = guest_mem s -> guest_size s' = guest_size s ->
pread_script s' = pread_script s ->
loader_state gs m s'.
Proof.
intros (Hm & Hg & Hb) Em Eg Eb. unfold loader_state.
rewrite Em, Eg, Eb. auto.
Qed.

(** The headers the loader decodes from its buffers are those of the
  file. *)
Lemma header_of_buffer :
64 <= Z.of_nat (length file) ->
decode_ehdr (overlay (file_range file 64 0) (uninit host)) = image_ehdr file.
Proof.
intros Hlen. apply decode_ehdr_ext. intros i Hi.
rewrite overlay_file_range by lia. reflexivity.
Qed.

Lemma phdrs_of_buffer phoff phnum :
0 <= phoff -> 0 <= phnum ->
phoff + Z.of_nat sizeof_Phdr * phnum <= Z.of_nat (length file) ->
map (fun i => decode_phdr
                (overlay (file_range file (Z.of_nat sizeof_Phdr * phnum) phoff)
                         (uninit host))
                (sizeof_Phdr * i))
    (seq 0 (Z.to_nat phnum))
= map (fun i => decode_phdr (of_file file) (Z.to_nat phoff + sizeof_Phdr * i))
      (seq 0 (Z.to_nat phnum)).
Proof.
intros Ho Hn Hle. apply map_ext_in. intros i Hi. apply in_seq in Hi.
apply decode_phdr_shift. intros j Hj.
unfold sizeof_Phdr in *.
rewrite overlay_file_range by lia.
f_equal. lia.
Qed.

Lemma load_kernel_body_ok s m gs :
loader_state gs m s -> gs < KVM_32BIT_GAP_SIZE ->
loadable host abi file gs = true ->
exists s',
  load_kernel_body host abi file s = Ret true s'
  /\ loader_state gs
       (staged file gs (host_mhz host) (image_phdrs file) true m) s'
  /\ anchors s' =
     anchored (image_phdrs file) (mboot s, klog s, e_entry (image_ehdr file))
  /\ trace s' = trace s /\ handles s' = handles s.
Proof.
intros Hst Hgap Hok.
unfold loadable in Hok. cbv zeta in Hok. rewrite !andb_true_iff in Hok.
destruct Hok as (((((((H64 & Hmax) & Hmagic) & Hent) & Hmalloc) & Hphoff) & Hsegs) & Hfirst).
apply Z.leb_le in H64, Hmax, Hphoff. apply Z.eqb_eq in Hent.
apply negb_true_iff in Hmagic.
assert (HMAX : SSIZE_MAX = 2 ^ 63 - 1) by reflexivity.
assert (Hnum : 0 <= e_phnum (image_ehdr file) < 2 ^ 16)
  by (apply (field_at_range (of_file file) 56 2)).
assert (Hoff : 0 <= e_phoff (image_ehdr file))
  by (apply (field_at_range (of_file file) 32 8)).
unfold load_kernel_body.
destruct Hst as (Hm & Hgs & Hben).
destruct (pread_in_full_ok file (Z.of_nat sizeof_Ehdr) 0 s Hben
            ltac:(unfold sizeof_Ehdr; lia) ltac:(lia)
            ltac:(unfold sizeof_Ehdr; lia)) as (script1 & Hread1 & Hben1).
change (Z.of_nat sizeof_Ehdr) with 64 in *.
unfold bind at 1. rewrite Hread1.
rewrite (file_range_full file 64 0) by lia.
rewrite to_int_small by lia.
replace (64 <? 0) with false by reflexivity.
rewrite (header_of_buffer H64), Hmagic.
unfold bind at 1. unfold modify at 1.
rewrite Hent.
replace (INT_MAX <? Z.of_nat sizeof_Phdr * e_phnum (image_ehdr file)) with false
  by (symmetry; apply Z.ltb_ge; unfold INT_MAX, sizeof_Phdr; lia).
rewrite Hent in Hmalloc. rewrite Hmalloc. cbn [negb].
set (s1 := set_elf_entry (e_entry (image_ehdr file)) (set_pread_script script1 s)).
destruct (pread_in_full_ok file
            (Z.of_nat sizeof_Phdr * e_phnum (image_ehdr file))
            (e_phoff (image_ehdr file)) s1 Hben1
            ltac:(unfold sizeof_Phdr; lia) Hoff ltac:(lia))
  as (script2 & Hread2 & Hben2).
unfold bind at 1. rewrite Hread2.
rewrite (file_range_full file) by (unfold sizeof_Phdr in *; lia).
rewrite to_int_small by (unfold sizeof_Phdr; lia).
replace (Z.of_nat sizeof_Phdr * e_phnum (image_ehdr file) <? 0) with false
  by (symmetry; apply Z.ltb_ge; unfold sizeof_Phdr; lia).
unfold bind at 1.
rewrite load_segments_list by (unfold sizeof_Phdr in *; lia).
rewrite (phdrs_of_buffer _ _ Hoff (proj1 Hnum) Hphoff).
fold (image_phdrs file).
destruct (load_list_ok host file gs Hgap Hmax (image_phdrs file) true
            (set_pread_script script2 s1) m)
  as (s' & Hrun & Hst' & Ha' & Ht' & Hh').
- repeat split; assumption.
- exact Hsegs.
- intros _. destruct (first_load (image_phdrs file)) as [ph |]; [| exact I].
  apply andb_true_iff in Hfirst. destruct Hfirst as [Hroom Hfreq].
  apply Z.leb_le in Hroom. split; [exact Hroom |].
  destruct (cpufreq host); [discriminate | discriminate Hfreq].
- rewrite Hrun. exists s'. split; [reflexivity |]. split; [exact Hst' |].
  split; [exact Ha' |]. split; [exact Ht' | exact Hh'].
Qed.

(** [load_kernel] on a loadable image: it returns 0 with every segment
  staged. *)
Lemma load_kernel_ok path fd s m gs :
open_file host path = Some (fd, file) ->
loader_state gs m s -> gs < KVM_32BIT_GAP_SIZE ->
loadable host abi file gs = true ->
exists s',
  load_kernel host abi path s = Ret 0 s'
  /\ loader_state gs
       (staged file gs (host_mhz host) (image_phdrs file) true m) s'
  /\ anchors s' =
     anchored (image_phdrs file) (mboot s, klog s, e_entry (image_ehdr file))
  /\ trace s' = trace s ++ [EvOpen path; EvFree; EvClose fd]
  /\ handles s' = handles s.
Proof.
intros Hopen Hst Hgap Hok.
unfold load_kernel. unfold bind at 1. unfold emit at 1, modify at 1.
rewrite Hopen.
destruct (load_kernel_body_ok (set_trace (trace s ++ [EvOpen path]) s) m gs)
  as (s1 & Hrun & Hst1 & Ha1 & Ht1 & Hh1); [| exact Hgap | exact Hok |].
{ eapply loader_state_same; [exact Hst | reflexivity ..]. }
unfold bind at 1. rewrite Hrun.
eexists. split; [reflexivity |]. split; [| split; [exact Ha1 | split; [| exact Hh1]]].
- eapply loader_state_same; [exact Hst1 | reflexivity ..].
- cbn [trace set_trace]. rewrite Ht1. cbn [trace set_trace].
  rewrite <- !app_assoc. reflexivity.
Qed.

End KernelFacts.

(** ** Guest memory after the loader *)

Section StagedFacts.
Import Int Mem Machine Elf Uhyve Props.

Variable file : list byte.
Variables gs freq : Z.

Ltac sizes := change (Z.of_nat 8) with 8 in *; change (Z.of_nat 4) with 4 in *.

Lemma stage_outside ph m x :
0 <= p_filesz ph <= p_memsz ph ->
x < p_paddr ph \/ p_paddr ph + p_memsz ph <= x ->
stage file ph m x = m x.
Proof.
intros Hsz Hx. unfold stage.
rewrite memset_outside by lia.
rewrite store_read_mem_at. apply store_bytes_outside.
pose proof (length_firstn (Z.to_nat (p_filesz ph))
              (skipn (Z.to_nat (p_offset ph)) file)) as Hlen.
unfold file_range. lia.
Qed.

Lemma stage_inside ph m k :
segment_fits (Z.of_nat (length file)) gs ph = true ->
0 <= k < p_memsz ph ->
stage file ph m (p_paddr ph + k) =
  if k <? p_filesz ph then nth (Z.to_nat (p_offset ph + k)) file x00 else x00.
Proof.
intros Hfits Hk. apply segment_fits_bounds in Hfits.
destruct Hfits as (Hoff & Hpad & Hfsz & Hfile & Hmemsz & Hguest).
unfold stage.
destruct (k <? p_filesz ph) eqn:E.
- apply Z.ltb_lt in E. rewrite memset_outside by lia.
  rewrite store_read_mem_at.
  pose proof (file_range_full file (p_filesz ph) (p_offset ph) Hfsz Hoff Hfile)
    as Hfull.
  rewrite store_bytes_inside by lia.
  replace (p_paddr ph + k - p_paddr ph) with k by lia.
  rewrite file_range_nth by lia. f_equal. lia.
- apply Z.ltb_ge in E. apply memset_inside. lia.
Qed.

Lemma boot_info_offset_false k :
boot_info_offset k = false ->
k < 0x08 \/ 0x1c <= k < 0x24 \/ 0x28 <= k < 0x30 \/ 0x34 <= k < 0x38
\/ 0x40 <= k < 0x60 \/ 0x64 <= k < 0x94 \/ 0x98 <= k.
Proof.
unfold boot_info_offset.
rewrite !orb_false_iff, !andb_false_iff, !Z.leb_gt, !Z.ltb_ge. lia.
Qed.

Lemma boot_info_outside a filesz m k :
boot_info_offset k = false ->
boot_info gs freq a filesz m (a + k) = m (a + k).
Proof.
intros Hk. apply boot_info_offset_false in Hk. unfold boot_info.
rewrite !store_le_outside by (sizes; lia). reflexivity.
Qed.

Lemma boot_info_far a filesz m x :
x < a \/ a + 0x98 <= x -> boot_info gs freq a filesz m x = m x.
Proof.
intros Hx. unfold boot_info.
rewrite !store_le_outside by (sizes; lia). reflexivity.
Qed.

(** The eight fields, read back. *)
Lemma boot_info_fields a filesz m :
load_le 8 (boot_info gs freq a filesz m) (a + 0x08) = a mod 2 ^ 64
/\ load_le 8 (boot_info gs freq a filesz m) (a + 0x10) = gs mod 2 ^ 64
/\ load_le 4 (boot_info gs freq a filesz m) (a + 0x18) = freq mod 2 ^ 32
/\ load_le 4 (boot_info gs freq a filesz m) (a + 0x24) = 1
/\ load_le 4 (boot_info gs freq a filesz m) (a + 0x30) = 0
/\ load_le 8 (boot_info gs freq a filesz m) (a + 0x38) = filesz mod 2 ^ 64
/\ load_le 4 (boot_info gs freq a filesz m) (a + 0x60) = 1
/\ load_le 4 (boot_info gs freq a filesz m) (a + 0x94) = 1.
Proof.
unfold boot_info.
repeat split;
  repeat (rewrite load_store_other by (sizes; lia));
  rewrite load_store_same; reflexivity.
Qed.

Lemma staged_app l1 : forall l2 first m,
staged file gs freq (l1 ++ l2) first m =
  staged file gs freq l2
    (first && forallb (fun q => negb (is_load q)) l1)
    (staged file gs freq l1 first m).
Proof.
induction l1 as [| ph l1 IH]; intros l2 first m.
- cbn. now rewrite andb_true_r.
- cbn [app staged forallb]. destruct (is_load ph); cbn [negb andb].
  + rewrite IH. cbn [andb]. rewrite andb_false_r. reflexivity.
  + rewrite IH. reflexivity.
Qed.

Lemma segments_ok_app len l1 : forall l2,
segments_ok len gs (l1 ++ l2) = true -> segments_ok len gs l2 = true.
Proof.
induction l1 as [| ph l1 IH]; intros l2 H; [exact H |].
cbn [app segments_ok] in H. apply andb_true_iff in H. now apply IH.
Qed.

Lemma segments_ok_fits len phs q :
segments_ok len gs phs = true -> In q phs -> is_load q = true ->
segment_fits len gs q = true.
Proof.
induction phs as [| ph rest IH]; intros H Hin Hload; [contradiction |].
cbn [segments_ok] in H. apply andb_true_iff in H. destruct H as [Hph Hrest].
destruct Hin as [-> | Hin]; [| now apply IH].
rewrite Hload in Hph. cbn in Hph. apply andb_true_iff in Hph. tauto.
Qed.

(** Segments staged later leave alone what lies outside them. *)
Lemma staged_untouched len phs : forall m x,
segments_ok len gs phs = true ->
(forall q, In q phs -> is_load q = true ->
   x < p_paddr q \/ p_paddr q + p_memsz q <= x) ->
staged file gs freq phs false m x = m x.
Proof.
induction phs as [| ph rest IH]; intros m x Hok Hx; [reflexivity |].
cbn [staged]. pose proof Hok as Hok'.
cbn [segments_ok] in Hok. apply andb_true_iff in Hok. destruct Hok as [_ Hrest].
destruct (is_load ph) eqn:Hload.
- rewrite IH; [| exact Hrest | intros q Hq; apply Hx; now right].
  unfold segment_effect.
  pose proof (segments_ok_fits len (ph :: rest) ph Hok' (or_introl eq_refl) Hload)
    as Hfits.
  apply segment_fits_bounds in Hfits.
  apply stage_outside; [lia |]. apply Hx; [now left | exact Hload].
- apply IH; [exact Hrest | intros q Hq; apply Hx; now right].
Qed.

End StagedFacts.

Section StagedSegments.
Import Int Mem Machine Elf Uhyve Props.

Variable file : list byte.
Variables gs freq : Z.

Lemma nth_error_split_at {A} (l : list A) i x :
nth_error l i = Some x ->
exists pre post, l = pre ++ x :: post /\ firstn i l = pre.
Proof.
revert l. induction i as [| i IH]; intros [| y l] H; try discriminate.
- inversion H; subst. now exists [], l.
- cbn in H. destruct (IH l H) as (pre & post & -> & Hpre).
  exists (y :: pre), post. split; [reflexivity |]. cbn. now rewrite Hpre.
Qed.

Lemma segments_ok_head len ph post :
segments_ok len gs (ph :: post) = true -> is_load ph = true ->
segment_fits len gs ph = true
/\ (forall q, In q post -> is_load q = true -> apart ph q = true)
/\ segments_ok len gs post = true.
Proof.
intros H Hload. cbn [segments_ok] in H. rewrite Hload in H. cbn in H.
rewrite !andb_true_iff in H. destruct H as [[Hfits Hall] Hrest].
split; [exact Hfits |]. split; [| exact Hrest].
intros q Hq Hlq. rewrite forallb_forall in Hall. specialize (Hall q Hq).
rewrite Hlq in Hall. exact Hall.
Qed.

(** Guest memory over a loadable segment once all headers are processed:
  the bytes of the file, then zeros, except under the boot-info fields
  when the segment is the first loadable one. *)
Lemma staged_segment phs i ph m k :
segments_ok (Z.of_nat (length file)) gs phs = true ->
nth_error phs i = Some ph -> is_load ph = true ->
0 <= k < p_memsz ph ->
(is_first phs i = true -> boot_info_offset k = false) ->
staged file gs freq phs true m (p_paddr ph + k) =
  if k <? p_filesz ph then nth (Z.to_nat (p_offset ph + k)) file x00 else x00.
Proof.
intros Hok Hnth Hload Hk Hboot.
destruct (nth_error_split_at phs i ph Hnth) as (pre & post & -> & Hpre).
unfold is_first in Hboot. rewrite Hpre in Hboot.
apply segments_ok_app in Hok.
destruct (segments_ok_head _ ph post Hok Hload) as (Hfits & Hapart & Hpost).
rewrite staged_app. cbn [staged andb]. rewrite Hload.
rewrite (staged_untouched file gs freq (Z.of_nat (length file)) post);
  [| exact Hpost |].
2:{ intros q Hq Hlq. specialize (Hapart q Hq Hlq). unfold apart in Hapart.
    apply orb_true_iff in Hapart. rewrite !Z.leb_le in Hapart.
    pose proof (segments_ok_fits gs _ post q Hpost Hq Hlq) as Hfq.
    apply segment_fits_bounds in Hfq. lia. }
unfold segment_effect.
destruct (forallb (fun q => negb (is_load q)) pre).
- rewrite boot_info_outside by (now apply Hboot).
  now apply (stage_inside file gs).
- now apply (stage_inside file gs).
Qed.

Lemma first_load_split phs ph :
first_load phs = Some ph ->
exists pre post,
  phs = pre ++ ph :: post
  /\ forallb (fun q => negb (is_load q)) pre = true /\ is_load ph = true.
Proof.
unfold first_load. induction phs as [| q rest IH]; [discriminate |].
cbn [find]. destruct (is_load q) eqn:Hq.
- intros H. inversion H; subst. now exists [], rest.
- intros H. destruct (IH H) as (pre & post & -> & Hpre & Hload).
  exists (q :: pre), post. split; [reflexivity |].
  split; [cbn; now rewrite Hq | exact Hload].
Qed.

(** Over the first loadable segment, when it has room for them, the final
  memory holds the boot-info fields on top of the staged segment. *)
Lemma staged_first phs ph m :
segments_ok (Z.of_nat (length file)) gs phs = true ->
first_load phs = Some ph -> 0x98 <= p_memsz ph ->
exists m0,
  forall x, p_paddr ph <= x < p_paddr ph + 0x98 ->
    staged file gs freq phs true m x =
      boot_info gs freq (p_paddr ph) (p_filesz ph) (stage file ph m0) x.
Proof.
intros Hok Hfirst Hroom.
destruct (first_load_split phs ph Hfirst) as (pre & post & -> & Hpre & Hload).
apply segments_ok_app in Hok.
destruct (segments_ok_head _ ph post Hok Hload) as (Hfits & Hapart & Hpost).
exists (staged file gs freq pre true m). intros x Hx.
rewrite staged_app. cbn [staged andb]. rewrite Hload, Hpre.
rewrite (staged_untouched file gs freq (Z.of_nat (length file)) post);
  [reflexivity | exact Hpost |].
intros q Hq Hlq. specialize (Hapart q Hq Hlq). unfold apart in Hapart.
apply orb_true_iff in Hapart. rewrite !Z.leb_le in Hapart.
pose proof (segments_ok_fits gs _ post q Hpost Hq Hlq) as Hfq.
apply segment_fits_bounds in Hfq. lia.
Qed.

End StagedSegments.

Section CpufreqFacts.
Import Int Mem Machine Elf Uhyve Props.

Lemma cpuinfo_loop_range fuel : forall line stream f,
cpuinfo_loop fuel line stream = Some f -> 0 <= f < 2 ^ 32.
Proof.
induction fuel as [| fuel IH]; intros line stream f H; cbn [cpuinfo_loop] in H.
- inversion H. lia.
- destruct (Libc.fgets line 2048 stream) as [[line' stream'] |];
    [| inversion H; lia].
  destruct (Libc.strstr line' (chars "cpu MHz")) as [m0 |];
    [| now apply IH in H].
  destruct (Libc.scan Libc.is_digit line' m0) as [m1 |]; [| discriminate H].
  destruct (Libc.scan _ line' m1) as [point |]; [| discriminate H].
  inversion H. apply wrap32_range.
Qed.

(** What [get_cpufreq] returns is a [uint32_t]. *)
Lemma cpufreq_range host f : cpufreq host = Some f -> 0 <= f < 2 ^ 32.
Proof.
unfold cpufreq. intros H.
destruct (cpuinfo_max_freq host) as [content |].
- destruct (Libc.fgets _ 2048 _) as [[line rest] |]; inversion H;
    [apply wrap32_range | lia].
- destruct (proc_cpuinfo host) as [content |]; [| inversion H; lia].
  now apply cpuinfo_loop_range in H.
Qed.

End CpufreqFacts.

(** X1.  [load_kernel] on an image it can stage in full (see
    [Props.loadable]), with the guest mapped and no [pread] failing for good
    (short transfers and [EINTR] are allowed): it returns 0, and for every
    [PT_LOAD] program header of the file the guest bytes at
    [p_paddr .. p_paddr + p_filesz) are the file bytes at
    [p_offset .. p_offset + p_filesz) and those up to [p_paddr + p_memsz)
    are zero -- except, in the first loadable segment, the bytes under the
    boot-info fields, which the loader overwrites after staging. *)
Theorem load_kernel_stages_segments (host : Machine.Host) (abi : byte)
    (path : string) (fd : Z) (file : list byte) (s : Machine.state)
    (m : Mem.mem) (i : nat) (ph : Elf.Elf64_Phdr)
    (Hopen : Machine.open_file host path = Some (fd, file))
    (Hmem : Machine.guest_mem s = Some m)
    (Hsize : Machine.guest_size s < Uhyve.KVM_32BIT_GAP_SIZE)
    (Hscript : forallb Props.benign (Machine.pread_script s) = true)
    (Hok : Props.loadable host abi file (Machine.guest_size s) = true)
    (Hi : nth_error (Props.image_phdrs file) i = Some ph)
    (Hload : Elf.p_type ph = Elf.PT_LOAD) :
  exists s' m',
    Uhyve.load_kernel host abi path s = Machine.Ret 0 s'
    /\ Machine.guest_mem s' = Some m'
    /\ forall k, 0 <= k < Elf.p_memsz ph ->
         (Props.is_first (Props.image_phdrs file) i = true ->
          Props.boot_info_offset k = false) ->
         m' (Elf.p_paddr ph + k) =
           if k <? Elf.p_filesz ph
           then nth (Z.to_nat (Elf.p_offset ph + k)) file x00
           else x00.
Proof.
  destruct (load_kernel_ok host abi file path fd s m (Machine.guest_size s)
              Hopen ltac:(repeat split; assumption) Hsize Hok)
    as (s' & Hrun & (Hm' & _) & _).
  exists s'. eexists. split; [exact Hrun |]. split; [exact Hm' |].
  intros k Hk Hboot.
  unfold Props.loadable in Hok. cbv zeta in Hok. rewrite !andb_true_iff in Hok.
  destruct Hok as ((_ & Hsegs) & _).
  apply staged_segment with (i := i); try assumption.
  unfold Props.is_load. rewrite Hload. reflexivity.
Qed.

(** X2.  On the same assumptions, when the first loadable segment has room
    for them ([p_memsz >= 0x98]), [load_kernel] leaves the boot-info fields
    in it: at [p_paddr + 0x08] the segment's address, at [+ 0x10]
    [guest_size], at [+ 0x18] what [get_cpufreq] returned, at [+ 0x24] the
    value 1, at [+ 0x30] the value 0, at [+ 0x38] the segment's file size, at
    [+ 0x60] and [+ 0x94] the value 1; no later segment disturbs them. *)
Theorem load_kernel_boot_info (host : Machine.Host) (abi : byte)
    (path : string) (fd : Z) (file : list byte) (s : Machine.state)
    (m : Mem.mem) (ph : Elf.Elf64_Phdr) (f : Z)
    (Hopen : Machine.open_file host path = Some (fd, file))
    (Hmem : Machine.guest_mem s = Some m)
    (Hsize : Machine.guest_size s < Uhyve.KVM_32BIT_GAP_SIZE)
    (Hscript : forallb Props.benign (Machine.pread_script s) = true)
    (Hok : Props.loadable host abi file (Machine.guest_size s) = true)
    (Hfirst : Props.first_load (Props.image_phdrs file) = Some ph)
    (Hroom : 0x98 <= Elf.p_memsz ph)
    (Hfreq : Uhyve.cpufreq host = Some f) :
  exists s' m',
    Uhyve.load_kernel host abi path s = Machine.Ret 0 s'
    /\ Machine.guest_mem s' = Some m'
    /\ Mem.load_le 8 m' (Elf.p_paddr ph + 0x08) = Elf.p_paddr ph
    /\ Mem.load_le 8 m' (Elf.p_paddr ph + 0x10) = Machine.guest_size s
    /\ Mem.load_le 4 m' (Elf.p_paddr ph + 0x18) = f
    /\ Mem.load_le 4 m' (Elf.p_paddr ph + 0x24) = 1
    /\ Mem.load_le 4 m' (Elf.p_paddr ph + 0x30) = 0
    /\ Mem.load_le 8 m' (Elf.p_paddr ph + 0x38) = Elf.p_filesz ph
    /\ Mem.load_le 4 m' (Elf.p_paddr ph + 0x60) = 1
    /\ Mem.load_le 4 m' (Elf.p_paddr ph + 0x94) = 1.
Proof.
  destruct (load_kernel_ok host abi file path fd s m (Machine.guest_size s)
              Hopen ltac:(repeat split; assumption) Hsize Hok)
    as (s' & Hrun & (Hm' & _) & _).
  exists s'. eexists. split; [exact Hrun |]. split; [exact Hm' |].
  unfold Props.loadable in Hok. cbv zeta in Hok. rewrite !andb_true_iff in Hok.
  destruct Hok as ((_ & Hsegs) & _).
  destruct (staged_first file (Machine.guest_size s) (Props.host_mhz host)
              (Props.image_phdrs file) ph m Hsegs Hfirst Hroom) as (m0 & Hagree).
  destruct (first_load_split _ _ Hfirst) as (pre & post & Hsplit & _ & Hisload).
  assert (Hin : In ph (Props.image_phdrs file))
    by (rewrite Hsplit; apply in_or_app; right; now left).
  pose proof (segments_ok_fits _ _ _ ph Hsegs Hin Hisload) as Hfits.
  apply segment_fits_bounds in Hfits.
  destruct Hfits as (_ & Hpad & Hfsz & _ & Hmemsz & Hguest).
  assert (HGAP : Uhyve.KVM_32BIT_GAP_SIZE = 0x30000000) by reflexivity.
  pose proof (cpufreq_range host f Hfreq) as Hf.
  assert (Hmhz : Props.host_mhz host = f) by (unfold Props.host_mhz; now rewrite Hfreq).
  rewrite Hmhz in Hagree.
  pose proof (boot_info_fields (Machine.guest_size s) f (Elf.p_paddr ph)
                (Elf.p_filesz ph) (Props.stage file ph m0))
    as (F1 & F2 & F3 & F4 & F5 & F6 & F7 & F8).
  rewrite Z.mod_small in F1 by lia. rewrite Z.mod_small in F2 by lia.
  rewrite Z.mod_small in F3 by lia. rewrite Z.mod_small in F6 by lia.
  rewrite Hmhz.
  repeat split;
    (erewrite load_le_ext;
     [eassumption
     | intros x Hx; change (Z.of_nat 8) with 8 in Hx;
       change (Z.of_nat 4) with 4 in Hx; apply Hagree; lia]).
Qed.

Lemma load_kernel_stages_segments_witness :
  exists s' m',
    Uhyve.load_kernel (Demo.host Demo.no_env Demo.image) Demo.osabi "kernel"
      (Demo.running Mem.zero_mem) = Machine.Ret 0 s'
    /\ Machine.guest_mem s' = Some m'
    /\ m' (0x900000 + 3) = x14 /\ m' (0x900000 + 4) = x00.
Proof.
  destruct (load_kernel_stages_segments
              (Demo.host Demo.no_env Demo.image) Demo.osabi "kernel" 6 Demo.image
              (Demo.running Mem.zero_mem) Mem.zero_mem 1 Demo.data_phdr
              eq_refl eq_refl eq_refl eq_refl
              ltac:(vm_compute; reflexivity) ltac:(vm_compute; reflexivity) eq_refl)
    as (s' & m' & Hrun & Hmem & Hbytes).
  exists s', m'. split; [exact Hrun |]. split; [exact Hmem |].
  split.
  - apply (Hbytes 3); [vm_compute; split; [intros H; discriminate H | reflexivity] |].
    intros H; vm_compute in H; discriminate H.
  - apply (Hbytes 4); [vm_compute; split; [intros H; discriminate H | reflexivity] |].
    intros H; vm_compute in H; discriminate H.
Defined.

Lemma load_kernel_boot_info_witness :
  exists s' m',
    Uhyve.load_kernel (Demo.host Demo.no_env Demo.image) Demo.osabi "kernel"
      (Demo.running Mem.zero_mem) = Machine.Ret 0 s'
    /\ Machine.guest_mem s' = Some m'
    /\ Mem.load_le 8 m' (0x800000 + 0x08) = 0x800000
    /\ Mem.load_le 8 m' (0x800000 + 0x10) = 0x20000000
    /\ Mem.load_le 4 m' (0x800000 + 0x18) = 3400
    /\ Mem.load_le 8 m' (0x800000 + 0x38) = 200.
Proof.
  destruct (load_kernel_boot_info
              (Demo.host Demo.no_env Demo.image) Demo.osabi "kernel" 6 Demo.image
              (Demo.running Mem.zero_mem) Mem.zero_mem Demo.text_phdr 3400
              eq_refl eq_refl eq_refl eq_refl
              ltac:(vm_compute; reflexivity) ltac:(vm_compute; reflexivity)
              ltac:(vm_compute; intros H; discriminate H)
              ltac:(vm_compute; reflexivity))
    as (s' & m' & Hrun & Hmem & F1 & F2 & F3 & _ & _ & F6 & _).
  exists s', m'. repeat split; assumption.
Defined.

(** X3.  [pread_in_full] hides short transfers and interruptions: as long
    as no [pread] fails with an error other than [EINTR], it returns with
    the bytes of the file from [offset] on, [count] of them or as many as
    the file holds, stored in order at the start of the buffer, and its
    return value is their number -- [count] itself when the file holds the
    whole range. *)
Theorem pread_in_full_retries (file : list byte) (count offset : Z)
    (s : Machine.state)
    (Hscript : forallb Props.benign (Machine.pread_script s) = true)
    (Hcount : 0 <= count) (Hoffset : 0 <= offset)
    (Hmax : offset + count <= Int.SSIZE_MAX) :
  let data := firstn (Z.to_nat count) (skipn (Z.to_nat offset) file) in
  exists script',
    Uhyve.pread_in_full file count offset s =
      Machine.Ret (Z.of_nat (length data), data)
                  (Machine.set_pread_script script' s)
    /\ Z.of_nat (length data) <= count
    /\ (offset + count <= Z.of_nat (length file) ->
        Z.of_nat (length data) = count).
Proof.
  cbv zeta.
  destruct (pread_in_full_ok file count offset s Hscript Hcount Hoffset Hmax)
    as (script' & Hrun & _).
  exists script'. split; [exact Hrun |]. split.
  - rewrite length_firstn. lia.
  - intros Hfile. now apply (file_range_full file count offset).
Qed.

Lemma pread_in_full_retries_witness :
  exists script',
    Uhyve.pread_in_full [x0a; x0b; x0c; x0d; x0e] 3 1
      (Machine.set_pread_script
         [Machine.PreadError Machine.EINTR; Machine.PreadShort 2]
         Demo.start)
    = Machine.Ret (3, [x0b; x0c; x0d])
        (Machine.set_pread_script script'
           (Machine.set_pread_script
              [Machine.PreadError Machine.EINTR; Machine.PreadShort 2]
              Demo.start)).
Proof.
  destruct (pread_in_full_retries [x0a; x0b; x0c; x0d; x0e] 3 1
              (Machine.set_pread_script
                 [Machine.PreadError Machine.EINTR; Machine.PreadShort 2]
                 Demo.start)
              eq_refl ltac:(lia) ltac:(lia)
              ltac:(vm_compute; intros H; discriminate H))
    as (script' & Hrun & _).
  exists script'. exact Hrun.
Defined.

Section PreadErrors.
Import Int Mem Machine Elf Uhyve Props.

Lemma pread_loop_fails file n : forall fuel e rest count offset total written,
(n < fuel)%nat -> e <> EINTR -> 0 < count -> 0 <= offset <= SSIZE_MAX ->
pread_loop fuel file (repeat (PreadError EINTR) n ++ PreadError e :: rest)
           count offset total written
= (-1, written, rest).
Proof.
induction n as [| n IH];
  intros fuel e rest count offset total written Hfuel He Hc Ho;
  (destruct fuel as [| fuel]; [lia |]); cbn [pread_loop repeat app];
  pose proof Hc as Hc'; apply Z.ltb_lt in Hc'; rewrite Hc';
  unfold sys_pread; cbn [hd_error tl];
  rewrite to_long_small by (unfold SSIZE_MAX in Ho; lia);
  (replace (offset <? 0) with false by (symmetry; apply Z.ltb_ge; lia)).
- cbn. replace (e =? EINTR) with false by (symmetry; now apply Z.eqb_neq).
  reflexivity.
- cbn. apply IH; [lia | exact He | exact Hc | exact Ho].
Qed.

End PreadErrors.

(** X4.  [pread_in_full] gives up on the first error that is not [EINTR]:
    after any number of interrupted calls, such an error makes it return -1
    with nothing stored, whatever the file holds.  A [count] above
    [SSIZE_MAX] is refused with -1 before any [pread]. *)
Theorem pread_in_full_fails (file : list byte) (count offset : Z)
    (s : Machine.state) (n : nat) (errno : Z) (rest : list Machine.pread_event)
    (Hscript : Machine.pread_script s =
               repeat (Machine.PreadError Machine.EINTR) n
               ++ Machine.PreadError errno :: rest)
    (Herrno : errno <> Machine.EINTR)
    (Hoffset : 0 <= offset <= Int.SSIZE_MAX) :
  (0 < count <= Int.SSIZE_MAX ->
   Uhyve.pread_in_full file count offset s =
     Machine.Ret (-1, []) (Machine.set_pread_script rest s))
  /\ (Int.SSIZE_MAX < count ->
      Uhyve.pread_in_full file count offset s = Machine.Ret (-1, []) s).
Proof.
  split.
  - intros [Hpos Hmax]. unfold Uhyve.pread_in_full.
    replace (Int.SSIZE_MAX <? count) with false by (symmetry; apply Z.ltb_ge; lia).
    unfold Machine.bind at 1. unfold Machine.get at 1.
    rewrite Hscript.
    rewrite pread_loop_fails;
      [reflexivity | | exact Herrno | exact Hpos | exact Hoffset].
    rewrite length_app, repeat_length. cbn [length]. lia.
  - intros Hbig. unfold Uhyve.pread_in_full.
    apply Z.ltb_lt in Hbig. rewrite Hbig. reflexivity.
Qed.

Lemma pread_in_full_fails_witness :
  Uhyve.pread_in_full [x0a; x0b; x0c] 3 0
    (Machine.set_pread_script
       [Machine.PreadError Machine.EINTR; Machine.PreadError 5] Demo.start)
  = Machine.Ret (-1, [])
      (Machine.set_pread_script []
         (Machine.set_pread_script
            [Machine.PreadError Machine.EINTR; Machine.PreadError 5] Demo.start)).
Proof.
  apply (proj1 (pread_in_full_fails [x0a; x0b; x0c] 3 0
                  (Machine.set_pread_script
                     [Machine.PreadError Machine.EINTR; Machine.PreadError 5]
                     Demo.start)
                  1 5 [] eq_refl ltac:(intros H; discriminate H)
                  ltac:(vm_compute; split; intros H; discriminate H))).
  vm_compute. split; [reflexivity | intros H; discriminate H].
Defined.

(** X5.  [load_kernel] reports nothing but a failed [open]: it returns -1
    when the file cannot be opened and 0 in every other case in which it
    returns -- a read error, a bad header and a failed allocation included.
    So the test of its result in [uhyve_init] can only fire for a file that
    cannot be opened. *)
Theorem load_kernel_result (host : Machine.Host) (abi : byte) (path : string)
    (s s' : Machine.state) (r : Z)
    (Hrun : Uhyve.load_kernel host abi path s = Machine.Ret r s') :
  r = match Machine.open_file host path with
      | Some _ => 0
      | None => -1
      end.
Proof.
  destruct (Machine.open_file host path) as [[fd file] |] eqn:Hopen.
  - exact (load_kernel_returns_zero host abi path fd file s r s' Hopen Hrun).
  - unfold Uhyve.load_kernel in Hrun. rewrite Hopen in Hrun.
    cbn in Hrun. now inversion Hrun.
Qed.

Lemma load_kernel_result_witness :
  Props.ending_of
    (Uhyve.load_kernel (Demo.host Demo.no_env Demo.image) Demo.osabi "missing"
       (Demo.running Mem.zero_mem)) = Props.Returned (-1).
Proof.
  pose proof (load_kernel_result (Demo.host Demo.no_env Demo.image) Demo.osabi
                "missing" (Demo.running Mem.zero_mem)) as H.
  destruct (Uhyve.load_kernel (Demo.host Demo.no_env Demo.image) Demo.osabi
              "missing" (Demo.running Mem.zero_mem)) as [r s' | | | |] eqn:E;
    try (vm_compute in E; discriminate E).
  cbn. f_equal. exact (H s' r eq_refl).
Defined.

(** ** What initialisation requires of the host *)

Section InitHost.
Import Int Mem Machine Elf Uhyve Props.

Variable host : Host.

Lemma kvm_ioctl_ret_inv fd req s v s' :
kvm_ioctl host fd req s = Ret v s' ->
v = ioctl host fd req /\ v <> -1
/\ s' = set_trace (trace s ++ [EvIoctl fd req]) s.
Proof.
unfold kvm_ioctl, bind, emit, modify, err, exit, ret.
destruct (ioctl host fd req =? -1) eqn:E; [discriminate |].
apply Z.eqb_neq in E. intros H. inversion H; subst. auto.
Qed.

Lemma vcpu_init_returns_zero id s r s' :
vcpu_init host id s = Ret r s' -> r = 0.
Proof.
unfold vcpu_init. intros H.
repeat (apply bind_ret_inv in H; destruct H as (? & ? & _ & H)).
now inversion H.
Qed.

End InitHost.

(** X6.  [uhyve_init] returns only on a host that plays along: whenever it
    returns, [/dev/kvm] was opened, the API version it reported is 12, the VM
    was created, the size asked for is not zero and the [mmap] of that size
    succeeded; and the value returned is 0. *)
Theorem uhyve_init_requirements (host : Machine.Host) (abi : byte)
    (path : string) (s s' : Machine.state) (r : Z)
    (Hrun : Uhyve.uhyve_init host abi path s = Machine.Ret r s') :
  r = 0
  /\ 0 <= Machine.open_kvm host
  /\ Machine.ioctl host (Machine.open_kvm host) Kvm.KVM_GET_API_VERSION = 12
  /\ Machine.ioctl host (Machine.open_kvm host) Kvm.KVM_CREATE_VM <> -1
  /\ Props.requested_size host s <> 0
  /\ Machine.mmap_ok host (Props.requested_size host s) = true.
Proof.
  pose proof Hrun as H. unfold Uhyve.uhyve_init in H.
  apply bind_ret_inv in H. destruct H as (u1 & s1 & H1 & H).
  apply bind_ret_inv in H. destruct H as (u2 & s2 & H2 & H).
  apply bind_ret_inv in H. destruct H as (u3 & s3 & H3 & H).
  apply bind_ret_inv in H. destruct H as (u4 & s4 & H4 & H).
  apply bind_ret_inv in H. destruct H as (u5 & s5 & H5 & H).
  apply bind_ret_inv in H. destruct H as (v & s6 & H6 & H).
  apply bind_ret_inv in H. destruct H as (u7 & s7 & H7 & H).
  apply bind_ret_inv in H. destruct H as (fd & s8 & H8 & H).
  apply bind_ret_inv in H. destruct H as (u9 & s9 & H9 & H).
  apply bind_ret_inv in H. destruct H as (sa & s10 & H10 & H).
  apply bind_ret_inv in H. destruct H as (u11 & s11 & H11 & H).
  apply bind_ret_inv in H. destruct H as (u12 & s12 & H12 & H).
  apply bind_ret_inv in H. destruct H as (rk & s13 & H13 & H).
  apply bind_ret_inv in H. destruct H as (u14 & s14 & H14 & H).
  apply bind_ret_inv in H. destruct H as (u15 & s15 & H15 & H).
  apply bind_ret_inv in H. destruct H as (u16 & s16 & H16 & H).
  assert (E3 : Machine.guest_size s3 = Props.requested_size host s).
  { unfold Props.requested_size.
    inversion H1; subst s1. inversion H2; subst s2.
    destruct (Machine.getenv host "HERMIT_MEM"); inversion H3; reflexivity. }
  assert (E10 : Machine.guest_size sa = Machine.guest_size s3).
  { apply keeps_ret_inv in H4; [| keeps_step].
    apply keeps_ret_inv in H5; [| repeat keeps_step].
    apply keeps_ret_inv in H6; [| apply keeps_kvm_ioctl].
    apply keeps_ret_inv in H7; [| repeat keeps_step].
    apply keeps_ret_inv in H8; [| apply keeps_kvm_ioctl].
    apply keeps_ret_inv in H9; [| keeps_step].
    inversion H10; subst. congruence. }
  split; [exact (vcpu_init_returns_zero host 0 s16 r s' H) |].
  split.
  { destruct (Machine.open_kvm host <? 0) eqn:E; [discriminate H5 |].
    now apply Z.ltb_ge in E. }
  apply kvm_ioctl_ret_inv in H6. destruct H6 as (Ev & _ & _).
  apply kvm_ioctl_ret_inv in H8. destruct H8 as (Efd & Hfd & _).
  split.
  { destruct (v =? 12) eqn:E; [| discriminate H7].
    apply Z.eqb_eq in E. congruence. }
  split; [congruence |].
  rewrite <- E3, <- E10.
  destruct (Machine.guest_size sa =? 0) eqn:Ez; [discriminate H12 |].
  destruct (Machine.mmap_ok host (Machine.guest_size sa)) eqn:Emap;
    [| discriminate H12].
  apply Z.eqb_neq in Ez. auto.
Qed.

Lemma uhyve_init_requirements_witness :
  Machine.ioctl (Demo.host Demo.no_env Demo.image) 3 Kvm.KVM_GET_API_VERSION = 12
  /\ Props.requested_size (Demo.host Demo.no_env Demo.image) Demo.start <> 0.
Proof.
  destruct (uhyve_init_requirements (Demo.host Demo.no_env Demo.image)
              Demo.osabi "kernel" Demo.start
              (Props.final (Uhyve.uhyve_init (Demo.host Demo.no_env Demo.image)
                              Demo.osabi "kernel" Demo.start)) 0
              ltac:(apply ending_ret; vm_compute; reflexivity))
    as (_ & _ & Hapi & _ & Hsize & _).
  split; [exact Hapi | exact Hsize].
Defined.

(** X7.  Without a usable KVM the monitor stops at once, with status 1:
    when [/dev/kvm] cannot be opened no request is issued at all; when the
    API version is not 12 (or the request fails) no VM is created.  In both
    cases the image is not opened and no guest memory is mapped. *)
Theorem uhyve_init_without_kvm (host : Machine.Host) (abi : byte)
    (path : string) (s : Machine.state) :
  (Machine.open_kvm host < 0 ->
   exists s',
     Uhyve.uhyve_init host abi path s = Machine.Exit 1 s'
     /\ Machine.guest_mem s' = Machine.guest_mem s
     /\ Machine.trace s' =
          Machine.trace s
          ++ [Machine.EvSignal Machine.SIGTERM; Machine.EvAtexit;
              Machine.EvStderr "Could not open: /dev/kvm"])
  /\
  (0 <= Machine.open_kvm host ->
   Machine.ioctl host (Machine.open_kvm host) Kvm.KVM_GET_API_VERSION <> 12 ->
   exists s' msg,
     Uhyve.uhyve_init host abi path s = Machine.Exit 1 s'
     /\ Machine.guest_mem s' = Machine.guest_mem s
     /\ Machine.trace s' =
          Machine.trace s
          ++ [Machine.EvSignal Machine.SIGTERM; Machine.EvAtexit;
              Machine.EvIoctl (Machine.open_kvm host) Kvm.KVM_GET_API_VERSION;
              Machine.EvStderr msg]).
Proof.
  split.
  - intros Hneg. apply Z.ltb_lt in Hneg.
    unfold Uhyve.uhyve_init, Machine.err, Machine.bind, Machine.emit,
      Machine.modify, Machine.get, Machine.ret, Machine.exit.
    destruct (Machine.getenv host "HERMIT_MEM") as [str |]; cbn;
      rewrite Hneg; cbn; eexists;
      (split; [reflexivity | split; [reflexivity |]]);
      cbn; rewrite <- !app_assoc; reflexivity.
  - intros Hopen Hapi.
    assert (E : (Machine.open_kvm host <? 0) = false) by (apply Z.ltb_ge; lia).
    apply Z.eqb_neq in Hapi.
    unfold Uhyve.uhyve_init, Uhyve.kvm_ioctl, Machine.err, Machine.bind,
      Machine.emit, Machine.modify, Machine.get, Machine.ret, Machine.exit.
    destruct (Machine.getenv host "HERMIT_MEM") as [str |]; cbn;
      rewrite E; cbn;
      (destruct (Machine.ioctl host (Machine.open_kvm host)
                   Kvm.KVM_GET_API_VERSION =? -1); cbn;
       [| rewrite Hapi; cbn]);
      eexists; eexists;
      (split; [reflexivity | split; [reflexivity |]]);
      cbn; rewrite <- !app_assoc; reflexivity.
Qed.

Lemma uhyve_init_without_kvm_witness :
  exists s',
    Uhyve.uhyve_init
      (Machine.mkHost Demo.no_env (fun _ => None) (-1) (fun _ _ => 0)
         Demo.reset_sregs 0 [] 2352 (fun _ => true) (fun _ => true)
         (fun _ => x00) None None (fun _ => 0) (fun _ _ len => len)
         (fun _ _ _ => 7) (fun _ off _ => off)
         (fun _ _ => Machine.ReadBytes []) 100 (fun id => 100 + id)
         (fun _ => 8) [])
      Demo.osabi "kernel" Demo.start = Machine.Exit 1 s'
    /\ Machine.guest_mem s' = None.
Proof.
  destruct (proj1 (uhyve_init_without_kvm
              (Machine.mkHost Demo.no_env (fun _ => None) (-1) (fun _ _ => 0)
                 Demo.reset_sregs 0 [] 2352 (fun _ => true) (fun _ => true)
                 (fun _ => x00) None None (fun _ => 0) (fun _ _ len => len)
                 (fun _ _ _ => 7) (fun _ off _ => off)
                 (fun _ _ => Machine.ReadBytes []) 100 (fun id => 100 + id)
                 (fun _ => 8) [])
              Demo.osabi "kernel" Demo.start) eq_refl)
    as (s' & Hrun & Hmem & _).
  exists s'. split; [exact Hrun | exact Hmem].
Defined.

Section SizeZero.
Import Int Mem Machine Elf Uhyve Props.

(** When [strtoull] finds no number, or the number 0, [memparse] is 0
  whatever suffix follows. *)
Lemma memparse_zero ptr endptr :
Memparse.strtoull ptr = (0, endptr) -> Memparse.memparse ptr = 0.
Proof.
intros H. rewrite (memparse_unfold ptr 0 endptr H).
destruct (Memparse.suffix_exponent (Memparse.deref endptr)); reflexivity.
Qed.

End SizeZero.



(** X9.  Page-table set-up refuses a guest it cannot map with one page
    directory: when [guest_size] is not a multiple of 2 MiB, or exceeds
    1 GiB, an assertion fails and the monitor aborts before a single byte of
    guest memory or a register is written. *)
Theorem page_tables_refuse (s : Machine.state)
    (Hbad : Machine.guest_size s mod Uhyve.GUEST_PAGE_SIZE <> 0
            \/ 0x40000000 < Machine.guest_size s) :
  Uhyve.setup_system_page_tables s = Machine.Abort s.
Proof.
  unfold Uhyve.setup_system_page_tables. cbv zeta.
  unfold Machine.bind at 1. unfold Machine.get at 1.
  change (Uhyve.GUEST_PAGE_SIZE - 1) with (Z.ones 21).
  rewrite Z.land_ones by lia.
  change (2 ^ 21) with Uhyve.GUEST_PAGE_SIZE.
  destruct (Z.eq_dec (Machine.guest_size s mod Uhyve.GUEST_PAGE_SIZE) 0) as [E | E].
  - destruct Hbad as [Hbad | Hbig]; [contradiction |].
    rewrite E. cbn [Z.eqb Machine.c_assert].
    unfold Machine.bind at 1. unfold Machine.ret at 1.
    replace (Machine.guest_size s <=? Uhyve.GUEST_PAGE_SIZE * 512) with false.
    + reflexivity.
    + symmetry. apply Z.leb_gt.
      change (Uhyve.GUEST_PAGE_SIZE * 512) with 0x40000000. exact Hbig.
  - apply Z.eqb_neq in E. rewrite E. reflexivity.
Qed.

Lemma page_tables_refuse_witness :
  Uhyve.setup_system_page_tables
    (Machine.set_guest_size 0x300000 (Demo.running Mem.zero_mem))
  = Machine.Abort (Machine.set_guest_size 0x300000 (Demo.running Mem.zero_mem)).
Proof.
  apply page_tables_refuse. left. vm_compute. intros H; discriminate H.
Defined.

(** ** The CPUID filter *)

Section CpuidFacts.
Import Int Mem Machine Uhyve Props.

Lemma lor_twice x b : Z.lor (Z.lor x b) b = Z.lor x b.
Proof. now rewrite <- Z.lor_assoc, Z.lor_diag. Qed.

Lemma filter_cpuid_function entries :
map Kvm.function (filter_cpuid entries) = map Kvm.function entries.
Proof.
unfold filter_cpuid. rewrite map_map. apply map_ext. intros e.
destruct (Kvm.function e =? 1); [reflexivity |].
destruct (Kvm.function e =? CPUID_FUNC_PERFMON); reflexivity.
Qed.

End CpuidFacts.

(** X10.  The CPUID filter keeps the list of functions as the host reports
    it, entry by entry; in every entry of function 1 it sets bit 31 of ECX
    (hypervisor present) and bit 5 of EDX (MSR support) and leaves the other
    bits and registers alone; in every entry of function 0x0A it zeroes EAX
    and nothing else; every other entry passes unchanged.  Filtering twice
    is filtering once. *)
Theorem filter_cpuid_spec (entries : list Kvm.kvm_cpuid_entry2) :
  length (Uhyve.filter_cpuid entries) = length entries
  /\ map Kvm.function (Uhyve.filter_cpuid entries) = map Kvm.function entries
  /\ map Kvm.ebx (Uhyve.filter_cpuid entries) = map Kvm.ebx entries
  /\ Uhyve.filter_cpuid (Uhyve.filter_cpuid entries) = Uhyve.filter_cpuid entries
  /\ (forall i e,
        nth_error entries i = Some e ->
        exists e',
          nth_error (Uhyve.filter_cpuid entries) i = Some e'
          /\ (Kvm.function e = 1 ->
              Z.testbit (Kvm.ecx e') 31 = true
              /\ Z.testbit (Kvm.edx e') 5 = true
              /\ (forall n, 0 <= n -> n <> 31 ->
                    Z.testbit (Kvm.ecx e') n = Z.testbit (Kvm.ecx e) n)
              /\ (forall n, 0 <= n -> n <> 5 ->
                    Z.testbit (Kvm.edx e') n = Z.testbit (Kvm.edx e) n)
              /\ Kvm.eax e' = Kvm.eax e)
          /\ (Kvm.function e = 0x0A ->
              Kvm.eax e' = 0 /\ Kvm.ecx e' = Kvm.ecx e /\ Kvm.edx e' = Kvm.edx e)
          /\ (Kvm.function e <> 1 -> Kvm.function e <> 0x0A -> e' = e)).
Proof.
  split; [apply length_map |].
  split; [apply filter_cpuid_function |].
  split.
  { unfold Uhyve.filter_cpuid. rewrite map_map. apply map_ext. intros e.
    destruct (Kvm.function e =? 1); [reflexivity |].
    destruct (Kvm.function e =? Uhyve.CPUID_FUNC_PERFMON); reflexivity. }
  split.
  { unfold Uhyve.filter_cpuid. rewrite map_map. apply map_ext. intros e.
    destruct (Kvm.function e =? 1) eqn:E1; cbn [Kvm.function].
    - rewrite E1. cbn [Kvm.ecx Kvm.edx Kvm.eax Kvm.ebx Kvm.function].
      now rewrite !lor_twice.
    - destruct (Kvm.function e =? Uhyve.CPUID_FUNC_PERFMON) eqn:E2;
        cbn [Kvm.function]; rewrite E1, E2; reflexivity. }
  intros i e Hnth.
  unfold Uhyve.filter_cpuid. rewrite nth_error_map, Hnth. cbn [option_map].
  eexists. split; [reflexivity |].
  assert (Hbit : forall k n, 0 <= k -> 0 <= n ->
                   Z.testbit (Z.shiftl 1 k) n = (n =? k)).
  { intros k n Hk Hn. rewrite Z.shiftl_1_l.
    destruct (n =? k) eqn:E.
    - apply Z.eqb_eq in E. subst. apply Z.pow2_bits_true. exact Hk.
    - apply Z.eqb_neq in E. apply Z.pow2_bits_false. congruence. }
  split; [| split].
  - intros Hf. rewrite Hf. cbn [Z.eqb Pos.eqb Kvm.ecx Kvm.edx Kvm.eax].
    split; [rewrite Z.lor_spec, Hbit by lia; apply orb_true_r |].
    split; [rewrite Z.lor_spec, Hbit by lia; apply orb_true_r |].
    split; [| split; [| reflexivity]].
    + intros n Hn Hne. rewrite Z.lor_spec, Hbit by lia.
      replace (n =? 31) with false by (symmetry; now apply Z.eqb_neq).
      apply orb_false_r.
    + intros n Hn Hne. rewrite Z.lor_spec, Hbit by lia.
      replace (n =? 5) with false by (symmetry; now apply Z.eqb_neq).
      apply orb_false_r.
  - intros Hf. rewrite Hf. cbn. auto.
  - intros H1 HA. apply Z.eqb_neq in H1, HA.
    rewrite H1. unfold Uhyve.CPUID_FUNC_PERFMON. rewrite HA. reflexivity.
Qed.

Lemma filter_cpuid_spec_witness :
  exists e',
    nth_error (Uhyve.filter_cpuid
                 (Machine.supported_cpuid (Demo.host Demo.no_env []))) 1 = Some e'
    /\ Z.testbit (Kvm.ecx e') 31 = true /\ Z.testbit (Kvm.edx e') 5 = true.
Proof.
  destruct (filter_cpuid_spec (Machine.supported_cpuid (Demo.host Demo.no_env [])))
    as (_ & _ & _ & _ & Hentry).
  destruct (Hentry 1%nat (Kvm.mkCpuid 1 0x306c3 0 0x7ffafbff 0xbfebfbdf) eq_refl)
    as (e' & Hnth & Hone & _).
  destruct (Hone eq_refl) as (Hecx & Hedx & _).
  exists e'. split; [exact Hnth |]. split; [exact Hecx | exact Hedx].
Defined.

(** ** The dispatch loop *)

Section LoopReturns.
Import Int Mem Machine Uhyve Props.

Variable host : Host.

Lemma err_not_ret {A} msg s (a : A) s' : err msg s <> Ret a s'.
Proof. unfold err, bind, emit, modify, exit. discriminate. Qed.

(** The loop returns only through [case KVM_EXIT_HLT]. *)
Lemma run_loop_returns runs : forall s r s',
run_loop host runs s = Ret r s' ->
r = 0 /\ In (Kvm.RunExit Kvm.KVM_EXIT_HLT) runs
/\ exists t, trace s' = t ++ [halt_message].
Proof.
induction runs as [| run runs IH]; intros s r s' H; [discriminate H |].
cbn [run_loop] in H.
apply bind_ret_inv in H. destruct H as (s0 & s1 & Hget & H).
apply bind_ret_inv in H. destruct H as (u & s2 & Hemit & H).
destruct run as [[| pa | port dir data | re | se | | re] | errno];
  try (exfalso; exact (err_not_ret _ _ _ _ H)).
- apply bind_ret_inv in H. destruct H as (u' & s3 & Hmsg & H).
  inversion H; subst. inversion Hmsg; subst.
  split; [reflexivity |]. split; [now left |].
  eexists. cbn. reflexivity.
- apply bind_ret_inv in H. destruct H as (u' & s3 & _ & H).
  destruct (IH _ _ _ H) as (Hr & Hin & Ht).
  split; [exact Hr |]. split; [now right | exact Ht].
Qed.

End LoopReturns.

(** X11.  [vcpu_loop] returns only when the guest halts, and then with 0:
    whenever it returns, one of the exits it was handed is [KVM_EXIT_HLT] and
    the last thing it did is print the halt message.  A failing [KVM_RUN]
    never returns to the loop, whatever its [errno] -- [EINTR] included: the
    macro [kvm_ioctl] calls [err(1, ...)] before the loop can look at
    [errno]. *)
Theorem vcpu_loop_returns_on_halt (host : Machine.Host)
    (runs : list Kvm.run_result) (s : Machine.state) :
  (forall r s',
     Uhyve.vcpu_loop host runs s = Machine.Ret r s' ->
     r = 0 /\ In (Kvm.RunExit Kvm.KVM_EXIT_HLT) runs
     /\ exists t, Machine.trace s' = t ++ [Props.halt_message])
  /\ (forall errno rest,
        Uhyve.run_loop host (Kvm.RunError errno :: rest) s =
          Machine.Exit 1
            (Machine.set_trace
               (Machine.trace s
                ++ [Machine.EvIoctl (Machine.vcpufd s) Kvm.KVM_RUN;
                    Machine.EvStderr "KVM: ioctl KVM_RUN failed"]) s)).
Proof.
  split.
  - intros r s' H. unfold Uhyve.vcpu_loop in H.
    apply bind_ret_inv in H. destruct H as (s0 & s1 & _ & H).
    apply bind_ret_inv in H. destruct H as (u1 & s2 & _ & H).
    apply bind_ret_inv in H. destruct H as (u2 & s3 & _ & H).
    exact (run_loop_returns host runs s3 r s' H).
  - intros errno rest. cbn. rewrite <- app_assoc. reflexivity.
Qed.

Lemma vcpu_loop_returns_on_halt_witness :
  let o := Uhyve.vcpu_loop (Demo.host Demo.no_env [])
             [Kvm.RunExit (Kvm.KVM_EXIT_IO 0x501 1 0x3000);
              Kvm.RunExit Kvm.KVM_EXIT_HLT]
             (Demo.running (Demo.close_record 3)) in
  o = Machine.Ret 0 (Props.final o)
  /\ exists t, Machine.trace (Props.final o) = t ++ [Props.halt_message].
Proof.
  cbv zeta.
  assert (Hret : Uhyve.vcpu_loop (Demo.host Demo.no_env [])
             [Kvm.RunExit (Kvm.KVM_EXIT_IO 0x501 1 0x3000);
              Kvm.RunExit Kvm.KVM_EXIT_HLT]
             (Demo.running (Demo.close_record 3))
           = Machine.Ret 0 (Props.final (Uhyve.vcpu_loop (Demo.host Demo.no_env [])
             [Kvm.RunExit (Kvm.KVM_EXIT_IO 0x501 1 0x3000);
              Kvm.RunExit Kvm.KVM_EXIT_HLT]
             (Demo.running (Demo.close_record 3)))))
    by (apply ending_ret; vm_compute; reflexivity).
  split; [exact Hret |].
  exact (proj2 (proj2 (proj1 (vcpu_loop_returns_on_halt _ _ _) _ _ Hret))).
Defined.

(** ** The file hypercalls *)

Section HypercallFacts.
Import Int Mem Machine Uhyve Props.

Lemma to_long_wrap64 x : to_long (wrap64 x) = to_long x.
Proof. unfold to_long, wrap64, two64. now rewrite Z.mod_mod by lia. Qed.

End HypercallFacts.

(** X12.  The WRITE handler passes [fd], the guest buffer and [len] of the
    record to the host's [write] and stores what [write] returns in the
    [len] field itself, over the length the guest asked for; a failure
    therefore reads back as -1 in that field.  The fields [fd] and [buf] and
    the rest of guest memory are left alone. *)
Theorem write_hypercall_result (host : Machine.Host) (data : Z)
    (s : Machine.state) (m : Mem.mem)
    (Hmem : Machine.guest_mem s = Some m)
    (Hin : Uhyve.in_guest s data 20 = true) :
  let fd := Int.to_int (Mem.load_le 4 m data) in
  let buf := Mem.load_le 8 m (data + 4) in
  let len := Mem.load_le 8 m (data + 12) in
  let m' := Mem.store_le 8 m (data + 12) (Machine.sys_write host fd buf len) in
  Uhyve.hypercall_write host data s =
    Machine.Ret tt
      (Machine.set_guest_mem (Some m')
         (Machine.set_trace (Machine.trace s ++ [Machine.EvWrite fd buf len]) s))
  /\ Int.to_long (Mem.load_le 8 m' (data + 12)) =
       Int.to_long (Machine.sys_write host fd buf len)
  /\ Mem.load_le 4 m' data = Mem.load_le 4 m data
  /\ Mem.load_le 8 m' (data + 4) = buf
  /\ forall x, x < data + 12 \/ data + 20 <= x -> m' x = m x.
Proof.
  cbv zeta.
  assert (H0 : Uhyve.in_guest s data (Z.of_nat 4) = true)
    by (eapply in_guest_sub; [exact Hin | lia ..]).
  assert (H4 : Uhyve.in_guest s (data + 4) (Z.of_nat 8) = true)
    by (eapply in_guest_sub; [exact Hin | lia ..]).
  assert (H12 : Uhyve.in_guest s (data + 12) (Z.of_nat 8) = true)
    by (eapply in_guest_sub; [exact Hin | lia ..]).
  split; [| split; [| split; [| split]]].
  - unfold Uhyve.hypercall_write.
    unfold Machine.bind at 1. rewrite (guest_load_ok _ _ _ _ Hmem H0).
    unfold Machine.bind at 1. rewrite (guest_load_ok _ _ _ _ Hmem H4).
    unfold Machine.bind at 1. rewrite (guest_load_ok _ _ _ _ Hmem H12).
    unfold Machine.bind at 1. unfold Machine.emit, Machine.modify.
    erewrite guest_store_ok; [reflexivity | exact Hmem | exact H12].
  - rewrite load_store_same. apply to_long_wrap64.
  - apply load_store_other. change (Z.of_nat 4) with 4. lia.
  - apply load_store_other. change (Z.of_nat 8) with 8. lia.
  - intros x Hx. apply store_le_outside. change (Z.of_nat 8) with 8. lia.
Qed.

(** X13.  The LSEEK handler calls the host's [lseek] with the three fields
    of the record and stores the resulting position over the [offset] field
    that carried the argument; [fd], [whence] and the rest of guest memory
    are left alone. *)
Theorem lseek_hypercall_result (host : Machine.Host) (data : Z)
    (s : Machine.state) (m : Mem.mem)
    (Hmem : Machine.guest_mem s = Some m)
    (Hin : Uhyve.in_guest s data 16 = true) :
  let fd := Int.to_int (Mem.load_le 4 m data) in
  let offset := Int.to_long (Mem.load_le 8 m (data + 4)) in
  let whence := Int.to_int (Mem.load_le 4 m (data + 12)) in
  let m' := Mem.store_le 8 m (data + 4) (Machine.sys_lseek host fd offset whence) in
  Uhyve.hypercall_lseek host data s =
    Machine.Ret tt
      (Machine.set_guest_mem (Some m')
         (Machine.set_trace
            (Machine.trace s ++ [Machine.EvLseek fd offset whence]) s))
  /\ Int.to_long (Mem.load_le 8 m' (data + 4)) =
       Int.to_long (Machine.sys_lseek host fd offset whence)
  /\ Mem.load_le 4 m' data = Mem.load_le 4 m data
  /\ Mem.load_le 4 m' (data + 12) = Mem.load_le 4 m (data + 12)
  /\ forall x, x < data + 4 \/ data + 12 <= x -> m' x = m x.
Proof.
  cbv zeta.
  assert (H0 : Uhyve.in_guest s data (Z.of_nat 4) = true)
    by (eapply in_guest_sub; [exact Hin | lia ..]).
  assert (H4 : Uhyve.in_guest s (data + 4) (Z.of_nat 8) = true)
    by (eapply in_guest_sub; [exact Hin | lia ..]).
  assert (H12 : Uhyve.in_guest s (data + 12) (Z.of_nat 4) = true)
    by (eapply in_guest_sub; [exact Hin | lia ..]).
  split; [| split; [| split; [| split]]].
  - unfold Uhyve.hypercall_lseek.
    unfold Machine.bind at 1. rewrite (guest_load_ok _ _ _ _ Hmem H0).
    unfold Machine.bind at 1. rewrite (guest_load_ok _ _ _ _ Hmem H4).
    unfold Machine.bind at 1. rewrite (guest_load_ok _ _ _ _ Hmem H12).
    unfold Machine.bind at 1. unfold Machine.emit, Machine.modify.
    erewrite guest_store_ok; [reflexivity | exact Hmem | exact H4].
  - rewrite load_store_same. apply to_long_wrap64.
  - apply load_store_other. change (Z.of_nat 4) with 4. lia.
  - apply load_store_other. change (Z.of_nat 8) with 8. change (Z.of_nat 4) with 4. lia.
  - intros x Hx. apply store_le_outside. change (Z.of_nat 8) with 8. lia.
Qed.

(** X14.  The OPEN handler calls the host's [open] with the guest address
    of the name, the flags and the mode of the record and stores the
    descriptor, or -1, in the [ret] field; the arguments and the rest of
    guest memory are left alone. *)
Theorem open_hypercall_result (host : Machine.Host) (data : Z)
    (s : Machine.state) (m : Mem.mem)
    (Hmem : Machine.guest_mem s = Some m)
    (Hin : Uhyve.in_guest s data 20 = true) :
  let name := Mem.load_le 8 m data in
  let flags := Int.to_int (Mem.load_le 4 m (data + 8)) in
  let mode := Int.to_int (Mem.load_le 4 m (data + 12)) in
  let m' := Mem.store_le 4 m (data + 16) (Machine.sys_open host name flags mode) in
  Uhyve.hypercall_open host data s =
    Machine.Ret tt
      (Machine.set_guest_mem (Some m')
         (Machine.set_trace
            (Machine.trace s ++ [Machine.EvGuestOpen name flags mode]) s))
  /\ Int.to_int (Mem.load_le 4 m' (data + 16)) =
       Int.to_int (Machine.sys_open host name flags mode)
  /\ forall x, x < data + 16 \/ data + 20 <= x -> m' x = m x.
Proof.
  cbv zeta.
  assert (H0 : Uhyve.in_guest s data (Z.of_nat 8) = true)
    by (eapply in_guest_sub; [exact Hin | lia ..]).
  assert (H8 : Uhyve.in_guest s (data + 8) (Z.of_nat 4) = true)
    by (eapply in_guest_sub; [exact Hin | lia ..]).
  assert (H12 : Uhyve.in_guest s (data + 12) (Z.of_nat 4) = true)
    by (eapply in_guest_sub; [exact Hin | lia ..]).
  assert (H16 : Uhyve.in_guest s (data + 16) (Z.of_nat 4) = true)
    by (eapply in_guest_sub; [exact Hin | lia ..]).
  split; [| split].
  - unfold Uhyve.hypercall_open.
    unfold Machine.bind at 1. rewrite (guest_load_ok _ _ _ _ Hmem H0).
    unfold Machine.bind at 1. rewrite (guest_load_ok _ _ _ _ Hmem H8).
    unfold Machine.bind at 1. rewrite (guest_load_ok _ _ _ _ Hmem H12).
    unfold Machine.bind at 1. unfold Machine.emit, Machine.modify.
    erewrite guest_store_ok; [reflexivity | exact Hmem | exact H16].
  - rewrite load_store_same. apply to_int_wrap32.
  - intros x Hx. apply store_le_outside. change (Z.of_nat 4) with 4. lia.
Qed.

Lemma write_hypercall_result_witness :
  Uhyve.hypercall_write Demo.file_host 0x3000 (Demo.running Demo.write_record) =
    Machine.Ret tt
      (Machine.set_guest_mem
         (Some (Mem.store_le 8 Demo.write_record 0x300c 3))
         (Machine.set_trace [Machine.EvWrite 1 0x4000 5]
            (Demo.running Demo.write_record))).
Proof.
  exact (proj1 (write_hypercall_result Demo.file_host 0x3000
                  (Demo.running Demo.write_record) Demo.write_record
                  eq_refl eq_refl)).
Defined.

Lemma lseek_hypercall_result_witness :
  Uhyve.hypercall_lseek Demo.file_host 0x3000 (Demo.running Demo.lseek_record) =
    Machine.Ret tt
      (Machine.set_guest_mem
         (Some (Mem.store_le 8 Demo.lseek_record 0x3004 48))
         (Machine.set_trace [Machine.EvLseek 6 32 1]
            (Demo.running Demo.lseek_record))).
Proof.
  exact (proj1 (lseek_hypercall_result Demo.file_host 0x3000
                  (Demo.running Demo.lseek_record) Demo.lseek_record
                  eq_refl eq_refl)).
Defined.

Lemma open_hypercall_result_witness :
  Uhyve.hypercall_open Demo.file_host 0x3000 (Demo.running Demo.open_record) =
    Machine.Ret tt
      (Machine.set_guest_mem
         (Some (Mem.store_le 4 Demo.open_record 0x3010 (-1)))
         (Machine.set_trace [Machine.EvGuestOpen 0x4000 2 0]
            (Demo.running Demo.open_record))).
Proof.
  exact (proj1 (open_hypercall_result Demo.file_host 0x3000
                  (Demo.running Demo.open_record) Demo.open_record
                  eq_refl eq_refl)).
Defined.

(** X15.  The READ handler calls the host's [read] with [fd], the guest
    buffer and [len] of the record.  When [read] fails, -1 is stored in
    [ret] and nothing else changes.  When it delivers bytes -- never more
    than [len] -- they lie at [buf] in guest memory and their number is in
    [ret]. *)
Theorem read_hypercall_result (host : Machine.Host) (data : Z)
    (s : Machine.state) (m : Mem.mem)
    (Hmem : Machine.guest_mem s = Some m)
    (Hin : Uhyve.in_guest s data 28 = true) :
  let fd := Int.to_int (Mem.load_le 4 m data) in
  let buf := Mem.load_le 8 m (data + 4) in
  let len := Mem.load_le 8 m (data + 12) in
  let s0 := Machine.set_trace (Machine.trace s ++ [Machine.EvRead fd buf len]) s in
  (forall e, Machine.sys_read host fd len = Machine.ReadError e ->
     let m' := Mem.store_le 8 m (data + 20) (-1) in
     Uhyve.hypercall_read host data s =
       Machine.Ret tt (Machine.set_guest_mem (Some m') s0)
     /\ Int.to_long (Mem.load_le 8 m' (data + 20)) = -1
     /\ forall x, x < data + 20 \/ data + 28 <= x -> m' x = m x)
  /\
  (forall bs, Machine.sys_read host fd len = Machine.ReadBytes bs ->
     let got := firstn (Z.to_nat len) bs in
     let n := Z.of_nat (length got) in
     Uhyve.in_guest s buf n = true ->
     let m' := Mem.store_le 8 (Props.store_read_mem m buf got) (data + 20) n in
     Uhyve.hypercall_read host data s =
       Machine.Ret tt (Machine.set_guest_mem (Some m') s0)
     /\ n <= len
     /\ Mem.load_le 8 m' (data + 20) = n
     /\ (forall i, (i < length got)%nat ->
           buf + Z.of_nat i < data + 20 \/ data + 28 <= buf + Z.of_nat i ->
           m' (buf + Z.of_nat i) = nth i bs Byte.x00)
     /\ forall x, (x < buf \/ buf + n <= x) ->
                  (x < data + 20 \/ data + 28 <= x) -> m' x = m x).
Proof.
  cbv zeta.
  assert (H0 : Uhyve.in_guest s data (Z.of_nat 4) = true)
    by (eapply in_guest_sub; [exact Hin | lia ..]).
  assert (H4 : Uhyve.in_guest s (data + 4) (Z.of_nat 8) = true)
    by (eapply in_guest_sub; [exact Hin | lia ..]).
  assert (H12 : Uhyve.in_guest s (data + 12) (Z.of_nat 8) = true)
    by (eapply in_guest_sub; [exact Hin | lia ..]).
  assert (H20 : Uhyve.in_guest s (data + 20) (Z.of_nat 8) = true)
    by (eapply in_guest_sub; [exact Hin | lia ..]).
  split.
  - intros e He. split; [| split].
    + unfold Uhyve.hypercall_read.
      unfold Machine.bind at 1. rewrite (guest_load_ok _ _ _ _ Hmem H0).
      unfold Machine.bind at 1. rewrite (guest_load_ok _ _ _ _ Hmem H4).
      unfold Machine.bind at 1. rewrite (guest_load_ok _ _ _ _ Hmem H12).
      rewrite He.
      unfold Machine.bind at 1. unfold Machine.emit, Machine.modify.
      unfold Uhyve.complete_read. unfold Machine.bind at 1. unfold Machine.ret at 1.
      erewrite guest_store_ok; [reflexivity | exact Hmem | exact H20].
    + rewrite load_store_same. reflexivity.
    + intros x Hx. apply store_le_outside. change (Z.of_nat 8) with 8. lia.
  - intros bs Hbs Hbuf.
    pose proof (load_le_range 8 m (data + 12)) as Hlen.
    pose proof (length_firstn (Z.to_nat (Mem.load_le 8 m (data + 12))) bs) as Hgot.
    assert (Hn : Z.of_nat (length (firstn (Z.to_nat (Mem.load_le 8 m (data + 12))) bs))
                 <= Mem.load_le 8 m (data + 12)) by lia.
    split; [| split; [exact Hn | split; [| split]]].
    + unfold Uhyve.hypercall_read.
      unfold Machine.bind at 1. rewrite (guest_load_ok _ _ _ _ Hmem H0).
      unfold Machine.bind at 1. rewrite (guest_load_ok _ _ _ _ Hmem H4).
      unfold Machine.bind at 1. rewrite (guest_load_ok _ _ _ _ Hmem H12).
      rewrite Hbs.
      unfold Machine.bind at 1. unfold Machine.emit, Machine.modify.
      unfold Uhyve.complete_read.
      unfold Machine.bind at 1. unfold Machine.bind at 1.
      erewrite store_read_ok; [| exact Hmem | exact Hbuf].
      unfold Machine.ret at 1.
      erewrite guest_store_ok; [reflexivity | reflexivity |].
      erewrite in_guest_same;
        [exact H20 | reflexivity | cbn; rewrite Hmem; split; intros H; discriminate H].
    + rewrite load_store_same. apply Z.mod_small.
      change (256 ^ Z.of_nat 8) with 18446744073709551616 in *. lia.
    + intros i Hi Hout.
      rewrite store_le_outside by (change (Z.of_nat 8) with 8; lia).
      rewrite store_read_mem_at, store_bytes_inside by lia.
      replace (Z.to_nat (Mem.load_le 8 m (data + 4) + Z.of_nat i
                         - Mem.load_le 8 m (data + 4))) with i by lia.
      rewrite <- (firstn_skipn (Z.to_nat (Mem.load_le 8 m (data + 12))) bs) at 2.
      now rewrite app_nth1.
    + intros x Hx Hx'.
      rewrite store_le_outside by (change (Z.of_nat 8) with 8; lia).
      rewrite store_read_mem_at. apply store_bytes_outside. lia.
Qed.

Lemma read_hypercall_result_witness :
  Uhyve.hypercall_read Demo.file_host 0x3000
    (Demo.running (Demo.read_record 2)) =
    Machine.Ret tt
      (Machine.set_guest_mem
         (Some (Mem.store_le 8
                  (Mem.store_bytes (Demo.read_record 2) 0x4000 [Byte.x61; Byte.x62])
                  0x3014 2))
         (Machine.set_trace [Machine.EvRead 6 0x4000 2]
            (Demo.running (Demo.read_record 2))))
  /\ Uhyve.hypercall_read Demo.failing_read_host 0x3000
       (Demo.running (Demo.read_record 2)) =
     Machine.Ret tt
       (Machine.set_guest_mem
          (Some (Mem.store_le 8 (Demo.read_record 2) 0x3014 (-1)))
          (Machine.set_trace [Machine.EvRead 6 0x4000 2]
             (Demo.running (Demo.read_record 2)))).
Proof.
  split.
  - exact (proj1 (proj2 (read_hypercall_result Demo.file_host 0x3000
                    (Demo.running (Demo.read_record 2)) (Demo.read_record 2)
                    eq_refl eq_refl)
                  [Byte.x61; Byte.x62; Byte.x63] eq_refl eq_refl)).
  - exact (proj1 (proj1 (read_hypercall_result Demo.failing_read_host 0x3000
                    (Demo.running (Demo.read_record 2)) (Demo.read_record 2)
                    eq_refl eq_refl)
                  5 eq_refl)).
Defined.

(** ** How the loop leaves the process *)

Section LoopExits.
Import Int Mem Machine Uhyve Props.

Variable host : Host.

Lemma bind_never_exits {A B} (c : M A) (k : A -> M B) :
never_exits c -> (forall a, never_exits (k a)) -> never_exits (bind c k).
Proof.
intros Hc Hk s st s'. unfold bind.
destruct (c s) as [a s1 | st1 s1 | | |] eqn:E; try discriminate.
- apply Hk.
- exfalso. exact (Hc _ _ _ E).
Qed.

Lemma guest_load_never_exits n a : never_exits (guest_load n a).
Proof.
intros s st s'. unfold guest_load.
destruct (guest_mem s); [destruct (in_guest s a (Z.of_nat n)) |]; discriminate.
Qed.

Lemma guest_update_never_exits a n f : never_exits (guest_update a n f).
Proof.
intros s st s'. unfold guest_update.
destruct (guest_mem s); [destruct (in_guest s a n) |]; discriminate.
Qed.

Lemma emit_never_exits e : never_exits (emit e).
Proof. intros s st s'. discriminate. Qed.

Lemma ret_never_exits {A} (a : A) : never_exits (ret a).
Proof. intros s st s'. discriminate. Qed.

Lemma c_assert_never_exits b : never_exits (c_assert b).
Proof. intros s st s'. destruct b; discriminate. Qed.

Lemma store_read_never_exits a bs : never_exits (store_read a bs).
Proof.
destruct bs; [apply ret_never_exits | apply guest_update_never_exits].
Qed.

Lemma complete_read_never_exits buf r : never_exits (complete_read buf r).
Proof.
destruct r; cbn [complete_read]; [| apply ret_never_exits].
apply bind_never_exits; [apply store_read_never_exits |].
intros _. apply ret_never_exits.
Qed.

Lemma tap_read_never_exits buf count : never_exits (tap_read buf count).
Proof.
intros s st s' H. unfold tap_read, bind, get, emit, modify, ret in H.
cbn in H. destruct (netfd s <? 0); [discriminate H |].
destruct (tap_script s) as [| [bs | e] rest]; discriminate H.
Qed.

Ltac no_exit :=
repeat first
  [ apply guest_load_never_exits
  | apply guest_update_never_exits
  | apply emit_never_exits
  | apply ret_never_exits
  | apply c_assert_never_exits
  | apply complete_read_never_exits
  | apply tap_read_never_exits
  | apply bind_never_exits; [| intros ?] ].

(** No handler but EXIT's ends the process: an ill-placed record is a
fault, a failed assertion an abort. *)
Lemma hypercall_write_never_exits data : never_exits (hypercall_write host data).
Proof. unfold hypercall_write, guest_store. no_exit. Qed.

Lemma hypercall_read_never_exits data : never_exits (hypercall_read host data).
Proof.
unfold hypercall_read, guest_store. no_exit.
destruct a3 as [n e]. no_exit.
Qed.

Lemma hypercall_open_never_exits data : never_exits (hypercall_open host data).
Proof. unfold hypercall_open, guest_store. no_exit. Qed.

Lemma hypercall_close_never_exits data : never_exits (hypercall_close host data).
Proof.
unfold hypercall_close, guest_store. no_exit.
destruct (2 <? to_int a0); no_exit.
Qed.

Lemma hypercall_lseek_never_exits data : never_exits (hypercall_lseek host data).
Proof. unfold hypercall_lseek, guest_store. no_exit. Qed.

Lemma hypercall_netinfo_never_exits data : never_exits (hypercall_netinfo host data).
Proof. unfold hypercall_netinfo, guest_store_bytes. no_exit. Qed.

Lemma hypercall_netwrite_never_exits data :
never_exits (hypercall_netwrite host data).
Proof.
unfold hypercall_netwrite, guest_store. no_exit.
intros s st s' H. discriminate H.
Qed.

Lemma hypercall_netread_never_exits data : never_exits (hypercall_netread data).
Proof.
unfold hypercall_netread, guest_store. no_exit.
destruct a2 as [n e].
destruct ((to_int n =? 0) || ((to_int n =? -1) && (e =? EAGAIN))); no_exit.
Qed.

Lemma err_exits_one {A} msg s st s' : @err A msg s = Exit st s' -> st = 1.
Proof. unfold err, bind, emit, modify, exit. intros H. now inversion H. Qed.

Lemma handle_io_exit port direction data s st s' :
handle_io host port direction data s = Exit st s' ->
st = 1 \/ port = UHYVE_PORT_EXIT.
Proof.
unfold handle_io. intros H.
destruct (port =? UHYVE_PORT_WRITE);
  [exfalso; exact (hypercall_write_never_exits _ _ _ _ H) |].
destruct (port =? UHYVE_PORT_READ);
  [exfalso; exact (hypercall_read_never_exits _ _ _ _ H) |].
destruct (port =? UHYVE_PORT_EXIT) eqn:E;
  [right; now apply Z.eqb_eq |].
destruct (port =? UHYVE_PORT_OPEN);
  [exfalso; exact (hypercall_open_never_exits _ _ _ _ H) |].
destruct (port =? UHYVE_PORT_CLOSE);
  [exfalso; exact (hypercall_close_never_exits _ _ _ _ H) |].
destruct (port =? UHYVE_PORT_LSEEK);
  [exfalso; exact (hypercall_lseek_never_exits _ _ _ _ H) |].
destruct (port =? UHYVE_PORT_NETINFO);
  [exfalso; exact (hypercall_netinfo_never_exits _ _ _ _ H) |].
destruct (port =? UHYVE_PORT_NETWRITE);
  [exfalso; exact (hypercall_netwrite_never_exits _ _ _ _ H) |].
destruct (port =? UHYVE_PORT_NETREAD);
  [exfalso; exact (hypercall_netread_never_exits _ _ _ _ H) |].
left. exact (err_exits_one _ _ _ _ H).
Qed.

Lemma bind_exit_inv {A B} (c : M A) (k : A -> M B) s st s' :
bind c k s = Exit st s' ->
c s = Exit st s' \/ exists a s1, c s = Ret a s1 /\ k a s1 = Exit st s'.
Proof.
unfold bind. destruct (c s) as [a s1 | st1 s1 | | |]; try discriminate.
- intros H. right. now exists a, s1.
- intros H. left. now inversion H.
Qed.

Lemma run_loop_exit runs : forall s st s',
run_loop host runs s = Exit st s' ->
st = 1 \/ existsb exit_request runs = true.
Proof.
induction runs as [| run runs IH]; intros s st s' H; [discriminate H |].
cbn [run_loop] in H.
apply bind_exit_inv in H. destruct H as [H | (s0 & s1 & _ & H)];
  [discriminate H |].
apply bind_exit_inv in H. destruct H as [H | (u & s2 & _ & H)];
  [discriminate H |].
destruct run as [[| pa | port dir data | re | se | | re] | errno];
  try (left; exact (err_exits_one _ _ _ _ H)).
- apply bind_exit_inv in H. destruct H as [H | (u' & s3 & _ & H)];
    discriminate H.
- apply bind_exit_inv in H. destruct H as [H | (u' & s3 & _ & H)].
  + destruct (handle_io_exit _ _ _ _ _ _ H) as [-> | ->]; [now left |].
    right. reflexivity.
  + destruct (IH _ _ _ H) as [-> | Hex]; [now left |].
    right. cbn [existsb]. rewrite Hex. apply orb_true_r.
Qed.

End LoopExits.

(** X16.  The EXIT request ends the process with the status word the guest
    put at [data], whatever exits would have followed, and leaves guest
    memory alone.  It is the only way the loop ends the process with a
    status other than 1: every other [exit] of [vcpu_loop] is an [err(1)]
    or [exit(EXIT_FAILURE)], and no other handler exits. *)
Theorem exit_hypercall_status (host : Machine.Host)
    (runs : list Kvm.run_result) (s : Machine.state) :
  (forall m direction data,
     Machine.guest_mem s = Some m ->
     Uhyve.in_guest s data 4 = true ->
     Uhyve.run_loop host
       (Kvm.RunExit (Kvm.KVM_EXIT_IO Uhyve.UHYVE_PORT_EXIT direction data) :: runs) s =
     Machine.Exit (Int.to_int (Mem.load_le 4 m data))
       (Machine.set_trace
          (Machine.trace s ++ [Machine.EvIoctl (Machine.vcpufd s) Kvm.KVM_RUN]) s))
  /\ (forall status s',
        Uhyve.vcpu_loop host runs s = Machine.Exit status s' ->
        status = 1 \/ existsb Props.exit_request runs = true).
Proof.
  split.
  - intros m direction data Hmem Hin.
    cbn [Uhyve.run_loop].
    unfold Machine.bind at 1. unfold Machine.get.
    unfold Machine.bind at 1. unfold Machine.emit, Machine.modify.
    unfold Machine.bind at 1.
    unfold Uhyve.handle_io.
    change (Uhyve.UHYVE_PORT_EXIT =? Uhyve.UHYVE_PORT_WRITE) with false.
    change (Uhyve.UHYVE_PORT_EXIT =? Uhyve.UHYVE_PORT_READ) with false.
    change (Uhyve.UHYVE_PORT_EXIT =? Uhyve.UHYVE_PORT_EXIT) with true.
    cbv iota. unfold Uhyve.hypercall_exit. unfold Machine.bind at 1.
    erewrite guest_load_ok; [reflexivity | exact Hmem | exact Hin].
  - intros status s' H. unfold Uhyve.vcpu_loop in H.
    apply bind_exit_inv in H. destruct H as [H | (s0 & s1 & _ & H)];
      [discriminate H |].
    apply bind_exit_inv in H. destruct H as [H | (u1 & s2 & _ & H)].
    { left. unfold Uhyve.kvm_ioctl in H.
      apply bind_exit_inv in H. destruct H as [H | (u & s3 & _ & H)];
        [discriminate H |].
      destruct (Machine.ioctl host (Machine.vcpufd s0) Kvm.KVM_GET_MP_STATE =? -1);
        [exact (err_exits_one _ _ _ _ H) | discriminate H]. }
    apply bind_exit_inv in H. destruct H as [H | (u2 & s3 & _ & H)].
    { left.
      destruct (negb (Machine.initial_mp_state host =? Kvm.KVM_MP_STATE_RUNNABLE));
        [| discriminate H].
      apply bind_exit_inv in H. destruct H as [H | (u & s4 & _ & H)];
        [| discriminate H].
      unfold Uhyve.kvm_ioctl in H.
      apply bind_exit_inv in H. destruct H as [H | (u & s4 & _ & H)];
        [discriminate H |].
      match type of H with
      | (if ?c then _ else _) _ = _ => destruct c
      end; [exact (err_exits_one _ _ _ _ H) | discriminate H]. }
    exact (run_loop_exit host runs s3 status s' H).
Qed.

Lemma exit_hypercall_status_witness :
  Uhyve.run_loop (Demo.host Demo.no_env [])
    [Kvm.RunExit (Kvm.KVM_EXIT_IO 0x503 1 0x3000); Kvm.RunExit Kvm.KVM_EXIT_HLT]
    (Demo.running (Demo.exit_record 42)) =
  Machine.Exit 42
    (Machine.set_trace [Machine.EvIoctl 5 Kvm.KVM_RUN]
       (Demo.running (Demo.exit_record 42)))
  /\ (42 = 1 \/
      existsb Props.exit_request
        [Kvm.RunExit (Kvm.KVM_EXIT_IO 0x501 1 0x2000);
         Kvm.RunExit (Kvm.KVM_EXIT_IO 0x503 1 0x3000)] = true).
Proof.
  split.
  - exact (proj1 (exit_hypercall_status (Demo.host Demo.no_env [])
                    [Kvm.RunExit Kvm.KVM_EXIT_HLT]
                    (Demo.running (Demo.exit_record 42)))
                 (Demo.exit_record 42) 1 0x3000 eq_refl eq_refl).
  - refine (proj2 (exit_hypercall_status (Demo.host Demo.no_env [])
                    [Kvm.RunExit (Kvm.KVM_EXIT_IO 0x501 1 0x2000);
                     Kvm.RunExit (Kvm.KVM_EXIT_IO 0x503 1 0x3000)]
                    (Demo.running (Demo.exit_record 42))) 42 _ _).
    apply ending_exit. vm_compute. reflexivity.
Defined.

(** ** The NETWRITE hypercall *)

Section NetwriteFacts.
Import Int.

Lemma to_int_range x : - 2 ^ 31 <= to_int x < 2 ^ 31.
Proof.
unfold to_int. pose proof (wrap32_range x) as H. unfold two32 in *.
destruct (wrap32 x <? 2 ^ 31) eqn:E;
  [apply Z.ltb_lt in E | apply Z.ltb_ge in E]; lia.
Qed.

(** An [int] converted to [size_t] is below 2^31 or in the top 2^31
values. *)
Lemma wrap64_to_int_range x :
0 <= wrap64 (to_int x) < 2 ^ 31 \/ 2 ^ 64 - 2 ^ 31 <= wrap64 (to_int x) < 2 ^ 64.
Proof.
pose proof (to_int_range x) as H. unfold wrap64, two64.
destruct (Z.neg_nonneg_cases (to_int x)) as [Hneg | Hpos].
- right. rewrite <- (Z_mod_plus_full (to_int x) 1 (2 ^ 64)).
  rewrite Z.mod_small by lia. lia.
- left. rewrite Z.mod_small by lia. lia.
Qed.

End NetwriteFacts.

(** X17.  The NETWRITE handler writes the guest buffer to the TAP
    descriptor and compares the requested [len], a [size_t], with the result
    kept in an [int]: when they agree it stores 0 in [ret] and changes
    nothing else; when they differ -- a short or failed write -- the
    assertion aborts the monitor with guest memory untouched.  A request of
    2^31 bytes or more (below 2^64 - 2^31) aborts whatever [write]
    returns. *)
Theorem netwrite_hypercall (host : Machine.Host) (data : Z)
    (s : Machine.state) (m : Mem.mem)
    (Hmem : Machine.guest_mem s = Some m)
    (Hin : Uhyve.in_guest s data 20 = true) :
  let buf := Uhyve.net_data m data in
  let len := Uhyve.net_len m data in
  let r := Int.to_int (Machine.sys_write host (Machine.netfd s) buf len) in
  let s0 := Machine.set_trace
              (Machine.trace s ++ [Machine.EvWrite (Machine.netfd s) buf len]) s in
  (len = Int.wrap64 r ->
     let m' := Mem.store_le 4 m (data + 16) 0 in
     Uhyve.hypercall_netwrite host data s =
       Machine.Ret tt (Machine.set_guest_mem (Some m') s0)
     /\ Uhyve.net_ret m' data = 0
     /\ forall x, x < data + 16 \/ data + 20 <= x -> m' x = m x)
  /\ (len <> Int.wrap64 r ->
        Uhyve.hypercall_netwrite host data s = Machine.Abort s0)
  /\ (2 ^ 31 <= len < 2 ^ 64 - 2 ^ 31 ->
        Uhyve.hypercall_netwrite host data s = Machine.Abort s0).
Proof.
  cbv zeta.
  assert (H0 : Uhyve.in_guest s data (Z.of_nat 8) = true)
    by (eapply in_guest_sub; [exact Hin | lia ..]).
  assert (H8 : Uhyve.in_guest s (data + 8) (Z.of_nat 8) = true)
    by (eapply in_guest_sub; [exact Hin | lia ..]).
  assert (H16 : Uhyve.in_guest s (data + 16) (Z.of_nat 4) = true)
    by (eapply in_guest_sub; [exact Hin | lia ..]).
  assert (Hrun : Uhyve.hypercall_netwrite host data s =
            Machine.bind
              (Machine.c_assert
                 (Uhyve.net_len m data =?
                  Int.wrap64
                    (Int.to_int
                       (Machine.sys_write host (Machine.netfd s)
                          (Uhyve.net_data m data) (Uhyve.net_len m data)))))
              (fun _ => Uhyve.guest_store 4 (data + 16) 0)
              (Machine.set_trace
                 (Machine.trace s
                  ++ [Machine.EvWrite (Machine.netfd s) (Uhyve.net_data m data)
                        (Uhyve.net_len m data)]) s)).
  { unfold Uhyve.hypercall_netwrite.
    unfold Machine.bind at 1. rewrite (guest_load_ok _ _ _ _ Hmem H0).
    unfold Machine.bind at 1. rewrite (guest_load_ok _ _ _ _ Hmem H8).
    reflexivity. }
  assert (Hbad : Uhyve.net_len m data <>
                 Int.wrap64 (Int.to_int (Machine.sys_write host (Machine.netfd s)
                      (Uhyve.net_data m data) (Uhyve.net_len m data))) ->
                 Uhyve.hypercall_netwrite host data s =
                 Machine.Abort
                   (Machine.set_trace
                      (Machine.trace s
                       ++ [Machine.EvWrite (Machine.netfd s) (Uhyve.net_data m data)
                             (Uhyve.net_len m data)]) s)).
  { intros Hne. rewrite Hrun. apply Z.eqb_neq in Hne. rewrite Hne. reflexivity. }
  split; [| split].
  - intros Heq. split; [| split].
    + rewrite Hrun. apply Z.eqb_eq in Heq. rewrite Heq.
      unfold Machine.c_assert. unfold Machine.bind at 1. unfold Machine.ret at 1.
      erewrite guest_store_ok; [reflexivity | exact Hmem | exact H16].
    + unfold Uhyve.net_ret. rewrite load_store_same. reflexivity.
    + intros x Hx. apply store_le_outside. change (Z.of_nat 4) with 4. lia.
  - exact Hbad.
  - intros Hbig. apply Hbad. intros Heq.
    pose proof (wrap64_to_int_range (Machine.sys_write host (Machine.netfd s)
                  (Uhyve.net_data m data) (Uhyve.net_len m data))) as Hr.
    rewrite <- Heq in Hr. lia.
Qed.

Lemma netwrite_hypercall_witness :
  Uhyve.hypercall_netwrite (Demo.host Demo.no_env []) 0x3000
    (Demo.networking (Demo.netwrite_record 60) []) =
    Machine.Ret tt
      (Machine.set_guest_mem
         (Some (Mem.store_le 4 (Demo.netwrite_record 60) 0x3010 0))
         (Machine.set_trace [Machine.EvWrite 8 0x4000 60]
            (Demo.networking (Demo.netwrite_record 60) [])))
  /\ Uhyve.hypercall_netwrite Demo.file_host 0x3000
       (Demo.networking (Demo.netwrite_record 60) []) =
     Machine.Abort
       (Machine.set_trace [Machine.EvWrite 8 0x4000 60]
          (Demo.networking (Demo.netwrite_record 60) []))
  /\ Uhyve.hypercall_netwrite (Demo.host Demo.no_env []) 0x3000
       (Demo.networking (Demo.netwrite_record 0x80000000) []) =
     Machine.Abort
       (Machine.set_trace [Machine.EvWrite 8 0x4000 0x80000000]
          (Demo.networking (Demo.netwrite_record 0x80000000) [])).
Proof.
  split; [| split].
  - exact (proj1 (proj1 (netwrite_hypercall (Demo.host Demo.no_env []) 0x3000
                    (Demo.networking (Demo.netwrite_record 60) [])
                    (Demo.netwrite_record 60) eq_refl eq_refl) eq_refl)).
  - refine (proj1 (proj2 (netwrite_hypercall Demo.file_host 0x3000
                    (Demo.networking (Demo.netwrite_record 60) [])
                    (Demo.netwrite_record 60) eq_refl eq_refl)) _).
    vm_compute. intros H; discriminate H.
  - refine (proj2 (proj2 (netwrite_hypercall (Demo.host Demo.no_env []) 0x3000
                    (Demo.networking (Demo.netwrite_record 0x80000000) [])
                    (Demo.netwrite_record 0x80000000) eq_refl eq_refl)) _).
    vm_compute. split; [intros H; discriminate H | reflexivity].
Defined.

(** ** The exit hook after a failed start *)

(** X18.  [vcpufd] starts out as 1, not -1.  When the monitor, started
    afresh, cannot open [/dev/kvm], [uhyve_init] exits with status 1 before
    any vCPU exists, and the exit hook it has registered then closes
    descriptor 1 -- the standard output -- and nothing else. *)
Theorem exit_hook_after_failed_init (host : Machine.Host) (abi : byte)
    (path : string) (sr : Kvm.kvm_sregs) (ps : list Machine.pread_event)
    (ts : list Machine.read_result)
    (Hkvm : Machine.open_kvm host = -1) :
  exists s1 s2,
    Uhyve.uhyve_init host abi path (Machine.initial_state sr ps ts)
      = Machine.Exit 1 s1
    /\ In Machine.EvAtexit (Machine.trace s1)
    /\ Uhyve.uhyve_exit host s1 = Machine.Ret tt s2
    /\ Props.closes (Machine.trace s2) = [1].
Proof.
  unfold Uhyve.uhyve_init, Uhyve.uhyve_exit, Machine.err, Machine.bind,
    Machine.emit, Machine.modify, Machine.get, Machine.ret, Machine.exit.
  rewrite Hkvm.
  destruct (Machine.getenv host "HERMIT_MEM") as [str |]; cbn;
    (eexists; eexists; split; [reflexivity |]; split; [cbn; auto |];
     split; [reflexivity | reflexivity]).
Qed.

Lemma exit_hook_after_failed_init_witness :
  exists s1 s2,
    Uhyve.uhyve_init
      (Machine.mkHost Demo.no_env (fun _ => None) (-1) (fun _ _ => 0)
         Demo.reset_sregs 0 [] 2352 (fun _ => true) (fun _ => true)
         (fun _ => x00) None None (fun _ => 0) (fun _ _ len => len)
         (fun _ _ _ => 7) (fun _ off _ => off)
         (fun _ _ => Machine.ReadBytes []) 100 (fun id => 100 + id)
         (fun _ => 8) [])
      Demo.osabi "kernel" Demo.start = Machine.Exit 1 s1
    /\ Uhyve.uhyve_exit
         (Machine.mkHost Demo.no_env (fun _ => None) (-1) (fun _ _ => 0)
            Demo.reset_sregs 0 [] 2352 (fun _ => true) (fun _ => true)
            (fun _ => x00) None None (fun _ => 0) (fun _ _ len => len)
            (fun _ _ _ => 7) (fun _ off _ => off)
            (fun _ _ => Machine.ReadBytes []) 100 (fun id => 100 + id)
            (fun _ => 8) []) s1 = Machine.Ret tt s2
    /\ Props.closes (Machine.trace s2) = [1].
Proof.
  destruct (exit_hook_after_failed_init
              (Machine.mkHost Demo.no_env (fun _ => None) (-1) (fun _ _ => 0)
                 Demo.reset_sregs 0 [] 2352 (fun _ => true) (fun _ => true)
                 (fun _ => x00) None None (fun _ => 0) (fun _ _ len => len)
                 (fun _ _ _ => 7) (fun _ off _ => off)
                 (fun _ _ => Machine.ReadBytes []) 100 (fun id => 100 + id)
                 (fun _ => 8) [])
              Demo.osabi "kernel" Demo.reset_sregs [] [] eq_refl)
    as (s1 & s2 & H1 & _ & H2 & H3).
  exists s1, s2. split; [exact H1 | split; [exact H2 | exact H3]].
Defined.

(** ** What [load_kernel] records about the image *)

Section AnchorFacts.
Import Int Mem Machine Elf Uhyve Props.

Lemma anchored_set phs a b e : anchored phs (Some a, Some b, e) = (Some a, Some b, e).
Proof.
induction phs as [| ph rest IH]; [reflexivity |].
cbn [anchored]. destruct (is_load ph); exact IH.
Qed.

Lemma anchored_fresh phs e :
anchored phs (None, None, e) =
  match first_load phs with
  | Some ph => (Some (p_paddr ph), Some (p_paddr ph + 0x5000), e)
  | None => (None, None, e)
  end.
Proof.
unfold first_load.
induction phs as [| ph rest IH]; [reflexivity |].
cbn [anchored find]. destruct (is_load ph); [| exact IH].
apply anchored_set.
Qed.

End AnchorFacts.

(** X19.  On a loadable image [load_kernel] records the entry point of the
    ELF header in [elf_entry] and, when [mboot] and [klog] are still [NULL],
    points [mboot] at the first loadable segment and [klog] 0x5000 bytes
    into it; later segments do not move them.  An image without a loadable
    segment leaves both [NULL]. *)
Theorem load_kernel_anchors (host : Machine.Host) (abi : byte)
    (path : string) (fd : Z) (file : list byte) (s : Machine.state)
    (m : Mem.mem)
    (Hopen : Machine.open_file host path = Some (fd, file))
    (Hmem : Machine.guest_mem s = Some m)
    (Hsize : Machine.guest_size s < Uhyve.KVM_32BIT_GAP_SIZE)
    (Hscript : forallb Props.benign (Machine.pread_script s) = true)
    (Hok : Props.loadable host abi file (Machine.guest_size s) = true)
    (Hmboot : Machine.mboot s = None)
    (Hklog : Machine.klog s = None) :
  exists s',
    Uhyve.load_kernel host abi path s = Machine.Ret 0 s'
    /\ Machine.elf_entry s' = Elf.e_entry (Props.image_ehdr file)
    /\ match Props.first_load (Props.image_phdrs file) with
       | Some ph =>
           Machine.mboot s' = Some (Elf.p_paddr ph)
           /\ Machine.klog s' = Some (Elf.p_paddr ph + 0x5000)
       | None => Machine.mboot s' = None /\ Machine.klog s' = None
       end.
Proof.
  destruct (load_kernel_ok host abi file path fd s m (Machine.guest_size s)
              Hopen ltac:(repeat split; assumption) Hsize Hok)
    as (s' & Hrun & _ & Ha & _).
  exists s'. split; [exact Hrun |].
  rewrite Hmboot, Hklog, anchored_fresh in Ha. unfold Props.anchors in Ha.
  destruct (Props.first_load (Props.image_phdrs file)) as [ph |];
    inversion Ha; auto.
Qed.

Lemma load_kernel_anchors_witness :
  exists s',
    Uhyve.load_kernel (Demo.host Demo.no_env Demo.image) Demo.osabi "kernel"
      (Demo.running Mem.zero_mem) = Machine.Ret 0 s'
    /\ Machine.elf_entry s' = Elf.e_entry (Props.image_ehdr Demo.image)
    /\ Machine.mboot s' = Some 0x800000
    /\ Machine.klog s' = Some 0x805000.
Proof.
  destruct (load_kernel_anchors (Demo.host Demo.no_env Demo.image) Demo.osabi
              "kernel" 6 Demo.image (Demo.running Mem.zero_mem) Mem.zero_mem
              eq_refl eq_refl eq_refl eq_refl
              ltac:(vm_compute; reflexivity) eq_refl eq_refl)
    as (s' & Hrun & He & Hm).
  exists s'. split; [exact Hrun |]. split; [exact He |].
  change (Props.first_load (Props.image_phdrs Demo.image))
    with (Some Demo.text_phdr) in Hm.
  exact Hm.
Defined.

(** ** Starting the cores: [uhyve_loop] *)

Section CoreFacts.
Import Int Mem Machine Uhyve Props.

Variable host : Host.

(** The [for (i = 1; i < ncores; i++) pthread_create(...)] loop fills the
  zeroed array from index [i] on. *)
Lemma create_threads_ok todo : forall i pre s,
  length pre = Z.to_nat i -> 0 <= i ->
  create_threads host todo i (pre ++ repeat 0 todo) s =
    Ret (pre ++ map (thread_id host) (map Z.of_nat (seq (Z.to_nat i) todo)))
        (set_trace
           (trace s ++ map EvCreate (map Z.of_nat (seq (Z.to_nat i) todo))) s).
Proof.
  induction todo as [| todo IH]; intros i pre s Hlen Hi.
  - cbn. rewrite !app_nil_r, set_trace_same. reflexivity.
  - cbn [create_threads repeat seq map].
    unfold bind at 1. unfold emit, modify.
    rewrite <- Hlen at 1 2.
    rewrite firstn_app, firstn_all, Nat.sub_diag, firstn_O, app_nil_r.
    replace (S (length pre)) with (length (pre ++ [0]))
      by (rewrite length_app; cbn; lia).
    replace (pre ++ 0 :: repeat 0 todo) with ((pre ++ [0]) ++ repeat 0 todo)
      by (rewrite <- app_assoc; reflexivity).
    rewrite skipn_app, skipn_all, Nat.sub_diag, skipn_O. cbn [app].
    replace (pre ++ thread_id host i :: repeat 0 todo)
      with ((pre ++ [thread_id host i]) ++ repeat 0 todo)
      by (rewrite <- app_assoc; reflexivity).
    rewrite IH by (try rewrite length_app; cbn; lia).
    replace (Z.to_nat (i + 1)) with (S (Z.to_nat i)) by lia.
    rewrite Z2Nat.id by lia.
    f_equal.
    + rewrite <- app_assoc. reflexivity.
    + change (trace (set_trace (trace s ++ [EvCreate i]) s))
        with (trace s ++ [EvCreate i]).
      rewrite <- app_assoc. reflexivity.
Qed.

End CoreFacts.



(** ** The exit hook after the cores were started *)

Section HookFacts.
Import Int Mem Machine Uhyve Props.

Variable host : Host.

(** What the exit hook does, on any state whose thread array holds
  [ncores] handles. *)
Lemma exit_hook_runs s :
  match vcpu_threads s with
  | Some threads => (Z.to_nat (ncores s) <= length threads)%nat
  | None => True
  end ->
  uhyve_exit host s =
    Ret tt
      (set_kvm (-1) (set_vmfd (-1) (set_vcpufd (-1)
         (set_trace
            (trace s
             ++ match vcpu_threads s with
                | Some threads =>
                    stop_events (pthread_self host)
                      (firstn (Z.to_nat (ncores s)) threads)
                    ++ [EvFree]
                | None => []
                end
             ++ klog_dump host s
             ++ close_if_open (vcpufd s)
             ++ close_if_open (vmfd s)
             ++ close_if_open (kvm s))
            s)))).
Proof.
  intros Hthreads.
  unfold uhyve_exit, klog_dump, close_if_open.
  unfold bind at 1. unfold get at 1.
  unfold bind at 1.
  assert (Hstop :
    (match vcpu_threads s with
     | Some threads =>
         bind (stop_threads host (Z.to_nat (ncores s)) 0 threads)
           (fun _ => emit EvFree)
     | None => ret tt
     end) s =
    Ret tt
      (set_trace
         (trace s
          ++ match vcpu_threads s with
             | Some threads =>
                 stop_events (pthread_self host)
                   (firstn (Z.to_nat (ncores s)) threads)
                 ++ [EvFree]
             | None => []
             end) s)).
  { destruct (vcpu_threads s) as [threads |].
    - unfold bind. rewrite stop_threads_trace by (cbn; lia).
      unfold emit, modify. cbn.
      rewrite <- app_assoc. reflexivity.
    - cbn. rewrite app_nil_r, set_trace_same. reflexivity. }
  rewrite Hstop. clear Hstop.
  destruct (vcpu_threads s) as [threads |];
    destruct (klog s) as [k |];
    destruct (getenv host "HERMIT_VERBOSE") as [v |];
    try destruct (String.eqb v "0");
    destruct (vcpufd s =? -1);
    destruct (vmfd s =? -1);
    destruct (kvm s =? -1);
    cbn; rewrite <- ?app_assoc; cbn; rewrite ?app_nil_r; reflexivity.
Qed.

Lemma stop_events_peers self (ids : list Z) :
  (forall i, In i ids -> thread_id host i <> self) ->
  stop_events self (map (thread_id host) ids) =
    flat_map (fun i => [EvKill (thread_id host i) SIGTERM; EvJoin (thread_id host i)])
      ids.
Proof.
  induction ids as [| i ids IH]; intros Hne; [reflexivity |].
  cbn [map stop_events flat_map].
  replace (thread_id host i =? self) with false
    by (symmetry; apply Z.eqb_neq; apply Hne; now left).
  fold (stop_events self (map (thread_id host) ids)).
  rewrite IH by (intros j Hj; apply Hne; now right). reflexivity.
Qed.

Lemma peer_ids_length n : length (peer_ids n) = (Z.to_nat n - 1)%nat.
Proof. unfold peer_ids. now rewrite length_map, length_seq. Qed.

End HookFacts.

(** X21.  The exit hook undoes what [uhyve_loop] started.  Run in the state
    in which [uhyve_loop] enters [vcpu_loop] with [n > 0] cores, and if no
    peer handle equals the handle of the calling thread, it sends [SIGTERM]
    to the threads of the vCPUs 1 to [n - 1], each once and in the order of
    their creation, joining each before signalling the next, never to the
    calling thread; it then frees the array, dumps the log if asked to, and
    closes the three descriptors. *)
Theorem exit_hook_stops_started_cores (host : Machine.Host)
    (s : Machine.state) (m : Mem.mem) (mb : Z)
    (Hpos : 0 < Props.requested_cores host s)
    (Hself : forall i, In i (Props.peer_ids (Props.requested_cores host s)) ->
               Machine.thread_id host i <> Machine.pthread_self host) :
  let s1 := Props.cores_started host mb m s in
  Uhyve.uhyve_exit host s1 =
    Machine.Ret tt
      (Machine.set_kvm (-1) (Machine.set_vmfd (-1) (Machine.set_vcpufd (-1)
         (Machine.set_trace
            (Machine.trace s1
             ++ flat_map
                  (fun i => [Machine.EvKill (Machine.thread_id host i) Machine.SIGTERM;
                             Machine.EvJoin (Machine.thread_id host i)])
                  (Props.peer_ids (Props.requested_cores host s))
             ++ [Machine.EvFree]
             ++ Props.klog_dump host s
             ++ Props.close_if_open (Machine.vcpufd s)
             ++ Props.close_if_open (Machine.vmfd s)
             ++ Props.close_if_open (Machine.kvm s))
            s1)))).
Proof.
  cbv zeta.
  assert (Hthreads : Machine.vcpu_threads (Props.cores_started host mb m s) =
            Some (Machine.pthread_self host
                  :: map (Machine.thread_id host)
                       (Props.peer_ids (Props.requested_cores host s))))
    by (unfold Props.cores_started; cbv zeta;
        destruct (Machine.getenv host "HERMIT_NETIF"); reflexivity).
  assert (Hn : Machine.ncores (Props.cores_started host mb m s) =
               Props.requested_cores host s)
    by (unfold Props.cores_started; cbv zeta;
        destruct (Machine.getenv host "HERMIT_NETIF"); reflexivity).
  assert (Hfds : Machine.vcpufd (Props.cores_started host mb m s) = Machine.vcpufd s
                 /\ Machine.vmfd (Props.cores_started host mb m s) = Machine.vmfd s
                 /\ Machine.kvm (Props.cores_started host mb m s) = Machine.kvm s
                 /\ Props.klog_dump host (Props.cores_started host mb m s) =
                    Props.klog_dump host s)
    by (unfold Props.cores_started; cbv zeta;
        destruct (Machine.getenv host "HERMIT_NETIF"); repeat split; reflexivity).
  destruct Hfds as (Hv & Hvm & Hk & Hdump).
  rewrite exit_hook_runs.
  2:{ rewrite Hthreads, Hn. cbn [length]. rewrite length_map, peer_ids_length. lia. }
  rewrite Hthreads, Hn, Hv, Hvm, Hk, Hdump.
  rewrite firstn_all2
    by (cbn [length]; rewrite length_map, peer_ids_length; lia).
  cbn [Props.stop_events flat_map].
  rewrite Z.eqb_refl. cbn [app].
  fold (Props.stop_events (Machine.pthread_self host)
          (map (Machine.thread_id host)
             (Props.peer_ids (Props.requested_cores host s)))).
  rewrite stop_events_peers by exact Hself.
  rewrite <- !app_assoc. reflexivity.
Qed.

Lemma exit_hook_stops_started_cores_witness :
  exists s',
    Uhyve.uhyve_exit (Demo.host (Demo.cpus_env "3") [])
      (Props.cores_started (Demo.host (Demo.cpus_env "3") []) 0x800000
         Mem.zero_mem Demo.loaded) = Machine.Ret tt s'
    /\ Machine.trace s' =
         [Machine.EvClflush 0x800024; Machine.EvCreate 1; Machine.EvCreate 2;
          Machine.EvKill 101 Machine.SIGTERM; Machine.EvJoin 101;
          Machine.EvKill 102 Machine.SIGTERM; Machine.EvJoin 102;
          Machine.EvFree;
          Machine.EvClose 5; Machine.EvClose 4; Machine.EvClose 3].
Proof.
  eexists. split.
  - apply (exit_hook_stops_started_cores (Demo.host (Demo.cpus_env "3") [])
             Demo.loaded Mem.zero_mem 0x800000 eq_refl).
    intros i Hi. vm_compute in Hi.
    destruct Hi as [<- | [<- | []]]; intros H; discriminate H.
  - vm_compute. reflexivity.
Defined.

(** ** Bringing up the boot processor *)

Section BootFacts.
Import Int Mem Machine Elf Uhyve Props.

Variable host : Host.

Lemma kvm_ioctl_ok fd req s :
  ioctl host fd req <> -1 ->
  kvm_ioctl host fd req s =
    Ret (ioctl host fd req) (set_trace (trace s ++ [EvIoctl fd req]) s).
Proof.
  intros H. unfold kvm_ioctl, bind, emit, modify. cbv zeta.
  apply Z.eqb_neq in H. rewrite H. reflexivity.
Qed.

Lemma page_tables_mem_outside gs m x :
  0 <= gs <= 0x40000000 ->
  x < BOOT_PML4 \/ BOOT_PDE + 4096 <= x ->
  page_tables_mem gs m x = m x.
Proof.
  intros Hgs Hx. unfold page_tables_mem.
  assert (HP : GUEST_PAGE_SIZE = 0x200000) by reflexivity.
  assert (Hq : 0 <= gs / GUEST_PAGE_SIZE <= 512).
  { rewrite HP. split; [apply Z.div_pos; lia |].
    apply Z.div_le_upper_bound; lia. }
  unfold BOOT_PML4, BOOT_PDPTE, BOOT_PDE in *.
  rewrite fill_pde_outside by lia.
  rewrite !store_le_outside by (change (Z.of_nat 8) with 8; lia).
  rewrite !memset_outside by lia.
  reflexivity.
Qed.

(** The GDT is three descriptors at [BOOT_GDT]; nothing else of guest
  memory is touched, and of the special registers only the segments and
  the GDT pointer. *)
Lemma setup_system_gdt_ok s m :
  guest_mem s = Some m ->
  BOOT_GDT + 8 * BOOT_GDT_MAX <= guest_size s ->
  exists sr m',
    setup_system_gdt BOOT_GDT s =
      Ret tt (set_sregs sr (set_guest_mem (Some m') s))
    /\ (forall x, x < BOOT_GDT \/ BOOT_GDT + 8 * BOOT_GDT_MAX <= x -> m' x = m x)
    /\ Kvm.gdt sr = Kvm.mkDtable BOOT_GDT (8 * BOOT_GDT_MAX - 1)
    /\ Kvm.cr0 sr = Kvm.cr0 (sregs s) /\ Kvm.cr4 sr = Kvm.cr4 (sregs s)
    /\ Kvm.efer sr = Kvm.efer (sregs s).
Proof.
  intros Hm Hgs.
  unfold BOOT_GDT, BOOT_GDT_MAX in Hgs.
  assert (Hin : forall a s1 m1, guest_mem s1 = Some m1 ->
                  guest_size s1 = guest_size s ->
                  0x1000 <= a -> a + 8 <= 0x1018 ->
                  in_guest s1 a (Z.of_nat 8) = true).
  { intros a s1 m1 Hm1 Hs1 Ha Hb.
    eapply in_guest_intro; [exact Hm1 | lia | lia |].
    rewrite Hs1. change (Z.of_nat 8) with 8. lia. }
  unfold setup_system_gdt. cbv zeta.
  unfold BOOT_GDT, BOOT_GDT_NULL, BOOT_GDT_CODE, BOOT_GDT_DATA, BOOT_GDT_MAX.
  unfold bind at 1.
  erewrite guest_store_ok; [| exact Hm | eapply Hin; [exact Hm | reflexivity | lia | lia]].
  unfold bind at 1.
  erewrite guest_store_ok;
    [| reflexivity | eapply Hin; [reflexivity | reflexivity | lia | lia]].
  unfold bind at 1.
  erewrite guest_store_ok;
    [| reflexivity | eapply Hin; [reflexivity | reflexivity | lia | lia]].
  unfold bind at 1.
  erewrite guest_load_ok;
    [| reflexivity | eapply Hin; [reflexivity | reflexivity | lia | lia]].
  unfold bind at 1.
  erewrite guest_load_ok;
    [| reflexivity | eapply Hin; [reflexivity | reflexivity | lia | lia]].
  unfold modify_sregs, modify.
  eexists. eexists. split; [reflexivity |]. split; [| repeat split].
  intros x Hx.
  rewrite !store_le_outside by (change (Z.of_nat 8) with 8; lia).
  reflexivity.
Qed.

Hypothesis Hio : kvm_works host.

(** [setup_system] for the boot processor. *)
Lemma setup_system_ok fd s m :
  guest_mem s = Some m ->
  guest_size s mod GUEST_PAGE_SIZE = 0 ->
  0 < guest_size s <= 0x40000000 ->
  exists sr m',
    setup_system host fd 0 s =
      Ret tt
        (set_trace
           (trace s ++ [EvIoctl fd Kvm.KVM_GET_SREGS;
                        EvIoctl fd (Kvm.KVM_SET_SREGS sr)])
           (set_sregs sr (set_guest_mem (Some m') s)))
    /\ (forall x, boot_structure x = false -> m' x = m x)
    /\ long_mode (initial_sregs host) sr.
Proof.
  intros Hm Hmult Hsize.
  assert (HP : GUEST_PAGE_SIZE = 0x200000) by reflexivity.
  assert (Hbig : 0x200000 <= guest_size s).
  { rewrite HP in Hmult.
    pose proof (Z.div_exact (guest_size s) 0x200000 ltac:(lia)) as [_ H].
    specialize (H Hmult). lia. }
  unfold setup_system. change (0 =? 0) with true. cbv iota.
  unfold bind at 1. unfold bind at 1.
  rewrite kvm_ioctl_ok by apply Hio.
  unfold bind at 1. unfold modify at 1.
  unfold bind at 1.
  match goal with
  | |- context [setup_system_gdt BOOT_GDT ?S] => set (s1 := S)
  end.
  destruct (setup_system_gdt_ok s1 m Hm
              ltac:(unfold BOOT_GDT, BOOT_GDT_MAX; change (guest_size s1) with (guest_size s); lia))
    as (sr1 & m1 & Hgdt & Hout1 & Hdt & Hcr0 & Hcr4 & Hefer).
rewrite Hgdt. unfold bind at 1.
  match goal with
  | |- context [setup_system_page_tables ?S] => set (s2 := S)
  end.
  rewrite (setup_system_page_tables_runs s2 m1 eq_refl Hmult Hsize).
  unfold setup_system_64bit, modify_sregs.
  unfold bind at 1. unfold modify at 1.
  unfold modify at 1.
  unfold bind at 1. unfold get at 1.
  unfold bind at 1.
  rewrite kvm_ioctl_ok by apply Hio.
  unfold ret.
  eexists. eexists. split.
  - unfold s2, s1. cbn [trace set_trace set_sregs set_guest_mem sregs
                         ncores guest_mem klog mboot guest_size elf_entry
                         vcpu_threads kvm vmfd netfd run_mapped vcpufd
                         pread_script tap_script].
    rewrite <- app_assoc. reflexivity.
  - split.
    2:{ unfold long_mode.
        cbn [Kvm.cr3 Kvm.cr0 Kvm.cr4 Kvm.efer Kvm.gdt sregs set_sregs set_guest_mem
             page_tables_sregs set_cr0 set_cr3 set_cr4 set_efer].
        rewrite Hcr0, Hcr4, Hefer, Hdt. repeat split. }
    intros x Hx. unfold boot_structure in Hx.
apply orb_false_iff in Hx. destruct Hx as [Hx1 Hx2].
    apply andb_false_iff in Hx1. apply andb_false_iff in Hx2.
    rewrite Z.leb_gt, Z.ltb_ge in Hx1, Hx2.
    change (guest_size s2) with (guest_size s).
    rewrite page_tables_mem_outside by lia.
    apply Hout1. lia.
Qed.

End BootFacts.

Section VcpuFacts.
Import Int Mem Machine Elf Uhyve Props.

Variable host : Host.
Hypothesis Hio : kvm_works host.

(** [vcpu_init(0)] on a loaded guest. *)
Lemma vcpu_init_ok s m mb :
  guest_mem s = Some m -> mboot s = Some mb ->
  0 <= mb -> mb + 0x34 <= guest_size s ->
  guest_size s mod GUEST_PAGE_SIZE = 0 ->
  0 < guest_size s <= 0x40000000 ->
  sizeof_kvm_run host <= wrap64 (ioctl host (kvm s) Kvm.KVM_GET_VCPU_MMAP_SIZE) ->
  mmap_ok host (wrap64 (ioctl host (kvm s) Kvm.KVM_GET_VCPU_MMAP_SIZE)) = true ->
  malloc_ok host (8 + 100 * 40) = true ->
  exists sr m',
    vcpu_init host 0 s =
      Ret 0
        (set_trace
           (trace s ++ EvClflush (mb + 0x30)
                       :: vcpu_requests host s
                            (ioctl host (vmfd s) (Kvm.KVM_CREATE_VCPU 0)) sr)
           (set_run_mapped true
              (set_sregs sr
                 (set_guest_mem (Some m')
                    (set_vcpufd (ioctl host (vmfd s) (Kvm.KVM_CREATE_VCPU 0)) s)))))
    /\ (forall x, boot_structure x = false ->
                  m' x = store_le 4 m (mb + 0x30) 0 x)
    /\ long_mode (initial_sregs host) sr.
Proof.
  intros Hm Hmb Hmb0 Hroom Hmult Hsize Hrun Hmmap Hmalloc.
  unfold vcpu_init.
  unfold bind at 1. unfold get at 1.
  rewrite Hmb. unfold bind at 1. unfold deref_global, ret at 1.
  unfold bind at 1.
  erewrite guest_load_ok; [| exact Hm |].
  2:{ eapply in_guest_intro; [exact Hm | lia | lia |].
      change (Z.of_nat 4) with 4. lia. }
  pose proof (load_le_range 4 m (mb + 0x20)) as Hgate.
  replace (load_le 4 m (mb + 32) <? 0) with false
    by (symmetry; apply Z.ltb_ge; lia).
  unfold bind at 1. unfold ret at 1.
  unfold bind at 1.
  erewrite guest_store_ok; [| exact Hm |].
  2:{ eapply in_guest_intro; [exact Hm | lia | lia |].
      change (Z.of_nat 4) with 4. lia. }
  unfold bind at 1. unfold emit at 1, modify at 1.
  unfold bind at 1.
  rewrite kvm_ioctl_ok by apply Hio.
  unfold bind at 1. unfold modify at 1.
  unfold bind at 1.
  match goal with
  | |- context [setup_system host ?F 0 ?S] => set (s1 := S)
  end.
  destruct (setup_system_ok host Hio
              (ioctl host (vmfd s) (Kvm.KVM_CREATE_VCPU 0)) s1
              (store_le 4 m (mb + 0x30) 0) eq_refl Hmult Hsize)
    as (sr & m' & Hsys & Hout & Hcr3).
rewrite Hsys.
  unfold bind at 1.
  rewrite kvm_ioctl_ok by apply Hio.
  unfold bind at 1.
  rewrite kvm_ioctl_ok by apply Hio.
  replace (wrap64 (ioctl host (kvm s) Kvm.KVM_GET_VCPU_MMAP_SIZE)
           <? sizeof_kvm_run host) with false
    by (symmetry; apply Z.ltb_ge; exact Hrun).
  unfold bind at 1. unfold ret at 1.
  rewrite Hmmap.
  unfold bind at 1. unfold modify at 1.
  unfold bind at 1.
  unfold setup_cpuid. cbv zeta. rewrite Hmalloc.
  unfold bind at 1. unfold bind at 1. unfold ret at 1.
  unfold bind at 1.
  rewrite kvm_ioctl_ok by apply Hio.
  rewrite kvm_ioctl_ok by apply Hio.
  unfold ret.
  exists sr, m'. split; [| split; [exact Hout | exact Hcr3]].
  unfold s1, vcpu_requests.
  cbn [trace set_trace set_sregs set_guest_mem set_vcpufd set_run_mapped sregs
       ncores guest_mem klog mboot guest_size elf_entry
       vcpu_threads kvm vmfd netfd run_mapped vcpufd
       pread_script tap_script].
  rewrite <- !app_assoc. reflexivity.
Qed.

End VcpuFacts.



(** ** From program start to a vCPU ready to run *)

(** X23.  [uhyve_init] put together.  Started with [mboot] and [klog] still
    [NULL], on a host on which KVM (API version 12) and the mappings
    succeed, with a guest size that is a non-zero multiple of 2 MiB below
    [KVM_32BIT_GAP_SIZE] and an image the loader can stage whose first
    loadable segment is [ph], it returns 0, having issued, in this order:
    [signal], [atexit], the version and VM requests, the [open], [free] and
    [close] of the loader, the registration of the guest memory at slot 0
    and address 0 with the full size, the interrupt controller, and the
    requests of [vcpu_init] with [rip] at the entry point of the image.
    Every byte of every loadable segment is then in guest memory as the
    file has it (zeros beyond [p_filesz]), unless it lies under a boot-info
    field of the first segment, under the word at [mboot + 0x30] that
    [vcpu_init] clears, under the GDT or under the page tables. *)
Theorem uhyve_init_boots (host : Machine.Host) (abi : byte) (path : string)
    (fd : Z) (file : list byte) (s : Machine.state) (ph : Elf.Elf64_Phdr)
    (Hio : Props.kvm_works host)
    (Hkvm : 0 <= Machine.open_kvm host)
    (Hapi : Machine.ioctl host (Machine.open_kvm host) Kvm.KVM_GET_API_VERSION = 12)
    (Hsize : 0 < Props.requested_size host s < Uhyve.KVM_32BIT_GAP_SIZE)
    (Hmult : Props.requested_size host s mod Uhyve.GUEST_PAGE_SIZE = 0)
    (Hmap : Machine.mmap_ok host (Props.requested_size host s) = true)
    (Hopen : Machine.open_file host path = Some (fd, file))
    (Hok : Props.loadable host abi file (Props.requested_size host s) = true)
    (Hfirst : Props.first_load (Props.image_phdrs file) = Some ph)
    (Hscript : forallb Props.benign (Machine.pread_script s) = true)
    (Hfresh : Machine.mboot s = None /\ Machine.klog s = None)
    (Hrun : Machine.sizeof_kvm_run host <=
            Int.wrap64 (Machine.ioctl host (Machine.open_kvm host)
                          Kvm.KVM_GET_VCPU_MMAP_SIZE))
    (Hmmap : Machine.mmap_ok host
               (Int.wrap64 (Machine.ioctl host (Machine.open_kvm host)
                              Kvm.KVM_GET_VCPU_MMAP_SIZE)) = true)
    (Hmalloc : Machine.malloc_ok host (8 + 100 * 40) = true) :
  exists s' m' sr,
    Uhyve.uhyve_init host abi path s = Machine.Ret 0 s'
    /\ Machine.guest_size s' = Props.requested_size host s
    /\ Machine.guest_mem s' = Some m'
    /\ Props.anchors s' =
         (Some (Elf.p_paddr ph), Some (Elf.p_paddr ph + 0x5000),
          Elf.e_entry (Props.image_ehdr file))
    /\ Machine.kvm s' = Machine.open_kvm host
    /\ Machine.vmfd s' = Machine.ioctl host (Machine.open_kvm host) Kvm.KVM_CREATE_VM
    /\ Machine.vcpufd s' = Machine.ioctl host (Machine.vmfd s') (Kvm.KVM_CREATE_VCPU 0)
    /\ Machine.trace s' =
         Machine.trace s
         ++ [Machine.EvSignal Machine.SIGTERM; Machine.EvAtexit;
             Machine.EvIoctl (Machine.kvm s') Kvm.KVM_GET_API_VERSION;
             Machine.EvIoctl (Machine.kvm s') Kvm.KVM_CREATE_VM;
             Machine.EvOpen path; Machine.EvFree; Machine.EvClose fd;
             Machine.EvIoctl (Machine.vmfd s')
               (Kvm.KVM_SET_USER_MEMORY_REGION 0 0 (Props.requested_size host s));
             Machine.EvIoctl (Machine.vmfd s') Kvm.KVM_CREATE_IRQCHIP;
             Machine.EvClflush (Elf.p_paddr ph + 0x30)]
         ++ Props.vcpu_requests host s' (Machine.vcpufd s') sr
    /\ Props.long_mode (Machine.initial_sregs host) sr
    /\ forall i ph' k,
nth_error (Props.image_phdrs file) i = Some ph' ->
         Elf.p_type ph' = Elf.PT_LOAD ->
         0 <= k < Elf.p_memsz ph' ->
         (Props.is_first (Props.image_phdrs file) i = true ->
          Props.boot_info_offset k = false) ->
         Props.boot_structure (Elf.p_paddr ph' + k) = false ->
         (Elf.p_paddr ph' + k < Elf.p_paddr ph + 0x30
          \/ Elf.p_paddr ph + 0x34 <= Elf.p_paddr ph' + k) ->
         m' (Elf.p_paddr ph' + k) =
           if k <? Elf.p_filesz ph'
           then nth (Z.to_nat (Elf.p_offset ph' + k)) file x00
           else x00.
Proof.
  set (gs := Props.requested_size host s) in *.
  destruct Hfresh as [Hmboot Hklog].
  assert (HGAP : Uhyve.KVM_32BIT_GAP_SIZE = 0x30000000) by reflexivity.
  set (kvmfd := Machine.open_kvm host) in *.
  set (vm := Machine.ioctl host kvmfd Kvm.KVM_CREATE_VM).
  (* up to the mapping of the guest *)
  set (s0 := Machine.set_guest_mem (Some Mem.zero_mem)
               (Machine.set_vmfd vm
                  (Machine.set_trace
                     (Machine.trace s
                      ++ [Machine.EvSignal Machine.SIGTERM; Machine.EvAtexit;
                          Machine.EvIoctl kvmfd Kvm.KVM_GET_API_VERSION;
                          Machine.EvIoctl kvmfd Kvm.KVM_CREATE_VM])
                     (Machine.set_kvm kvmfd (Machine.set_guest_size gs s))))).
  assert (Hpro :
    Uhyve.uhyve_init host abi path s =
    Machine.bind (Uhyve.load_kernel host abi path)
      (fun r =>
         Machine.bind
           (if negb (r =? 0) then Machine.exit Machine.EXIT_FAILURE
            else Machine.ret tt)
           (fun _ =>
              Machine.bind
                (Uhyve.kvm_ioctl host vm
                   (Kvm.KVM_SET_USER_MEMORY_REGION 0 Uhyve.GUEST_OFFSET gs))
                (fun _ =>
                   Machine.bind (Uhyve.kvm_ioctl host vm Kvm.KVM_CREATE_IRQCHIP)
                     (fun _ => Uhyve.vcpu_init host 0)))) s0).
  { unfold Uhyve.uhyve_init.
    unfold Machine.bind at 1. unfold Machine.emit at 1, Machine.modify at 1.
    unfold Machine.bind at 1. unfold Machine.emit at 1, Machine.modify at 1.
    unfold Machine.bind at 1.
    match goal with
    | |- context [match Machine.getenv host "HERMIT_MEM" with
                  | Some _ => _ | None => _ end ?S] =>
        assert (Hsz : match Machine.getenv host "HERMIT_MEM" with
                      | Some str =>
                          Machine.modify
                            (Machine.set_guest_size (Memparse.memparse str))
                      | None => Machine.ret tt
                      end S = Machine.Ret tt (Machine.set_guest_size gs S))
    end.
    { unfold gs, Props.requested_size.
      destruct (Machine.getenv host "HERMIT_MEM"); [reflexivity |].
      destruct s; reflexivity. }
    rewrite Hsz. clear Hsz.
    unfold Machine.bind at 1. unfold Machine.modify at 1.
    unfold Machine.bind at 1. fold kvmfd.
    replace (kvmfd <? 0) with false by (symmetry; apply Z.ltb_ge; exact Hkvm).
    unfold Machine.ret at 1.
    unfold Machine.bind at 1. rewrite kvm_ioctl_ok by apply Hio.
    rewrite Hapi. change (negb (12 =? 12)) with false. cbv iota.
    unfold Machine.bind at 1. unfold Machine.ret at 1.
    unfold Machine.bind at 1. rewrite kvm_ioctl_ok by apply Hio.
    fold vm.
    unfold Machine.bind at 1. unfold Machine.modify at 1.
    unfold Machine.bind at 1. unfold Machine.get at 1.
    match goal with
    | |- context [Machine.c_assert (Machine.guest_size ?S <? _)] =>
        change (Machine.guest_size S) with gs
    end.
    replace (gs <? Uhyve.KVM_32BIT_GAP_SIZE) with true
      by (symmetry; apply Z.ltb_lt; lia).
    replace (gs =? 0) with false by (symmetry; apply Z.eqb_neq; lia).
    rewrite Hmap. cbn [negb andb].
    unfold Machine.c_assert.
    unfold Machine.bind at 1. unfold Machine.ret at 1.
    unfold Machine.bind at 1. unfold Machine.modify at 1.
    unfold s0.
    cbn [Machine.trace Machine.set_trace Machine.set_kvm Machine.set_guest_size
         Machine.set_vmfd Machine.set_guest_mem
         Machine.ncores Machine.guest_mem Machine.klog Machine.mboot
         Machine.guest_size Machine.elf_entry Machine.vcpu_threads Machine.kvm
         Machine.vmfd Machine.netfd Machine.run_mapped Machine.vcpufd
         Machine.sregs Machine.pread_script Machine.tap_script].
    rewrite <- !app_assoc. reflexivity. }
  (* the loader *)
  destruct (load_kernel_ok host abi file path fd s0 Mem.zero_mem gs Hopen
              ltac:(repeat split; assumption) ltac:(lia) Hok)
    as (s1 & Hload & (Hm1 & Hgs1 & _) & Ha1 & Ht1 & Hh1).
  change (Machine.mboot s0) with (Machine.mboot s) in Ha1.
  change (Machine.klog s0) with (Machine.klog s) in Ha1.
  rewrite Hmboot, Hklog, anchored_fresh, Hfirst in Ha1.
  assert (Hmb1 : Machine.mboot s1 = Some (Elf.p_paddr ph))
    by exact (f_equal (fun a => fst (fst a)) Ha1).
  assert (Hkl1 : Machine.klog s1 = Some (Elf.p_paddr ph + 0x5000))
    by exact (f_equal (fun a => snd (fst a)) Ha1).
  assert (Hen1 : Machine.elf_entry s1 = Elf.e_entry (Props.image_ehdr file))
    by exact (f_equal snd Ha1).
  assert (Hk1 : Machine.kvm s1 = kvmfd)
    by exact (f_equal (fun h => fst (fst (fst h))) Hh1).
  assert (Hv1 : Machine.vmfd s1 = vm)
    by exact (f_equal (fun h => snd (fst (fst h))) Hh1).
  clear Ha1 Hh1.
  (* what the image guarantees about its first segment *)
  pose proof Hok as Hok'.
  unfold Props.loadable in Hok'. cbv zeta in Hok'. rewrite !andb_true_iff in Hok'.
  destruct Hok' as ((_ & Hsegs) & Hroom).
  rewrite Hfirst in Hroom. apply andb_true_iff in Hroom.
  destruct Hroom as [Hroom _]. apply Z.leb_le in Hroom.
  destruct (first_load_split _ _ Hfirst) as (pre & post & Hsplit & _ & Hisload).
  assert (Hin : In ph (Props.image_phdrs file))
    by (rewrite Hsplit; apply in_or_app; right; now left).
  pose proof (segments_ok_fits _ _ _ ph Hsegs Hin Hisload) as Hfits.
  apply segment_fits_bounds in Hfits.
  destruct Hfits as (_ & Hpad & _).
  (* the rest of [uhyve_init] *)
  rewrite Hpro. unfold Machine.bind at 1. rewrite Hload.
  change (negb (0 =? 0)) with false. cbv iota.
  unfold Machine.bind at 1. unfold Machine.ret at 1.
  unfold Machine.bind at 1. rewrite kvm_ioctl_ok by apply Hio.
  unfold Machine.bind at 1. rewrite kvm_ioctl_ok by apply Hio.
  match goal with
  | |- context [Uhyve.vcpu_init host 0 ?S] => set (s2 := S)
  end.
  destruct (vcpu_init_ok host Hio s2
              (Props.staged file gs (Props.host_mhz host) (Props.image_phdrs file)
                 true Mem.zero_mem)
              (Elf.p_paddr ph))
    as (sr & m' & Hinit & Hout & Hcr3).
  { exact Hm1. }
  { exact Hmb1. }
  { exact Hpad. }
  { change (Machine.guest_size s2) with (Machine.guest_size s1). lia. }
  { change (Machine.guest_size s2) with (Machine.guest_size s1).
    rewrite Hgs1. exact Hmult. }
  { change (Machine.guest_size s2) with (Machine.guest_size s1). lia. }
  { change (Machine.kvm s2) with (Machine.kvm s1). rewrite Hk1. exact Hrun. }
  { change (Machine.kvm s2) with (Machine.kvm s1). rewrite Hk1. exact Hmmap. }
  { exact Hmalloc. }
  rewrite Hinit.
  eexists. exists m', sr.
  split; [reflexivity |].
  split; [exact Hgs1 |].
  split; [reflexivity |].
  split.
  { unfold Props.anchors.
    change (Machine.mboot _) with (Machine.mboot s1) at 1.
    change (Machine.klog _) with (Machine.klog s1) at 1.
    change (Machine.elf_entry _) with (Machine.elf_entry s1) at 1.
    rewrite Hmb1, Hkl1, Hen1. reflexivity. }
  split; [exact Hk1 |].
  split; [exact Hv1 |].
  split.
  { cbn [Machine.vcpufd Machine.set_trace Machine.set_run_mapped Machine.set_sregs
         Machine.set_guest_mem Machine.set_vcpufd Machine.vmfd]. reflexivity. }
  split.
  { cbn [Machine.trace Machine.set_trace].
    unfold s2 at 1.
    cbn [Machine.trace Machine.set_trace].
    rewrite Ht1. unfold s0 at 1.
    cbn [Machine.trace Machine.set_trace Machine.set_kvm Machine.set_guest_size
         Machine.set_vmfd Machine.set_guest_mem].
    unfold Props.vcpu_requests.
    cbn [Machine.vcpufd Machine.set_trace Machine.set_run_mapped Machine.set_sregs
         Machine.set_guest_mem Machine.set_vcpufd Machine.vmfd Machine.kvm
         Machine.elf_entry].
    rewrite <- !app_assoc.
    change (Machine.kvm s2) with (Machine.kvm s1).
    change (Machine.vmfd s2) with (Machine.vmfd s1).
    rewrite Hk1, Hv1. reflexivity. }
  split; [exact Hcr3 |].
  intros i ph' k Hnth Htype Hk Hboot Hstruct Hword.
rewrite Hout by exact Hstruct.
  rewrite store_le_outside by (change (Z.of_nat 4) with 4; lia).
  apply (staged_segment file gs (Props.host_mhz host) (Props.image_phdrs file)
           i ph' Mem.zero_mem k); try assumption.
  unfold Props.is_load. rewrite Htype. reflexivity.
Qed.

Lemma uhyve_init_boots_witness :
  exists s',
    Uhyve.uhyve_init (Demo.host Demo.no_env Demo.image) Demo.osabi "kernel"
      Demo.start = Machine.Ret 0 s'
    /\ Machine.mboot s' = Some 0x800000
    /\ Machine.vcpufd s' = 5.
Proof.
  assert (Hio : Props.kvm_works (Demo.host Demo.no_env Demo.image))
    by (intros fd req; destruct req; intros H; discriminate H).
  destruct (uhyve_init_boots (Demo.host Demo.no_env Demo.image) Demo.osabi
              "kernel" 6 Demo.image Demo.start Demo.text_phdr Hio
              ltac:(intros H; discriminate H) eq_refl
              ltac:(split; reflexivity) eq_refl eq_refl eq_refl
              ltac:(vm_compute; reflexivity) ltac:(vm_compute; reflexivity)
              eq_refl (conj eq_refl eq_refl)
              ltac:(intros H; discriminate H) eq_refl eq_refl)
    as (s' & m' & sr & Hrun & _ & _ & Ha & _ & _ & Hfd & _).
  exists s'. split; [exact Hrun |]. split.
  - exact (f_equal (fun a => fst (fst a)) Ha).
  - exact Hfd.
Defined.

(** ** The other processors *)

(** X24.  [vcpu_init] for a processor other than the first waits as long as
    the word at [mboot + 0x20] is below its number.  Once the guest has
    raised it, the function stores the number at [mboot + 0x30], creates
    the vCPU, and hands KVM the special registers as the boot processor
    left them: it builds neither a GDT nor page tables, and guest memory
    changes in that one word only. *)
Theorem vcpu_init_secondary (host : Machine.Host) (s : Machine.state)
    (m : Mem.mem) (mb id : Z)
    (Hio : Props.kvm_works host)
    (Hid : id <> 0)
    (Hmem : Machine.guest_mem s = Some m)
    (Hmboot : Machine.mboot s = Some mb)
    (Hmb : 0 <= mb /\ mb + 0x34 <= Machine.guest_size s)
    (Hrun : Machine.sizeof_kvm_run host <=
            Int.wrap64 (Machine.ioctl host (Machine.kvm s) Kvm.KVM_GET_VCPU_MMAP_SIZE))
    (Hmmap : Machine.mmap_ok host
               (Int.wrap64 (Machine.ioctl host (Machine.kvm s)
                              Kvm.KVM_GET_VCPU_MMAP_SIZE)) = true)
    (Hmalloc : Machine.malloc_ok host (8 + 100 * 40) = true) :
  (Mem.load_le 4 m (mb + 0x20) < id ->
   Uhyve.vcpu_init host id s = Machine.Blocked s)
  /\
  (id <= Mem.load_le 4 m (mb + 0x20) ->
   let fd := Machine.ioctl host (Machine.vmfd s) (Kvm.KVM_CREATE_VCPU id) in
   Uhyve.vcpu_init host id s =
     Machine.Ret 0
       (Machine.set_trace
          (Machine.trace s
           ++ [Machine.EvClflush (mb + 0x30);
               Machine.EvIoctl (Machine.vmfd s) (Kvm.KVM_CREATE_VCPU id);
               Machine.EvIoctl fd (Kvm.KVM_SET_SREGS (Machine.sregs s));
               Machine.EvIoctl fd
                 (Kvm.KVM_SET_REGS (Kvm.mkRegs (Machine.elf_entry s) 2 2 0 0x2));
               Machine.EvIoctl (Machine.kvm s) Kvm.KVM_GET_VCPU_MMAP_SIZE;
               Machine.EvIoctl (Machine.kvm s) Kvm.KVM_GET_SUPPORTED_CPUID;
               Machine.EvIoctl fd
                 (Kvm.KVM_SET_CPUID2
                    (Uhyve.filter_cpuid (Machine.supported_cpuid host)))])
          (Machine.set_run_mapped true
             (Machine.set_guest_mem (Some (Mem.store_le 4 m (mb + 0x30) id))
                (Machine.set_vcpufd fd s))))).
Proof.
  destruct Hmb as [Hmb0 Hroom].
  assert (Hin20 : Uhyve.in_guest s (mb + 0x20) (Z.of_nat 4) = true).
  { eapply in_guest_intro; [exact Hmem | lia | lia |].
    change (Z.of_nat 4) with 4. lia. }
  assert (Hin30 : Uhyve.in_guest s (mb + 0x30) (Z.of_nat 4) = true).
  { eapply in_guest_intro; [exact Hmem | lia | lia |].
    change (Z.of_nat 4) with 4. lia. }
  split.
  - intros Hgate. unfold Uhyve.vcpu_init.
    unfold Machine.bind at 1. unfold Machine.get at 1.
    rewrite Hmboot. unfold Machine.bind at 1.
    unfold Uhyve.deref_global, Machine.ret at 1.
    unfold Machine.bind at 1.
    rewrite (guest_load_ok _ _ _ _ Hmem Hin20).
    replace (Mem.load_le 4 m (mb + 32) <? id) with true
      by (symmetry; apply Z.ltb_lt; exact Hgate).
    reflexivity.
  - intros Hgate. cbv zeta. unfold Uhyve.vcpu_init.
    unfold Machine.bind at 1. unfold Machine.get at 1.
    rewrite Hmboot. unfold Machine.bind at 1.
    unfold Uhyve.deref_global, Machine.ret at 1.
    unfold Machine.bind at 1.
    rewrite (guest_load_ok _ _ _ _ Hmem Hin20).
    replace (Mem.load_le 4 m (mb + 32) <? id) with false
      by (symmetry; apply Z.ltb_ge; exact Hgate).
    unfold Machine.bind at 1. unfold Machine.ret at 1.
    unfold Machine.bind at 1.
    rewrite (guest_store_ok _ _ _ _ _ Hmem Hin30).
    unfold Machine.bind at 1. unfold Machine.emit at 1, Machine.modify at 1.
    unfold Machine.bind at 1.
    rewrite kvm_ioctl_ok by apply Hio.
    unfold Machine.bind at 1. unfold Machine.modify at 1.
    unfold Machine.bind at 1.
    unfold Uhyve.setup_system.
    replace (id =? 0) with false by (symmetry; apply Z.eqb_neq; exact Hid).
    unfold Machine.bind at 1. unfold Machine.bind at 1. unfold Machine.ret at 1.
    unfold Machine.bind at 1. unfold Machine.get at 1.
    unfold Machine.bind at 1.
    rewrite kvm_ioctl_ok by apply Hio.
    unfold Machine.ret at 1.
    unfold Machine.bind at 1.
    rewrite kvm_ioctl_ok by apply Hio.
    unfold Machine.bind at 1.
    rewrite kvm_ioctl_ok by apply Hio.
    replace (Int.wrap64 (Machine.ioctl host (Machine.kvm s) Kvm.KVM_GET_VCPU_MMAP_SIZE)
             <? Machine.sizeof_kvm_run host) with false
      by (symmetry; apply Z.ltb_ge; exact Hrun).
    unfold Machine.bind at 1. unfold Machine.ret at 1.
    rewrite Hmmap.
    unfold Machine.bind at 1. unfold Machine.modify at 1.
    unfold Uhyve.setup_cpuid. cbv zeta. rewrite Hmalloc.
    unfold Machine.bind at 1. unfold Machine.ret at 1.
    unfold Machine.bind at 1.
    rewrite kvm_ioctl_ok by apply Hio.
    try unfold Machine.bind at 1.
    rewrite kvm_ioctl_ok by apply Hio.
    unfold Machine.ret.
    cbn [Machine.trace Machine.set_trace Machine.set_sregs Machine.set_guest_mem
         Machine.set_vcpufd Machine.set_run_mapped Machine.sregs
         Machine.ncores Machine.guest_mem Machine.klog Machine.mboot
         Machine.guest_size Machine.elf_entry
         Machine.vcpu_threads Machine.kvm Machine.vmfd Machine.netfd
         Machine.run_mapped Machine.vcpufd
         Machine.pread_script Machine.tap_script].
    rewrite <- !app_assoc. reflexivity.
Qed.

Lemma vcpu_init_secondary_witness :
  Uhyve.vcpu_init (Demo.host Demo.no_env []) 1 Demo.loaded
    = Machine.Blocked Demo.loaded
  /\ exists s',
       Uhyve.vcpu_init (Demo.host Demo.no_env []) 1 Demo.gate_open
         = Machine.Ret 0 s'
       /\ Machine.guest_mem s' =
            Some (Mem.store_le 4 (Mem.store_le 4 Mem.zero_mem 0x800020 1) 0x800030 1)
       /\ Machine.sregs s' = Machine.sregs Demo.gate_open.
Proof.
  assert (Hio : Props.kvm_works (Demo.host Demo.no_env []))
    by (intros fd req; destruct req; intros H; discriminate H).
  split.
  - exact (proj1 (vcpu_init_secondary (Demo.host Demo.no_env []) Demo.loaded
                    Mem.zero_mem 0x800000 1 Hio
                    ltac:(intros H; discriminate H) eq_refl eq_refl
                    ltac:(split; intros H; discriminate H)
                    ltac:(intros H; discriminate H) eq_refl eq_refl)
                 eq_refl).
  - eexists. split.
    + exact (proj2 (vcpu_init_secondary (Demo.host Demo.no_env []) Demo.gate_open
                      (Mem.store_le 4 Mem.zero_mem 0x800020 1) 0x800000 1 Hio
                      ltac:(intros H; discriminate H) eq_refl eq_refl
                      ltac:(split; intros H; discriminate H)
                      ltac:(intros H; discriminate H) eq_refl eq_refl)
                   ltac:(intros H; discriminate H)).
    + split; reflexivity.
Defined.

(** ** What [uhyve_init] insists on *)

Section InitInsists.
Import Int Mem Machine Elf Uhyve Props.

Variable host : Host.

(** Page-table set-up returns only past its two assertions. *)
Lemma setup_system_page_tables_ret_inv s u s' :
  setup_system_page_tables s = Ret u s' ->
  Z.land (guest_size s) (GUEST_PAGE_SIZE - 1) = 0
  /\ guest_size s <= GUEST_PAGE_SIZE * 512.
Proof.
  unfold setup_system_page_tables. cbv zeta. intros H.
  apply bind_ret_inv in H. destruct H as (s0 & s1 & Hget & H).
  inversion Hget; subst s0 s1.
  apply bind_ret_inv in H. destruct H as (u1 & s2 & H1 & H).
  apply assert_ret_inv in H1. destruct H1 as [Hland ->].
  apply bind_ret_inv in H. destruct H as (u2 & s3 & H2 & _).
  apply assert_ret_inv in H2. destruct H2 as [Hle _].
  split; [now apply Z.eqb_eq | now apply Z.leb_le].
Qed.

Lemma keeps_setup_system_gdt off : keeps_size (setup_system_gdt off).
Proof.
  unfold setup_system_gdt, modify_sregs, guest_store. cbv zeta.
  repeat keeps_step.
Qed.

(** [setup_system] for the boot processor returns only if page-table
  set-up does. *)
Lemma setup_system_ret_inv fd s u s' :
  setup_system host fd 0 s = Ret u s' ->
  Z.land (guest_size s) (GUEST_PAGE_SIZE - 1) = 0
  /\ guest_size s <= GUEST_PAGE_SIZE * 512.
Proof.
  unfold setup_system. change (0 =? 0) with true. cbv iota. intros H.
  apply bind_ret_inv in H. destruct H as (u0 & s0 & H & _).
  apply bind_ret_inv in H. destruct H as (u1 & s1 & H1 & H).
  apply bind_ret_inv in H. destruct H as (u2 & s2 & H2 & H).
  apply bind_ret_inv in H. destruct H as (u3 & s3 & H3 & H).
  apply bind_ret_inv in H. destruct H as (u4 & s4 & H4 & _).
  apply keeps_ret_inv in H1; [| apply keeps_kvm_ioctl].
  apply keeps_ret_inv in H2; [| keeps_step; reflexivity].
  apply keeps_ret_inv in H3; [| apply keeps_setup_system_gdt].
  apply setup_system_page_tables_ret_inv in H4.
  rewrite H3, H2, H1 in H4. exact H4.
Qed.

Lemma vcpu_init_ret_inv s r s' :
  vcpu_init host 0 s = Ret r s' ->
  Z.land (guest_size s) (GUEST_PAGE_SIZE - 1) = 0
  /\ guest_size s <= GUEST_PAGE_SIZE * 512.
Proof.
  unfold vcpu_init. intros H.
  apply bind_ret_inv in H. destruct H as (s0 & s1 & Hget & H).
  inversion Hget; subst s0 s1.
  apply bind_ret_inv in H. destruct H as (mb & s2 & H2 & H).
  apply bind_ret_inv in H. destruct H as (gate & s3 & H3 & H).
  apply bind_ret_inv in H. destruct H as (u4 & s4 & H4 & H).
  apply bind_ret_inv in H. destruct H as (u5 & s5 & H5 & H).
  apply bind_ret_inv in H. destruct H as (u6 & s6 & H6 & H).
  apply bind_ret_inv in H. destruct H as (fd & s7 & H7 & H).
  apply bind_ret_inv in H. destruct H as (u8 & s8 & H8 & H).
  apply bind_ret_inv in H. destruct H as (u9 & s9 & H9 & _).
  apply keeps_ret_inv in H2; [| apply keeps_deref_global].
  apply keeps_ret_inv in H3; [| apply keeps_guest_load].
  apply keeps_ret_inv in H4; [| destruct (gate <? 0); keeps_step].
  apply keeps_ret_inv in H5; [| unfold guest_store; keeps_step].
  apply keeps_ret_inv in H6; [| keeps_step].
  apply keeps_ret_inv in H7; [| apply keeps_kvm_ioctl].
  apply keeps_ret_inv in H8; [| keeps_step; reflexivity].
  apply setup_system_ret_inv in H9.
  rewrite H8, H7, H6, H5, H4, H3, H2 in H9. exact H9.
Qed.

End InitInsists.


